(** * QuantumWorkloadGenerator: arrival-time synthesis, embedded and verified

    Shallow embedding of [datasetwithtime_generation.py]: the class
    [QuantumWorkloadGenerator], its seven generator methods and the dispatcher
    [generate_workload].

    Modelling conventions.
    - A [timedelta] is its integer number of microseconds.  A [datetime] is
      naive: the microsecond count of its wall-clock reading since 1970,
      together with its [fold] attribute, which [datetime.now()] may set and
      which every sum [datetime + timedelta] clears.  Both counts are
      unbounded integers (the [OverflowError] Python raises beyond year 9999
      or beyond a billion days is outside the model).
    - [datetime.timestamp()] interprets a naive datetime, reading and fold,
      in the local time zone and returns binary64 seconds.  It is a
      parameter, [to_timestamp], from datetimes to rationals (every binary64
      value is one); what a property needs of it (order preservation, exact
      or accurate differences) is a hypothesis of that property.
    - The module-level generator of [random] is an oracle: the k-th call made
      to it is answered by the k-th entry of the matching table of [Rng],
      whether the call is [random.random()], [random.uniform] (wrapped in
      [timedelta(seconds=...)]) or [random.randint]; numpy's generator, used
      by [DataFrame.sample], is a table of row picks.
    - A [while] loop takes fuel; [None] means the fuel ran out before the loop
      condition became false.
    - A [DataFrame] is column oriented: row labels plus named columns, in
      column order. *)

From Stdlib Require Import ZArith QArith Qabs List String Bool Lia Lqa.
Import ListNotations.
Open Scope string_scope.
Open Scope list_scope.
Open Scope Z_scope.

(** ** Python values, exceptions and control flow *)

Module Py.

Inductive exn : Type :=
| ValueError
| ZeroDivisionError
| TypeError
| IndexError.

Inductive result (A : Type) : Type :=
| Ok (a : A)
| Raise (e : exn).
Arguments Ok {A} a.
Arguments Raise {A} e.

Definition bind {A B : Type} (r : result A) (k : A -> result B) : result B :=
  match r with
  | Ok a => k a
  | Raise e => Raise e
  end.

(** [a % b] on integers: floor remainder, [ZeroDivisionError] on [b = 0]. *)
Definition py_mod (a b : Z) : result Z :=
  if b =? 0 then Raise ZeroDivisionError else Ok (a mod b).

(** [range(n)]: empty for [n <= 0]. *)
Definition range (n : Z) : list Z := map Z.of_nat (seq 0 (Z.to_nat n)).

(** [len(l)] as a Python integer. *)
Definition len {A : Type} (l : list A) : Z := Z.of_nat (List.length l).

(** [l[:n]]: a negative stop counts from the end. *)
Definition slice_to {A : Type} (l : list A) (n : Z) : list A :=
  if 0 <=? n then firstn (Z.to_nat n) l
  else firstn (List.length l - Z.to_nat (- n)) l.

(** [for i in it: s = body(i, s)], leaving at the first exception. *)
Fixpoint for_each {St : Type} (body : Z -> St -> result St) (it : list Z)
         (s : St) : result St :=
  match it with
  | [] => Ok s
  | i :: rest => bind (body i s) (for_each body rest)
  end.

(** [while cond(s): s = body(s)] with fuel. *)
Fixpoint while {St : Type} (fuel : nat) (cond : St -> bool)
         (body : St -> result St) (s : St) : option (result St) :=
  if cond s then
    match fuel with
    | O => None
    | S fuel' =>
        match body s with
        | Ok s' => while fuel' cond body s'
        | Raise e => Some (Raise e)
        end
    end
  else Some (Ok s).

End Py.
Import Py.

Notation "x <- e ;; k" := (bind e (fun x => k))
  (at level 61, e at next level, right associativity).

(** ** datetime / timedelta arithmetic *)

Module Time.

Definition timedelta : Type := Z.

(** A naive datetime: its wall-clock reading, in microseconds since 1970,
    and its [fold] attribute, which tells the second occurrence of a reading
    from the first where the clocks were put back. *)
Record datetime : Type := {
  wall : Z;
  fold : bool
}.

Definition at_wall (us : Z) : datetime := {| wall := us; fold := false |}.

(** [datetime + timedelta]: the sum has [fold = 0]. *)
Definition dt_add (t : datetime) (d : timedelta) : datetime :=
  at_wall (wall t + d).

Definition seconds (s : Z) : timedelta := s * 1000000.
Definition minutes (m : Z) : timedelta := m * 60000000.

(** [datetime._divide_and_round]: quotient rounded to nearest, ties to even. *)
Definition divide_and_round (a b : Z) : Z :=
  let q := a / b in
  let r := 2 * (a mod b) in
  let greater_than_half := if 0 <? b then b <? r else r <? b in
  if greater_than_half || ((r =? b) && (q mod 2 =? 1)) then q + 1 else q.

(** [timedelta / int]. *)
Definition td_div (d : timedelta) (k : Z) : result timedelta :=
  if k =? 0 then Raise ZeroDivisionError else Ok (divide_and_round d k).

End Time.
Import Time.

(** ** The random sources *)

Module Rand.

Record Rng : Type := {
  (* value of [random.random()] when it is the k-th call *)
  unit_sample : nat -> Q;
  (* value of [timedelta(seconds=random.uniform(0, span.total_seconds() / parts))]
     when it is the k-th call; [parts] is 1 where the source does not divide *)
  uniform_delta : nat -> timedelta -> Z -> timedelta;
  (* value of [random.randint(1, hi)] when it is the k-th call and [1 <= hi] *)
  randint_draw : nat -> Z -> Z;
  (* k-th raw draw of numpy's generator *)
  row_pick : nat -> nat
}.

(** What the library guarantees of the answers: unit samples lie in the
    half-open unit interval, a uniform draw over a non-negative span is not
    negative, and an integer draw lies in its range. *)
Definition valid (g : Rng) : Prop :=
  (forall k, (0 <= unit_sample g k)%Q /\ (unit_sample g k < 1)%Q)
  /\ (forall k span parts, 0 <= span -> 0 < parts -> 0 <= uniform_delta g k span parts)
  /\ (forall k hi, 1 <= hi -> 1 <= randint_draw g k hi <= hi).

(** A uniform draw over the whole span does not exceed the span. *)
Definition capped (g : Rng) : Prop :=
  forall k span, 0 <= span -> uniform_delta g k span 1 <= span.

(** [random.random() < p]. *)
Definition below (u p : Q) : bool := negb (Qle_bool p u).

(** [random.randint(1, hi)] as the k-th call: [ValueError] on an empty range. *)
Definition randint1 (g : Rng) (k : nat) (hi : Z) : result Z :=
  if hi <? 1 then Raise ValueError else Ok (randint_draw g k hi).

End Rand.
Import Rand.

(** ** pandas.DataFrame *)

Module Frame.

Inductive cell : Type :=
| CAttr (s : string)     (* a task-pool attribute, opaque to the generators *)
| CInt (z : Z)
| CStamp (t : Q)         (* a timestamp, seconds *)
| CNaN.

Record DataFrame : Type := {
  index : list Z;
  columns : list (string * list cell)
}.

Definition column_names (df : DataFrame) : list string := map fst (columns df).

Definition has_column (name : string) (df : DataFrame) : bool :=
  existsb (String.eqb name) (column_names df).

Fixpoint get_column (name : string) (cols : list (string * list cell))
  : option (list cell) :=
  match cols with
  | [] => None
  | (c, vals) :: rest => if String.eqb name c then Some vals else get_column name rest
  end.

(** The record at row position [i]: its fields in column order. *)
Definition record (df : DataFrame) (i : nat) : list (string * cell) :=
  map (fun c => (fst c, nth i (snd c) CNaN)) (columns df).

Definition records (df : DataFrame) : list (list (string * cell)) :=
  map (record df) (seq 0 (List.length (index df))).

(** [df.sample(n=n, replace=True)]: a negative [n] is refused; rows cannot be
    drawn from an empty frame unless none are asked for. *)
Definition sample (df : DataFrame) (n : Z) (g : Rng) : result DataFrame :=
  if n <? 0 then Raise ValueError
  else if (0 <? n) && (List.length (index df) =? 0)%nat then Raise ValueError
  else
    let rows := map (fun k => (row_pick g k mod List.length (index df))%nat)
                    (seq 0 (Z.to_nat n)) in
    Ok {| index := map (fun r => nth r (index df) 0) rows;
          columns := map (fun c => (fst c, map (fun r => nth r (snd c) CNaN) rows))
                         (columns df) |}.

Definition reset_index (df : DataFrame) : DataFrame :=
  {| index := range (len (index df)); columns := columns df |}.

Fixpoint set_column (name : string) (vals : list cell)
         (cols : list (string * list cell)) : list (string * list cell) :=
  match cols with
  | [] => [(name, vals)]
  | (c, old) :: rest =>
      if String.eqb name c then (c, vals) :: rest
      else (c, old) :: set_column name vals rest
  end.

(** [df[name] = vals] for a list.  The lengths must agree, except that a
    frame without rows takes the length of a non-empty [vals]: its rows
    become 0, 1, ... and its other columns are filled with NaN. *)
Definition setitem (df : DataFrame) (name : string) (vals : list cell)
  : result DataFrame :=
  if (List.length vals =? List.length (index df))%nat
  then Ok {| index := index df; columns := set_column name vals (columns df) |}
  else if (List.length (index df) =? 0)%nat
  then Ok {| index := range (len vals);
             columns := set_column name vals
                          (map (fun c => (fst c, repeat CNaN (List.length vals)))
                               (columns df)) |}
  else Raise ValueError.

Fixpoint lookup_label (l : Z) (labels : list Z) (vals : list cell) : cell :=
  match labels, vals with
  | l' :: labels', v :: vals' => if l =? l' then v else lookup_label l labels' vals'
  | _, _ => CNaN
  end.

Fixpoint has_dup (l : list Z) : bool :=
  match l with
  | [] => false
  | x :: r => existsb (Z.eqb x) r || has_dup r
  end.

(** [df[name] = series]: aligned on the row labels. *)
Definition setitem_series (df : DataFrame) (name : string)
           (labels : list Z) (vals : list cell) : result DataFrame :=
  if list_eq_dec Z.eq_dec labels (index df)
  then Ok {| index := index df; columns := set_column name vals (columns df) |}
  else if has_dup labels then Raise ValueError
  else Ok {| index := index df;
             columns := set_column name
                          (map (fun l => lookup_label l labels vals) (index df))
                          (columns df) |}.

(** [df.insert(loc, name, v)] with a scalar [v]. *)
Definition insert (df : DataFrame) (loc : nat) (name : string) (v : cell)
  : result DataFrame :=
  if has_column name df then Raise ValueError
  else if (List.length (columns df) <? loc)%nat then Raise IndexError
  else Ok {| index := index df;
             columns := firstn loc (columns df)
                        ++ (name, repeat v (List.length (index df)))
                        :: skipn loc (columns df) |}.

End Frame.
Import Frame.

(** What a generator call leaves behind: the file written by [to_csv] and the
    frame it returns. *)
Record Output : Type := {
  csv : string;
  frame : DataFrame
}.

Definition to_csv (df : DataFrame) (path : string) : Output :=
  {| csv := path; frame := df |}.

(** ** The moving cursor shared by all strategies *)

Record cursor : Type := {
  timestamps : list Q;      (* the values appended so far *)
  current_time : datetime;
  drawn : nat               (* calls made to [random] so far *)
}.

Definition start (base_time : datetime) : cursor :=
  {| timestamps := []; current_time := base_time; drawn := 0 |}.

Definition full (num_qtasks : Z) (s : cursor) : bool :=
  len (timestamps s) >=? num_qtasks.

(** [timestamps.append(current_time.timestamp()); current_time += d] *)
Definition emit_then_advance (to_timestamp : datetime -> Q) (d : timedelta)
           (s : cursor) : cursor :=
  {| timestamps := timestamps s ++ [to_timestamp (current_time s)];
     current_time := dt_add (current_time s) d;
     drawn := drawn s |}.

(** [current_time += d; timestamps.append(current_time.timestamp())] *)
Definition advance_then_emit (to_timestamp : datetime -> Q) (d : timedelta)
           (s : cursor) : cursor :=
  {| timestamps := timestamps s ++ [to_timestamp (dt_add (current_time s) d)];
     current_time := dt_add (current_time s) d;
     drawn := drawn s |}.

(** One call to
    [timedelta(seconds=random.uniform(0, span.total_seconds() / parts))]. *)
Definition draw_uniform (g : Rng) (span : timedelta) (parts : Z) (s : cursor)
  : timedelta * cursor :=
  (uniform_delta g (drawn s) span parts,
   {| timestamps := timestamps s; current_time := current_time s;
      drawn := S (drawn s) |}).

(** The capped burst loop of the bursty, regular-spike and random-burst
    strategies:
      for _ in range(k):
          if len(timestamps) >= num_qtasks: break
          timestamps.append(current_time.timestamp())
          current_time += timedelta(seconds=random.uniform(0, span / parts)) *)
Fixpoint burst_loop (to_timestamp : datetime -> Q) (g : Rng) (k : nat)
         (num_qtasks : Z) (span : timedelta) (parts : Z) (s : cursor) : cursor :=
  match k with
  | O => s
  | S k' =>
      if full num_qtasks s then s
      else
        let (d, s1) := draw_uniform g span parts s in
        burst_loop to_timestamp g k' num_qtasks span parts
                   (emit_then_advance to_timestamp d s1)
  end.

Definition stamps (ts : list Q) : list cell := map CStamp ts.

(** [current_time += d] *)
Definition advance (d : timedelta) (s : cursor) : cursor :=
  {| timestamps := timestamps s;
     current_time := dt_add (current_time s) d;
     drawn := drawn s |}.

(** One call to [random] whose value is used elsewhere. *)
Definition tick (s : cursor) : cursor :=
  {| timestamps := timestamps s;
     current_time := current_time s;
     drawn := S (drawn s) |}.

(** Results of code that may also run out of fuel. *)
Definition run (A : Type) : Type := option (result A).

Definition and_then {A B : Type} (r : run A) (k : A -> run B) : run B :=
  match r with
  | None => None
  | Some (Raise e) => Some (Raise e)
  | Some (Ok a) => k a
  end.

Definition total {A : Type} (r : result A) : run A := Some r.

(** ** class QuantumWorkloadGenerator *)

Section QuantumWorkloadGenerator.

Variable available_datasets : DataFrame.   (* self.available_datasets *)
Variable g : Rng.                          (* the random sources *)
Variable now : datetime.                   (* the value of datetime.now() *)
Variable to_timestamp : datetime -> Q.     (* datetime.timestamp() *)

(** *** generate_single_spike_dataset *)

Definition single_spike_burst (burst_duration : timedelta) (s : cursor) : cursor :=
  let (d, s1) := draw_uniform g burst_duration 1 s in
  advance_then_emit to_timestamp d s1.

Definition single_spike_timestamps (num_qtasks : Z)
           (burst_duration normal_interval : timedelta) (burst_tasks : Z) : list Q :=
  let s1 := Nat.iter (Z.to_nat burst_tasks)
                     (single_spike_burst burst_duration) (start now) in
  let s2 := Nat.iter (Z.to_nat (num_qtasks - burst_tasks))
                     (advance_then_emit to_timestamp normal_interval) s1 in
  timestamps s2.

Definition generate_single_spike_dataset (num_qtasks : Z)
           (burst_duration normal_interval : timedelta) (burst_tasks : Z)
  : result Output :=
  sample_df <- sample available_datasets num_qtasks g ;;
  let ts := single_spike_timestamps num_qtasks burst_duration normal_interval
                                    burst_tasks in
  sample_df <- setitem sample_df "timestamp" (stamps ts) ;;
  sample_df <- insert sample_df 0 "subset" (CInt 1) ;;
  Ok (to_csv sample_df "single_spike_dataset.csv").

(** *** generate_bursty_dataset *)

Definition bursty_low_activity (fuel : nat) (num_qtasks : Z)
           (low_activity_interval : timedelta) (s : cursor) : run cursor :=
  while fuel (fun s => len (timestamps s) <? num_qtasks)
        (fun s => Ok (emit_then_advance to_timestamp low_activity_interval s)) s.

Definition bursty_timestamps (fuel : nat) (num_qtasks : Z)
           (burst_duration : timedelta) (burst_tasks : Z)
           (low_activity_interval : timedelta) : run (list Q) :=
  let s1 := burst_loop to_timestamp g (Z.to_nat burst_tasks) num_qtasks
                       burst_duration burst_tasks (start now) in
  and_then (bursty_low_activity fuel num_qtasks low_activity_interval s1)
           (fun s2 => total (Ok (slice_to (timestamps s2) num_qtasks))).

Definition generate_bursty_dataset (fuel : nat) (num_qtasks : Z)
           (burst_duration : timedelta) (burst_tasks : Z)
           (low_activity_interval : timedelta) : run Output :=
  and_then (total (sample available_datasets num_qtasks g)) (fun sample_df =>
  and_then (bursty_timestamps fuel num_qtasks burst_duration burst_tasks
                              low_activity_interval) (fun ts =>
  total (sample_df <- setitem sample_df "timestamp" (stamps ts) ;;
         sample_df <- insert sample_df 0 "subset" (CInt 1) ;;
         Ok (to_csv sample_df "bursty_dataset.csv")))).

(** *** simulate_regular_spikes *)

Definition regular_spikes_body (num_qtasks : Z) (spike_interval : timedelta)
           (spike_tasks : Z) (normal_interval : timedelta)
           (i : Z) (s : cursor) : result cursor :=
  r <- py_mod i spike_tasks ;;
  if (r =? 0) && negb (i =? 0) then
    Ok (burst_loop to_timestamp g (Z.to_nat spike_tasks) num_qtasks
                   spike_interval spike_tasks (advance spike_interval s))
  else Ok (emit_then_advance to_timestamp normal_interval s).

Definition regular_spikes_timestamps (num_qtasks : Z) (spike_interval : timedelta)
           (spike_tasks : Z) (normal_interval : timedelta) : result (list Q) :=
  s <- for_each (regular_spikes_body num_qtasks spike_interval spike_tasks
                                     normal_interval)
                (range num_qtasks) (start now) ;;
  Ok (slice_to (timestamps s) num_qtasks).

Definition simulate_regular_spikes (num_qtasks : Z) (spike_interval : timedelta)
           (spike_tasks : Z) (normal_interval : timedelta) : result Output :=
  sample_df <- sample available_datasets num_qtasks g ;;
  ts <- regular_spikes_timestamps num_qtasks spike_interval spike_tasks
                                  normal_interval ;;
  sample_df <- setitem sample_df "timestamp" (stamps ts) ;;
  sample_df <- insert sample_df 0 "subset" (CInt 1) ;;
  Ok (to_csv sample_df "regular_spike_dataset.csv").

(** *** simulate_ramp_up *)

Definition ramp_up_timestamps (num_qtasks : Z)
           (initial_interval final_interval : timedelta) : result (list Q) :=
  interval_step <- td_div (initial_interval - final_interval) (num_qtasks - 1) ;;
  s <- for_each (fun i s =>
                   Ok (emit_then_advance to_timestamp
                                         (initial_interval - i * interval_step) s))
                (range num_qtasks) (start now) ;;
  Ok (slice_to (timestamps s) num_qtasks).

Definition simulate_ramp_up (num_qtasks : Z)
           (initial_interval final_interval : timedelta) : result Output :=
  sample_df <- sample available_datasets num_qtasks g ;;
  ts <- ramp_up_timestamps num_qtasks initial_interval final_interval ;;
  sample_df <- setitem sample_df "timestamp" (stamps ts) ;;
  sample_df <- insert sample_df 0 "subset" (CInt 1) ;;
  Ok (to_csv sample_df "ramp_up_dataset.csv").

(** *** simulate_ramp_down (the [insert] of the subset column is commented
    out in the source) *)

Definition ramp_down_timestamps (num_qtasks : Z)
           (initial_interval final_interval : timedelta) : result (list Q) :=
  interval_step <- td_div (final_interval - initial_interval) (num_qtasks - 1) ;;
  s <- for_each (fun i s =>
                   Ok (emit_then_advance to_timestamp
                                         (initial_interval + i * interval_step) s))
                (range num_qtasks) (start now) ;;
  Ok (slice_to (timestamps s) num_qtasks).

Definition simulate_ramp_down (num_qtasks : Z)
           (initial_interval final_interval : timedelta) : result Output :=
  sample_df <- sample available_datasets num_qtasks g ;;
  ts <- ramp_down_timestamps num_qtasks initial_interval final_interval ;;
  sample_df <- setitem sample_df "timestamp" (stamps ts) ;;
  Ok (to_csv sample_df "ramp_down_dataset.csv").

(** *** generate_random_bursts *)

Definition random_bursts_body (num_qtasks : Z) (burst_chance : Q)
           (burst_duration : timedelta) (max_tasks_in_burst : Z)
           (normal_interval : timedelta) (s : cursor) : result cursor :=
  let u := unit_sample g (drawn s) in
  let s := tick s in
  if below u burst_chance then
    let burst_end_time := dt_add (current_time s) burst_duration in
    k <- randint1 g (drawn s) max_tasks_in_burst ;;
    Ok (burst_loop to_timestamp g (Z.to_nat k) num_qtasks burst_duration 1 (tick s))
  else Ok (emit_then_advance to_timestamp normal_interval s).

Definition random_bursts_loop (fuel : nat) (num_qtasks : Z) (burst_chance : Q)
           (burst_duration : timedelta) (max_tasks_in_burst : Z)
           (normal_interval : timedelta) (s : cursor) : run cursor :=
  while fuel (fun s => len (timestamps s) <? num_qtasks)
        (random_bursts_body num_qtasks burst_chance burst_duration
                            max_tasks_in_burst normal_interval) s.

Definition random_bursts_timestamps (fuel : nat) (num_qtasks : Z)
           (burst_chance : Q) (burst_duration : timedelta)
           (max_tasks_in_burst : Z) (normal_interval : timedelta) : run (list Q) :=
  and_then (random_bursts_loop fuel num_qtasks burst_chance burst_duration
                               max_tasks_in_burst normal_interval (start now))
           (fun s => total (Ok (slice_to (timestamps s) num_qtasks))).

Definition generate_random_bursts (fuel : nat) (num_qtasks : Z)
           (burst_chance : Q) (burst_duration : timedelta)
           (max_tasks_in_burst : Z) (normal_interval : timedelta) : run Output :=
  and_then (total (sample available_datasets num_qtasks g)) (fun sample_df =>
  and_then (random_bursts_timestamps fuel num_qtasks burst_chance burst_duration
                                     max_tasks_in_burst normal_interval) (fun ts =>
  total (sample_df <- setitem sample_df "timestamp" (stamps ts) ;;
         sample_df <- insert sample_df 0 "subset" (CInt 1) ;;
         Ok (to_csv sample_df "random_burst_dataset.csv")))).

(** *** map_invocation_times *)

Definition map_invocation_times (invocation_times : DataFrame) : result Output :=
  let num_qtasks := len (index invocation_times) in
  sample_df <- sample available_datasets num_qtasks g ;;
  let sample_df := reset_index sample_df in
  match get_column "timestamp" (columns invocation_times) with
  | None => Raise ValueError
  | Some series =>
      sample_df <- setitem_series sample_df "timestamp"
                                  (index invocation_times) series ;;
      sample_df <- insert sample_df 0 "subset" (CInt 1) ;;
      Ok (to_csv sample_df "map_invocation_times_dataset.csv")
  end.

(** *** generate_workload

    [**kwargs] is one of the keyword sets below; passing a set to a method
    whose parameters have other names is a [TypeError].  The two ramp
    methods take the same keywords. *)

Inductive kwargs : Type :=
| KwSingleSpike (num_qtasks : Z) (burst_duration normal_interval : timedelta)
                (burst_tasks : Z)
| KwBursty (num_qtasks : Z) (burst_duration : timedelta) (burst_tasks : Z)
           (low_activity_interval : timedelta)
| KwRegularSpikes (num_qtasks : Z) (spike_interval : timedelta) (spike_tasks : Z)
                  (normal_interval : timedelta)
| KwRamp (num_qtasks : Z) (initial_interval final_interval : timedelta)
| KwRandomBursts (num_qtasks : Z) (burst_chance : Q) (burst_duration : timedelta)
                 (max_tasks_in_burst : Z) (normal_interval : timedelta)
| KwInvocation (invocation_times : DataFrame).

Definition generate_workload (fuel : nat) (scenario : Z) (kw : kwargs) : run Output :=
  if scenario =? 1 then
    match kw with
    | KwBursty n bd bt lai => generate_bursty_dataset fuel n bd bt lai
    | _ => total (Raise TypeError)
    end
  else if scenario =? 2 then
    match kw with
    | KwRegularSpikes n si st ni => total (simulate_regular_spikes n si st ni)
    | _ => total (Raise TypeError)
    end
  else if scenario =? 3 then
    match kw with
    | KwRamp n ii fi => total (simulate_ramp_up n ii fi)
    | _ => total (Raise TypeError)
    end
  else if scenario =? 4 then
    match kw with
    | KwRamp n ii fi => total (simulate_ramp_down n ii fi)
    | _ => total (Raise TypeError)
    end
  else if scenario =? 5 then
    match kw with
    | KwRandomBursts n p bd m ni => generate_random_bursts fuel n p bd m ni
    | _ => total (Raise TypeError)
    end
  else if scenario =? 6 then
    match kw with
    | KwInvocation it => total (map_invocation_times it)
    | _ => total (Raise TypeError)
    end
  else total (Raise ValueError).

End QuantumWorkloadGenerator.

(** ** Concrete data used in examples *)

Definition pool2 : DataFrame :=
  {| index := [0; 1];
     columns := [("circuit", [CAttr "ghz"; CAttr "qft"]);
                 ("qubits", [CInt 3; CInt 5])] |}.

(** A start instant, read on a clock that has not been put back. *)
Definition t0 : datetime := at_wall 1000.

(** A random source that always answers in the middle of the range. *)
Definition half : Rng :=
  {| unit_sample := fun _ => (1 # 2)%Q;
     uniform_delta := fun _ span parts => divide_and_round span (2 * parts);
     randint_draw := fun _ hi => 1 + hi / 2;
     row_pick := fun k => k |}.

(** Seconds of a microsecond count. *)
Definition micro (us : Z) : Q := us # 1000000.

(** Conversions: a zone at a fixed offset with exact seconds, and a zone whose
    clocks were put forward by one hour: the wall-clock hour before the
    reading [changeover] does not exist and is read with the old offset, as
    are the readings before it; from [changeover] on the new offset applies.
    Neither has a reading that occurs twice. *)
Definition utc_exact : datetime -> Q := fun t => micro (wall t).

Definition spring_forward (changeover : Z) : datetime -> Q :=
  fun t => micro (if wall t <? changeover then wall t else wall t - 3600000000).

(** A zone whose clocks were put back by one hour at the reading
    [changeover]: the readings of the hour before it occur twice.  Such a
    reading with [fold = 1], and every reading from [changeover] on, is taken
    with the new offset, one hour later than the same reading taken with the
    old one. *)
Definition fall_back (changeover : Z) : datetime -> Q :=
  fun t => micro (if (changeover <=? wall t)
                     || (fold t && (changeover - 3600000000 <=? wall t))
                  then wall t + 3600000000 else wall t).

(** What a property may need of the conversion. *)
Definition monotone (to_timestamp : datetime -> Q) : Prop :=
  forall a b, wall a <= wall b -> (to_timestamp a <= to_timestamp b)%Q.

Definition strictly_monotone (to_timestamp : datetime -> Q) : Prop :=
  forall a b, wall a < wall b -> (to_timestamp a < to_timestamp b)%Q.

Definition exact (to_timestamp : datetime -> Q) : Prop :=
  forall a b, (to_timestamp b - to_timestamp a == micro (wall b - wall a))%Q.

(** Within [eps] seconds of the wall-clock reading taken at a fixed offset,
    as a conversion that rounds to binary64 is. *)
Definition accurate (eps : Q) (to_timestamp : datetime -> Q) : Prop :=
  exists offset : Q,
    forall t, (Qabs (to_timestamp t - micro (wall t) - offset) <= eps)%Q.

(** ** Vocabulary of the properties *)

(** Gaps of a timestamp sequence, in seconds, and their monotonicity. *)
Fixpoint gaps (ts : list Q) : list Q :=
  match ts with
  | a :: (b :: _) as rest => (b - a)%Q :: gaps rest
  | _ => []
  end.

Fixpoint nondecreasing (l : list Q) : Prop :=
  match l with
  | a :: (b :: _) as rest => (a <= b)%Q /\ nondecreasing rest
  | _ => True
  end.

Fixpoint nonincreasing (l : list Q) : Prop :=
  match l with
  | a :: (b :: _) as rest => (b <= a)%Q /\ nonincreasing rest
  | _ => True
  end.

(** Monotone up to a tolerance. *)
Fixpoint nondecreasing_within (tol : Q) (l : list Q) : Prop :=
  match l with
  | a :: (b :: _) as rest => (a <= b + tol)%Q /\ nondecreasing_within tol rest
  | _ => True
  end.

Fixpoint nonincreasing_within (tol : Q) (l : list Q) : Prop :=
  match l with
  | a :: (b :: _) as rest => (b <= a + tol)%Q /\ nonincreasing_within tol rest
  | _ => True
  end.

(** The same for datetimes, by their wall-clock readings, and for
    timedeltas, in microseconds. *)
Fixpoint intervals (l : list datetime) : list timedelta :=
  match l with
  | a :: (b :: _) as rest => (wall b - wall a) :: intervals rest
  | _ => []
  end.

Fixpoint ascending (l : list datetime) : Prop :=
  match l with
  | a :: (b :: _) as rest => wall a <= wall b /\ ascending rest
  | _ => True
  end.

Fixpoint rising (l : list Z) : Prop :=
  match l with
  | a :: (b :: _) as rest => a <= b /\ rising rest
  | _ => True
  end.

Fixpoint falling (l : list Z) : Prop :=
  match l with
  | a :: (b :: _) as rest => b <= a /\ falling rest
  | _ => True
  end.

(** The datetimes at which a cursor emits when it starts at [c] and advances
    by the increments [ds], emitting before each advance. *)
Fixpoint walk (c : datetime) (ds : list timedelta) : list datetime :=
  match ds with
  | [] => []
  | d :: rest => c :: walk (dt_add c d) rest
  end.

(** The same when it emits after each advance. *)
Fixpoint arrivals (c : datetime) (ds : list timedelta) : list datetime :=
  match ds with
  | [] => []
  | d :: rest => dt_add c d :: arrivals (dt_add c d) rest
  end.

(** Where the cursor stands after advancing by each of [ds] in turn. *)
Definition advanced (c : datetime) (ds : list timedelta) : datetime :=
  fold_left dt_add ds c.

(** The successive uniform draws of a burst that starts at call number [d]. *)
Definition draws (g : Rng) (span : timedelta) (parts : Z) (d k : nat) : list Z :=
  map (fun j => uniform_delta g j span parts) (seq d k).

(** Timestamps are only ever appended. *)
Definition extends (s s' : cursor) : Prop :=
  exists l, timestamps s' = timestamps s ++ l.

(** A cursor that never moved back: the timestamps emitted so far were taken
    at datetimes that are in order and lie between the start and the cursor. *)
Definition ordered (to_timestamp : datetime -> Q) (base : datetime) (s : cursor)
  : Prop :=
  exists l,
    timestamps s = map to_timestamp l
    /\ wall base <= wall (current_time s)
    /\ ascending l
    /\ Forall (fun t => wall base <= wall t <= wall (current_time s)) l.

(** Timestamps taken at datetimes that are in order, none before the start. *)
Definition in_order (to_timestamp : datetime -> Q) (base : datetime) (ts : list Q)
  : Prop :=
  exists l, ts = map to_timestamp l
            /\ ascending l
            /\ Forall (fun t => wall base <= wall t) l.

(** Either nothing was emitted and the cursor still is at the start, or the
    first timestamp emitted is that of the start. *)
Definition anchored (to_timestamp : datetime -> Q) (base : datetime) (s : cursor)
  : Prop :=
  (timestamps s = [] /\ current_time s = base)
  \/ hd_error (timestamps s) = Some (to_timestamp base).

(** The timestamps were taken at datetimes whose gaps, the one between the
    last of them and the cursor included, lie between zero and [bound]. *)
Definition paced (to_timestamp : datetime -> Q) (bound : Z) (s : cursor) : Prop :=
  exists l,
    timestamps s = map to_timestamp l
    /\ Forall (fun d => 0 <= d <= bound) (intervals (l ++ [current_time s])).

(** The three closing statements shared by the generators that label their
    output: attach the timestamps, insert the subset column, write the file. *)
Definition assemble (sample_df : DataFrame) (ts : list Q) (path : string)
  : result Output :=
  sample_df <- setitem sample_df "timestamp" (stamps ts) ;;
  sample_df <- insert sample_df 0 "subset" (CInt 1) ;;
  Ok (to_csv sample_df path).

(** What the while loops still have to emit, and the bound they respect. *)
Definition remaining (n : Z) (s : cursor) : nat := Z.to_nat (n - len (timestamps s)).

Definition within (n : Z) (s : cursor) : Prop := 0 <= n -> len (timestamps s) <= n.

(** Column names after [df["timestamp"] = ...]. *)
Definition with_timestamp (names : list string) : list string :=
  if existsb (String.eqb "timestamp") names then names else names ++ ["timestamp"].

(** Record [i] of the output is the subset label, the fields of the pool row
    drawn at position [i], and the [i]-th timestamp. *)
Definition assembled (pool : DataFrame) (g : Rng) (ts : list Q) (out : Output)
  : Prop :=
  forall i, (i < List.length ts)%nat ->
    record (frame out) i
    = ("subset", CInt 1)
      :: record pool (row_pick g i mod List.length (index pool))%nat
      ++ [("timestamp", CStamp (nth i ts 0%Q))].

(** The timestamp column of a returned dataset starts with [q]. *)
Definition first_stamp (out : Output) (q : Q) : Prop :=
  exists col, get_column "timestamp" (columns (frame out)) = Some col
              /\ hd_error col = Some (CStamp q).

(** Shape of a returned dataset: the file written, the number of rows and
    the column names, with or without the leading subset column. *)
Definition schema (pool : DataFrame) (rows : nat) (labelled : bool) (path : string)
           (out : Output) : Prop :=
  csv out = path
  /\ List.length (index (frame out)) = rows
  /\ column_names (frame out)
     = (if labelled then ["subset"] else []) ++ with_timestamp (column_names pool).

Definition pool_with_subset : DataFrame :=
  {| index := [0; 1];
     columns := [("subset", [CInt 7; CInt 8]); ("qubits", [CInt 3; CInt 5])] |}.

Definition invocations3 : DataFrame :=
  {| index := [0; 1; 2];
     columns := [("timestamp", [CStamp 5; CStamp 10; CStamp 15])] |}.

Definition invocations_filtered : DataFrame :=
  {| index := [7; 9];
     columns := [("timestamp", [CStamp 5; CStamp 10])] |}.

(** * Properties *)

(** ** Control flow *)

Lemma bind_Ok {A B : Type} (r : result A) (k : A -> result B) (b : B) :
  bind r k = Ok b -> exists a, r = Ok a /\ k a = Ok b.
Proof.
  destruct r as [a|e]; simpl; intro H; [exists a; auto | discriminate].
Qed.

Lemma and_then_Ok {A B : Type} (r : run A) (k : A -> run B) (b : B) :
  and_then r k = Some (Ok b) -> exists a, r = Some (Ok a) /\ k a = Some (Ok b).
Proof.
  destruct r as [[a|e]|]; simpl; intro H; [exists a; auto | discriminate ..].
Qed.

Lemma for_each_inv {St : Type} (P : St -> Prop) (body : Z -> St -> result St) :
  (forall i s s', P s -> body i s = Ok s' -> P s') ->
  forall it s s', P s -> for_each body it s = Ok s' -> P s'.
Proof.
  intros Hstep it; induction it as [|i rest IH]; simpl; intros s s' Hs Hrun.
  - now inversion Hrun; subst.
  - apply bind_Ok in Hrun as (s1 & H1 & H2). eauto.
Qed.

Lemma while_inv {St : Type} (P : St -> Prop) (cond : St -> bool)
      (body : St -> result St) :
  (forall s s', P s -> cond s = true -> body s = Ok s' -> P s') ->
  forall fuel s s', P s -> while fuel cond body s = Some (Ok s') ->
                    P s' /\ cond s' = false.
Proof.
  intros Hstep fuel; induction fuel as [|fuel IH]; simpl; intros s s' Hs Hrun.
  - destruct (cond s) eqn:Hc; [discriminate|]. inversion Hrun; subst; auto.
  - destruct (cond s) eqn:Hc.
    + destruct (body s) as [s1|e] eqn:Hb; [|discriminate]. eauto.
    + inversion Hrun; subst; auto.
Qed.

(** A loop whose body always succeeds and lowers a measure stops within as
    many iterations as the measure says. *)
Lemma while_total {St : Type} (P : St -> Prop) (mu : St -> nat)
      (cond : St -> bool) (body : St -> result St) :
  (forall s, P s -> cond s = true ->
             exists s', body s = Ok s' /\ P s' /\ (mu s' < mu s)%nat) ->
  forall fuel s, P s -> (mu s <= fuel)%nat ->
                 exists s', while fuel cond body s = Some (Ok s')
                            /\ P s' /\ cond s' = false.
Proof.
  intros Hstep fuel; induction fuel as [|fuel IH]; simpl; intros s Hs Hmu.
  - destruct (cond s) eqn:Hc.
    + destruct (Hstep s Hs Hc) as (s' & _ & _ & Hlt). lia.
    + exists s; auto.
  - destruct (cond s) eqn:Hc.
    + destruct (Hstep s Hs Hc) as (s' & Hb & Hs' & Hlt). rewrite Hb.
      apply IH; [assumption | lia].
    + exists s; auto.
Qed.

Lemma while_more_fuel {St : Type} (cond : St -> bool) (body : St -> result St) :
  forall fuel fuel' s r, (fuel <= fuel')%nat ->
    while fuel cond body s = Some r -> while fuel' cond body s = Some r.
Proof.
  induction fuel as [|fuel IH]; intros fuel' s r Hle; simpl.
  - destruct (cond s) eqn:Hc; [discriminate|].
    intro H; destruct fuel'; simpl; rewrite Hc; exact H.
  - destruct fuel' as [|fuel']; [lia|]. simpl.
    destruct (cond s); [|auto].
    destruct (body s); [|auto]. apply IH; lia.
Qed.

(** ** Rounding *)

Lemma divide_and_round_cases (a b : Z) :
  divide_and_round a b = a / b \/ divide_and_round a b = a / b + 1.
Proof.
  unfold divide_and_round.
  destruct (_ || _); auto.
Qed.

Lemma divide_and_round_nonneg (a b : Z) :
  0 <= a -> 0 < b -> 0 <= divide_and_round a b.
Proof.
  intros Ha Hb. pose proof (Z.div_pos a b Ha Hb).
  destruct (divide_and_round_cases a b) as [-> | ->]; lia.
Qed.

Ltac round_cases q r b :=
  destruct (0 <? b) eqn:?Hpos; [|apply Z.ltb_ge in Hpos; lia];
  destruct (b <? 2 * r) eqn:?Hgt; destruct (2 * r =? b) eqn:?Heq;
  destruct (q mod 2 =? 1); cbn [orb andb];
  rewrite ?Z.ltb_lt, ?Z.ltb_ge, ?Z.eqb_eq, ?Z.eqb_neq in *.

Lemma divide_and_round_nonpos (a b : Z) :
  a <= 0 -> 0 < b -> divide_and_round a b <= 0.
Proof.
  intros Ha Hb. unfold divide_and_round.
  pose proof (Z.div_mod a b ltac:(lia)) as Hdm.
  pose proof (Z.mod_pos_bound a b Hb) as Hm.
  set (q := a / b) in *. set (r := a mod b) in *.
  assert (Hq : q <= 0) by nia.
  assert (Hq' : 0 < r -> q + 1 <= 0) by nia.
  round_cases q r b; lia.
Qed.

(** The rounded quotient is within half a divisor of the exact one. *)
Lemma divide_and_round_close (a b : Z) :
  0 < b -> 2 * Z.abs (b * divide_and_round a b - a) <= b.
Proof.
  intro Hb. unfold divide_and_round.
  pose proof (Z.div_mod a b ltac:(lia)) as Hdm.
  pose proof (Z.mod_pos_bound a b Hb) as Hm.
  set (q := a / b) in *. set (r := a mod b) in *.
  round_cases q r b; nia.
Qed.

Lemma divide_and_round_exact (q b : Z) :
  0 < b -> divide_and_round (q * b) b = q.
Proof.
  intro Hb. unfold divide_and_round.
  rewrite Z.div_mul, Z.mod_mul by lia.
  destruct (0 <? b) eqn:Hpos; [|apply Z.ltb_ge in Hpos; lia].
  replace (b <? 2 * 0) with false by (symmetry; apply Z.ltb_ge; lia).
  replace (2 * 0 =? b) with false by (symmetry; apply Z.eqb_neq; lia).
  reflexivity.
Qed.

(** ** Random draws *)

Lemma uniform_nonneg (g : Rng) (k : nat) (span : timedelta) (parts : Z) :
  valid g -> 0 <= span -> 0 < parts -> 0 <= uniform_delta g k span parts.
Proof. intros (_ & Hu & _). apply Hu. Qed.

Lemma randint1_range (g : Rng) (k : nat) (hi : Z) :
  valid g -> 1 <= hi ->
  exists r, randint1 g k hi = Ok r /\ 1 <= r <= hi.
Proof.
  intros (_ & _ & Hr) Hhi. unfold randint1.
  rewrite (proj2 (Z.ltb_ge hi 1)) by lia.
  eexists; split; [reflexivity | now apply Hr].
Qed.

Lemma half_valid : valid half.
Proof.
  repeat split.
  - unfold Qle; simpl; lia.
  - intros k span parts Hs Hp. cbn [uniform_delta half].
    apply divide_and_round_nonneg; lia.
  - cbn [randint_draw half]. pose proof (Z.div_pos hi 2). lia.
  - cbn [randint_draw half].
    assert (hi / 2 < hi) by (apply Z.div_lt_upper_bound; lia). lia.
Qed.

Lemma half_capped : capped half.
Proof.
  intros k span Hs. cbn [uniform_delta half].
  destruct (Z.eq_dec span 0) as [-> | Hne]; [vm_compute; discriminate|].
  pose proof (divide_and_round_close span (2 * 1) ltac:(lia)). lia.
Qed.

(** ** Lists *)

Lemma len_app {A : Type} (l1 l2 : list A) : len (l1 ++ l2) = len l1 + len l2.
Proof. unfold len. rewrite List.length_app. lia. Qed.

Lemma len_nonneg {A : Type} (l : list A) : 0 <= len l.
Proof. unfold len; lia. Qed.

Lemma slice_to_all {A : Type} (l : list A) (n : Z) :
  len l = n -> slice_to l n = l.
Proof.
  unfold len, slice_to; intros <-.
  rewrite (proj2 (Z.leb_le _ _)) by lia.
  rewrite Nat2Z.id. apply firstn_all.
Qed.

Lemma slice_to_prefix {A : Type} (l : list A) (n : Z) :
  exists k, slice_to l n = firstn k l.
Proof. unfold slice_to; destruct (0 <=? n); eauto. Qed.

Lemma slice_to_length {A : Type} (l : list A) (n : Z) :
  0 <= n <= len l -> List.length (slice_to l n) = Z.to_nat n.
Proof.
  unfold len, slice_to; intros [H0 H1].
  rewrite (proj2 (Z.leb_le _ _)) by lia.
  apply firstn_length_le. lia.
Qed.

Lemma Forall_firstn' {A : Type} (P : A -> Prop) (k : nat) (l : list A) :
  Forall P l -> Forall P (firstn k l).
Proof.
  revert l; induction k as [|k IH]; intros l H; simpl; [constructor|].
  destruct H; constructor; auto.
Qed.

Lemma ascending_firstn (k : nat) (l : list datetime) :
  ascending l -> ascending (firstn k l).
Proof.
  revert l; induction k as [|k IH]; intros l H; simpl; [exact I|].
  destruct l as [|a [|b l]]; simpl; [exact I | destruct k; exact I |].
  destruct H as [Hab H]. specialize (IH _ H).
  destruct k as [|k]; simpl; [exact I|]. split; [exact Hab | exact IH].
Qed.

Lemma ascending_snoc (l : list datetime) (x : datetime) :
  ascending l -> Forall (fun t => wall t <= wall x) l -> ascending (l ++ [x]).
Proof.
  induction l as [|a [|b l] IH]; simpl; intros Hs Hall; [exact I | |].
  - inversion Hall; subst; auto.
  - destruct Hs as [Hab Hs]. inversion Hall; subst. split; [exact Hab|].
    apply IH; assumption.
Qed.

Lemma hd_error_app {A : Type} (l1 l2 : list A) (a : A) :
  hd_error l1 = Some a -> hd_error (l1 ++ l2) = Some a.
Proof. destruct l1; simpl; [discriminate | auto]. Qed.

Lemma hd_error_firstn {A : Type} (k : nat) (l : list A) :
  (0 < k)%nat -> hd_error (firstn k l) = hd_error l.
Proof. destruct k; [lia|]. destruct l; reflexivity. Qed.

Lemma intervals_cons (a b : datetime) (l : list datetime) :
  intervals (a :: b :: l) = (wall b - wall a) :: intervals (b :: l).
Proof. reflexivity. Qed.

Lemma gaps_cons (a b : Q) (l : list Q) :
  gaps (a :: b :: l) = (b - a)%Q :: gaps (b :: l).
Proof. reflexivity. Qed.

Lemma walk_cons (c : datetime) (d : timedelta) (ds : list timedelta) :
  walk c (d :: ds) = c :: walk (dt_add c d) ds.
Proof. reflexivity. Qed.

Lemma intervals_walk (c : datetime) (ds : list timedelta) :
  intervals (walk c ds) = removelast ds.
Proof.
  revert c; induction ds as [|d ds IH]; intro c; [reflexivity|].
  destruct ds as [|d' ds]; [reflexivity|].
  rewrite walk_cons, (walk_cons (dt_add c d)), intervals_cons, <- walk_cons, IH.
  change (removelast (d :: d' :: ds)) with (d :: removelast (d' :: ds)).
  unfold dt_add, at_wall. cbn [wall].
  replace (wall c + d - wall c) with d by lia. reflexivity.
Qed.

Lemma walk_length (c : datetime) (ds : list timedelta) :
  List.length (walk c ds) = List.length ds.
Proof. revert c; induction ds; intro c; simpl; auto. Qed.

Lemma walk_app (c : datetime) (ds1 ds2 : list timedelta) :
  walk c (ds1 ++ ds2) = walk c ds1 ++ walk (advanced c ds1) ds2.
Proof.
  revert c; induction ds1 as [|d ds1 IH]; intro c; [reflexivity|].
  cbn [app walk]. now rewrite IH.
Qed.

Lemma advanced_app (c : datetime) (ds1 ds2 : list timedelta) :
  advanced c (ds1 ++ ds2) = advanced (advanced c ds1) ds2.
Proof. apply fold_left_app. Qed.

Lemma advanced_snoc (c : datetime) (ds : list timedelta) (d : timedelta) :
  advanced c (ds ++ [d]) = dt_add (advanced c ds) d.
Proof. now rewrite advanced_app. Qed.

Lemma range_length (n : Z) : List.length (range n) = Z.to_nat n.
Proof. unfold range. now rewrite List.length_map, List.length_seq. Qed.

Lemma range_succ (n : Z) : 0 <= n -> range (n + 1) = range n ++ [n].
Proof.
  intro Hn. unfold range.
  replace (Z.to_nat (n + 1)) with (S (Z.to_nat n)) by lia.
  rewrite seq_S, map_app. simpl. now rewrite Z2Nat.id.
Qed.

Lemma range_In (n i : Z) : In i (range n) <-> 0 <= i < n.
Proof.
  unfold range. rewrite in_map_iff. split.
  - intros (k & <- & Hk). apply in_seq in Hk. lia.
  - intro H. exists (Z.to_nat i). split; [lia|]. apply in_seq. lia.
Qed.

Lemma slice_to_map {A B : Type} (f : A -> B) (l : list A) (n : Z) :
  slice_to (map f l) n = map f (slice_to l n).
Proof.
  unfold slice_to. rewrite List.length_map.
  destruct (0 <=? n); apply firstn_map.
Qed.

(** ** From datetimes to timestamps *)

Lemma micro_le (a b : Z) : a <= b -> (micro a <= micro b)%Q.
Proof. intro H. unfold micro, Qle; simpl. lia. Qed.

Lemma utc_exact_monotone : monotone utc_exact.
Proof. intros a b. apply micro_le. Qed.

Lemma utc_exact_strictly_monotone : strictly_monotone utc_exact.
Proof. intros a b H. unfold utc_exact, micro, Qlt; simpl. lia. Qed.

Lemma utc_exact_exact : exact utc_exact.
Proof. intros a b. unfold utc_exact, micro, Qeq, Qminus, Qplus, Qopp; simpl. lia. Qed.

Lemma map_ascending (to_timestamp : datetime -> Q) (l : list datetime) :
  monotone to_timestamp -> ascending l -> nondecreasing (map to_timestamp l).
Proof.
  intro Hm. induction l as [|a [|b l] IH]; intro H; [exact I | exact I |].
  destruct H as [Hab H]. cbn [map nondecreasing] in *.
  split; [now apply Hm | now apply IH].
Qed.

Lemma map_not_before (to_timestamp : datetime -> Q) (base : datetime)
      (l : list datetime) :
  monotone to_timestamp -> Forall (fun t => wall base <= wall t) l ->
  Forall (fun q => (to_timestamp base <= q)%Q) (map to_timestamp l).
Proof.
  intros Hm H. apply Forall_map. eapply Forall_impl; [|exact H].
  cbn beta. intros t Ht. now apply Hm.
Qed.

(** Under an exact conversion the gaps of the timestamps are the gaps of the
    datetimes, in seconds. *)
Lemma gaps_exact (to_timestamp : datetime -> Q) (l : list datetime) :
  exact to_timestamp ->
  Forall2 Qeq (gaps (map to_timestamp l)) (map micro (intervals l)).
Proof.
  intro He. induction l as [|a [|b l] IH]; [constructor | constructor |].
  cbn [map] in *. rewrite gaps_cons, intervals_cons. cbn [map].
  constructor; [apply He | exact IH].
Qed.

Lemma nonincreasing_cons (a b : Q) (l : list Q) :
  nonincreasing (a :: b :: l) <-> (b <= a)%Q /\ nonincreasing (b :: l).
Proof. reflexivity. Qed.

Lemma nondecreasing_cons (a b : Q) (l : list Q) :
  nondecreasing (a :: b :: l) <-> (a <= b)%Q /\ nondecreasing (b :: l).
Proof. reflexivity. Qed.

Lemma gaps_falling (qs : list Q) (ds : list Z) :
  Forall2 Qeq qs (map micro ds) -> falling ds -> nonincreasing qs.
Proof.
  revert qs; induction ds as [|d ds IH]; intros qs H Hf.
  - inversion H; exact I.
  - cbn [map] in H. inversion H as [|q ? qs' ? Hq Hrest]; subst.
    destruct ds as [|d' ds]; [inversion Hrest; exact I|].
    cbn [map] in Hrest. inversion Hrest as [|q' ? qs'' ? Hq' Hrest']; subst.
    destruct Hf as [Hd Hf]. apply nonincreasing_cons. split.
    + rewrite Hq, Hq'. now apply micro_le.
    + apply IH; [|exact Hf]. cbn [map]. now constructor.
Qed.

Lemma gaps_rising (qs : list Q) (ds : list Z) :
  Forall2 Qeq qs (map micro ds) -> rising ds -> nondecreasing qs.
Proof.
  revert qs; induction ds as [|d ds IH]; intros qs H Hf.
  - inversion H; exact I.
  - cbn [map] in H. inversion H as [|q ? qs' ? Hq Hrest]; subst.
    destruct ds as [|d' ds]; [inversion Hrest; exact I|].
    cbn [map] in Hrest. inversion Hrest as [|q' ? qs'' ? Hq' Hrest']; subst.
    destruct Hf as [Hd Hf]. apply nondecreasing_cons. split.
    + rewrite Hq, Hq'. now apply micro_le.
    + apply IH; [|exact Hf]. cbn [map]. now constructor.
Qed.

(** Under a conversion accurate to [eps] each gap of the timestamps is within
    [2 * eps] of the gap of the datetimes. *)
Lemma micro_sub (a b : Z) : (micro (a - b) == micro a - micro b)%Q.
Proof. unfold micro, Qeq, Qminus, Qplus, Qopp; simpl. lia. Qed.

Lemma gaps_accurate (eps : Q) (to_timestamp : datetime -> Q) (l : list datetime) :
  accurate eps to_timestamp ->
  Forall2 (fun q d => (Qabs (q - micro d) <= 2 * eps)%Q)
          (gaps (map to_timestamp l)) (intervals l).
Proof.
  intros [offset Ha]. induction l as [|a [|b l] IH]; [constructor | constructor |].
  cbn [map] in *. rewrite gaps_cons, intervals_cons.
  constructor; [|exact IH].
  pose proof (Ha a) as H1. pose proof (Ha b) as H2.
  apply Qabs_Qle_condition in H1, H2. apply Qabs_Qle_condition.
  rewrite micro_sub. split; lra.
Qed.

Lemma nonincreasing_within_cons (tol a b : Q) (l : list Q) :
  nonincreasing_within tol (a :: b :: l)
  <-> (b <= a + tol)%Q /\ nonincreasing_within tol (b :: l).
Proof. reflexivity. Qed.

Lemma nondecreasing_within_cons (tol a b : Q) (l : list Q) :
  nondecreasing_within tol (a :: b :: l)
  <-> (a <= b + tol)%Q /\ nondecreasing_within tol (b :: l).
Proof. reflexivity. Qed.

Lemma gaps_falling_within (tol : Q) (qs : list Q) (ds : list Z) :
  Forall2 (fun q d => (Qabs (q - micro d) <= tol)%Q) qs ds -> falling ds ->
  nonincreasing_within (2 * tol) qs.
Proof.
  revert qs; induction ds as [|d ds IH]; intros qs H Hf.
  - inversion H; exact I.
  - inversion H as [|q ? qs' ? Hq Hrest]; subst.
    destruct ds as [|d' ds]; [inversion Hrest; exact I|].
    inversion Hrest as [|q' ? qs'' ? Hq' Hrest']; subst.
    destruct Hf as [Hd Hf]. apply nonincreasing_within_cons. split.
    + apply Qabs_Qle_condition in Hq, Hq'.
      pose proof (micro_le d' d Hd). lra.
    + apply IH; [|exact Hf]. now constructor.
Qed.

Lemma gaps_rising_within (tol : Q) (qs : list Q) (ds : list Z) :
  Forall2 (fun q d => (Qabs (q - micro d) <= tol)%Q) qs ds -> rising ds ->
  nondecreasing_within (2 * tol) qs.
Proof.
  revert qs; induction ds as [|d ds IH]; intros qs H Hf.
  - inversion H; exact I.
  - inversion H as [|q ? qs' ? Hq Hrest]; subst.
    destruct ds as [|d' ds]; [inversion Hrest; exact I|].
    inversion Hrest as [|q' ? qs'' ? Hq' Hrest']; subst.
    destruct Hf as [Hd Hf]. apply nondecreasing_within_cons. split.
    + apply Qabs_Qle_condition in Hq, Hq'.
      pose proof (micro_le d d' Hd). lra.
    + apply IH; [|exact Hf]. now constructor.
Qed.

Lemma nonincreasing_within_weaken (tol tol' : Q) (l : list Q) :
  (tol <= tol')%Q -> nonincreasing_within tol l -> nonincreasing_within tol' l.
Proof.
  intro Ht. induction l as [|a [|b l] IH]; [auto | auto |].
  intros [Hab H]. apply nonincreasing_within_cons. split; [lra | now apply IH].
Qed.

Lemma nondecreasing_within_weaken (tol tol' : Q) (l : list Q) :
  (tol <= tol')%Q -> nondecreasing_within tol l -> nondecreasing_within tol' l.
Proof.
  intro Ht. induction l as [|a [|b l] IH]; [auto | auto |].
  intros [Hab H]. apply nondecreasing_within_cons. split; [lra | now apply IH].
Qed.

Lemma gaps_constant_within (tol : Q) (qs : list Q) (d : Z) (k : nat) :
  Forall2 (fun q x => (Qabs (q - micro x) <= tol)%Q) qs (repeat d k) ->
  Forall (fun q => (Qabs (q - micro d) <= tol)%Q) qs.
Proof.
  revert qs; induction k as [|k IH]; intros qs H; cbn [repeat] in H.
  - inversion H; constructor.
  - inversion H; subst. constructor; [assumption | now apply IH].
Qed.

Lemma utc_exact_accurate : accurate 0 utc_exact.
Proof.
  exists 0%Q. intro t. unfold utc_exact. apply Qabs_Qle_condition. split; lra.
Qed.

Lemma gaps_constant (qs : list Q) (d : Z) (k : nat) :
  Forall2 Qeq qs (map micro (repeat d k)) -> Forall (fun q => (q == micro d)%Q) qs.
Proof.
  revert qs; induction k as [|k IH]; intros qs H; cbn [repeat map] in H.
  - inversion H; constructor.
  - inversion H; subst. constructor; [assumption | now apply IH].
Qed.

(** ** The cursor *)

Lemma extends_refl (s : cursor) : extends s s.
Proof. exists []. now rewrite app_nil_r. Qed.

Lemma extends_trans (s1 s2 s3 : cursor) :
  extends s1 s2 -> extends s2 s3 -> extends s1 s3.
Proof.
  intros [l1 H1] [l2 H2]. exists (l1 ++ l2). now rewrite H2, H1, app_assoc.
Qed.

Lemma emit_then_advance_count (to_timestamp : datetime -> Q) (d : timedelta)
      (s : cursor) :
  len (timestamps (emit_then_advance to_timestamp d s)) = len (timestamps s) + 1.
Proof. unfold emit_then_advance; simpl. now rewrite len_app. Qed.

Lemma burst_loop_extends (to_timestamp : datetime -> Q) (g : Rng) (k : nat) (n : Z)
      (span : timedelta) (parts : Z) (s : cursor) :
  extends s (burst_loop to_timestamp g k n span parts s).
Proof.
  revert s; induction k as [|k IH]; intro s; simpl; [apply extends_refl|].
  destruct (full n s); [apply extends_refl|].
  eapply extends_trans; [|apply IH]. now exists [to_timestamp (current_time s)].
Qed.

(** The capped burst loop stops at the requested count. *)
Lemma burst_loop_count (to_timestamp : datetime -> Q) (g : Rng) (k : nat) (n : Z)
      (span : timedelta) (parts : Z) (s : cursor) :
  len (timestamps s) <= n ->
  len (timestamps (burst_loop to_timestamp g k n span parts s))
  = Z.min (len (timestamps s) + Z.of_nat k) n.
Proof.
  revert s; induction k as [|k IH]; intros s Hle; simpl; [lia|].
  unfold full. destruct (len (timestamps s) >=? n) eqn:Hfull.
  - rewrite Z.geb_leb in Hfull. apply Z.leb_le in Hfull. lia.
  - rewrite Z.geb_leb in Hfull. apply Z.leb_gt in Hfull.
    rewrite IH; rewrite emit_then_advance_count; cbn [timestamps]; lia.
Qed.

Lemma burst_loop_full (to_timestamp : datetime -> Q) (g : Rng) (k : nat) (n : Z)
      (span : timedelta) (parts : Z) (s : cursor) :
  full n s = true -> burst_loop to_timestamp g k n span parts s = s.
Proof. intro H. destruct k; cbn [burst_loop]; [reflexivity | now rewrite H]. Qed.

Section Ordered.

Variable to_timestamp : datetime -> Q.
Variable base : datetime.

Lemma ordered_start : ordered to_timestamp base (start base).
Proof.
  exists []. cbn. repeat split; [lia | constructor].
Qed.

Lemma ordered_later (ts : list Q) (c c' : datetime) (k k' : nat) :
  wall c <= wall c' ->
  ordered to_timestamp base {| timestamps := ts; current_time := c; drawn := k |} ->
  ordered to_timestamp base {| timestamps := ts; current_time := c'; drawn := k' |}.
Proof.
  intros Hc (l & Hl & Hb & Hs & Hall). cbn in *. exists l. cbn.
  repeat split; [assumption | lia | assumption |].
  eapply Forall_impl; [|exact Hall]. simpl; intros; lia.
Qed.

Lemma ordered_emit_then_advance (d : Z) (s : cursor) :
  0 <= d -> ordered to_timestamp base s ->
  ordered to_timestamp base (emit_then_advance to_timestamp d s).
Proof.
  intros Hd (l & Hl & Hb & Hs & Hall).
  exists (l ++ [current_time s]). unfold emit_then_advance; cbn.
  repeat split.
  - rewrite map_app, Hl. reflexivity.
  - lia.
  - apply ascending_snoc; [assumption|].
    eapply Forall_impl; [|exact Hall]. simpl; intros; lia.
  - apply Forall_app; split.
    + eapply Forall_impl; [|exact Hall]. simpl; intros; lia.
    + repeat constructor; lia.
Qed.

Lemma ordered_advance_then_emit (d : Z) (s : cursor) :
  0 <= d -> ordered to_timestamp base s ->
  ordered to_timestamp base (advance_then_emit to_timestamp d s).
Proof.
  intros Hd (l & Hl & Hb & Hs & Hall).
  exists (l ++ [dt_add (current_time s) d]). unfold advance_then_emit; cbn.
  repeat split.
  - rewrite map_app, Hl. reflexivity.
  - lia.
  - apply ascending_snoc; [assumption|].
    eapply Forall_impl; [|exact Hall]. simpl; intros; lia.
  - apply Forall_app; split.
    + eapply Forall_impl; [|exact Hall]. simpl; intros; lia.
    + repeat constructor; cbn; lia.
Qed.

Lemma ordered_advance (d : Z) (s : cursor) :
  0 <= d -> ordered to_timestamp base s -> ordered to_timestamp base (advance d s).
Proof.
  intros Hd H. destruct s as [ts c k]. unfold advance; simpl.
  eapply ordered_later; [|exact H]. cbn. lia.
Qed.

Lemma ordered_tick (s : cursor) :
  ordered to_timestamp base s -> ordered to_timestamp base (tick s).
Proof.
  intro H. destruct s as [ts c k]. unfold tick; simpl.
  eapply ordered_later; [|exact H]. lia.
Qed.

Lemma ordered_burst_loop (g : Rng) (k : nat) (n : Z)
      (span : timedelta) (parts : Z) (s : cursor) :
  valid g -> 0 <= span -> (k <> O -> 0 < parts) ->
  ordered to_timestamp base s ->
  ordered to_timestamp base (burst_loop to_timestamp g k n span parts s).
Proof.
  intros Hg Hspan Hparts. revert s.
  induction k as [|k IH]; intros s Hs; simpl; [assumption|].
  assert (Hp : 0 < parts) by (apply Hparts; discriminate).
  destruct (full n s); [assumption|].
  assert (Hstep : ordered to_timestamp base
            (emit_then_advance to_timestamp (uniform_delta g (drawn s) span parts)
               {| timestamps := timestamps s; current_time := current_time s;
                  drawn := S (drawn s) |})).
  { apply ordered_emit_then_advance; [now apply uniform_nonneg|].
    destruct s as [ts c j]; simpl. eapply ordered_later; [|exact Hs]. lia. }
  destruct k as [|k']; [exact Hstep|].
  apply IH; [intros _; exact Hp | exact Hstep].
Qed.

(** What reaches the output was taken at datetimes in order, none before the
    start. *)
Lemma ordered_slice_at (s : cursor) (n : Z) :
  ordered to_timestamp base s ->
  in_order to_timestamp base (slice_to (timestamps s) n).
Proof.
  intros (l & Hl & _ & Hs & Hall).
  exists (slice_to l n). rewrite Hl, slice_to_map. split; [reflexivity|].
  destruct (slice_to_prefix l n) as [k ->]. split.
  - now apply ascending_firstn.
  - apply Forall_firstn'. eapply Forall_impl; [|exact Hall]. simpl; intros; lia.
Qed.

Lemma anchored_start : anchored to_timestamp base (start base).
Proof. left; auto. Qed.

Lemma anchored_emit_then_advance (d : Z) (s : cursor) :
  anchored to_timestamp base s ->
  anchored to_timestamp base (emit_then_advance to_timestamp d s).
Proof.
  intros [[Hts Hc] | Hhd]; right; unfold emit_then_advance; simpl.
  - now rewrite Hts, Hc.
  - now apply hd_error_app.
Qed.

Lemma anchored_burst_loop (g : Rng) (k : nat) (n : Z)
      (span : timedelta) (parts : Z) (s : cursor) :
  anchored to_timestamp base s ->
  anchored to_timestamp base (burst_loop to_timestamp g k n span parts s).
Proof.
  revert s; induction k as [|k IH]; intros s Hs; simpl; [assumption|].
  destruct (full n s); [assumption|].
  apply IH. apply anchored_emit_then_advance. exact Hs.
Qed.

Lemma anchored_head (s : cursor) (n : Z) :
  anchored to_timestamp base s -> 1 <= n -> n <= len (timestamps s) ->
  hd_error (slice_to (timestamps s) n) = Some (to_timestamp base).
Proof.
  intros Ha Hn Hlen. unfold slice_to.
  rewrite (proj2 (Z.leb_le _ _)) by lia.
  rewrite hd_error_firstn by lia.
  destruct Ha as [[Hts _] | Hhd]; [|exact Hhd].
  rewrite Hts in Hlen. unfold len in Hlen; simpl in Hlen. lia.
Qed.

End Ordered.

(** ** Frames *)

Lemma sample_negative (pool : DataFrame) (g : Rng) (n : Z) :
  n < 0 -> sample pool n g = Raise ValueError.
Proof.
  intro Hn. unfold sample. now rewrite (proj2 (Z.ltb_lt _ _) Hn).
Qed.

Lemma sample_empty_pool (pool : DataFrame) (g : Rng) (n : Z) :
  0 < n -> index pool = [] -> sample pool n g = Raise ValueError.
Proof.
  intros Hn Hp. unfold sample.
  rewrite (proj2 (Z.ltb_ge _ _)) by lia.
  now rewrite (proj2 (Z.ltb_lt _ _) Hn), Hp.
Qed.

Lemma sample_Ok (pool : DataFrame) (g : Rng) (n : Z) :
  0 <= n -> (n = 0 \/ index pool <> []) ->
  exists df, sample pool n g = Ok df
             /\ List.length (index df) = Z.to_nat n
             /\ column_names df = column_names pool.
Proof.
  intros Hn Hp. unfold sample.
  rewrite (proj2 (Z.ltb_ge _ _)) by lia.
  replace ((0 <? n) && (List.length (index pool) =? 0)%nat) with false.
  - eexists; split; [reflexivity|]. unfold column_names; simpl. split.
    + now rewrite !List.length_map, List.length_seq.
    + rewrite map_map. reflexivity.
  - symmetry. destruct Hp as [-> | Hp]; [reflexivity|].
    destruct (index pool); [congruence|]. apply andb_false_r.
Qed.

Lemma sample_result (pool : DataFrame) (g : Rng) (n : Z) (df : DataFrame) :
  sample pool n g = Ok df ->
  0 <= n /\ List.length (index df) = Z.to_nat n
  /\ column_names df = column_names pool.
Proof.
  intro H. destruct (Z.ltb_spec n 0) as [Hlt | Hge].
  - rewrite sample_negative in H by assumption. discriminate.
  - split; [assumption|].
    assert (Hp : n = 0 \/ index pool <> []).
    { destruct (Z.eq_dec n 0); [now left | right]. intro He.
      rewrite sample_empty_pool in H by (assumption || lia). discriminate. }
    destruct (sample_Ok pool g n Hge Hp) as (df' & H' & Hl & Hc).
    rewrite H in H'. inversion H'; subst. auto.
Qed.

Lemma sample_raises (pool : DataFrame) (g : Rng) (n : Z) (e : exn) :
  sample pool n g = Raise e -> e = ValueError.
Proof.
  unfold sample. destruct (n <? 0); [intro H; now inversion H|].
  destruct (_ && _); [intro H; now inversion H | discriminate].
Qed.

Lemma sampled_has_column (pool df : DataFrame) (g : Rng) (n : Z) (name : string) :
  sample pool n g = Ok df -> has_column name df = has_column name pool.
Proof.
  intro H. apply sample_result in H as (_ & _ & Hc).
  unfold has_column. now rewrite Hc.
Qed.

Lemma set_column_names_other (name other : string) (vals : list cell)
      (cols : list (string * list cell)) :
  String.eqb other name = false ->
  existsb (String.eqb other) (map fst (set_column name vals cols))
  = existsb (String.eqb other) (map fst cols).
Proof.
  intro Hne. induction cols as [|[c old] cols IH]; simpl.
  - now rewrite Hne.
  - destruct (String.eqb name c); simpl; [reflexivity | now rewrite IH].
Qed.

Lemma set_column_names (name : string) (vals : list cell)
      (cols : list (string * list cell)) :
  map fst (set_column name vals cols)
  = if existsb (String.eqb name) (map fst cols) then map fst cols
    else map fst cols ++ [name].
Proof.
  induction cols as [|[c old] cols IH]; simpl; [reflexivity|].
  destruct (String.eqb name c); simpl; [reflexivity|].
  rewrite IH. now destruct (existsb _ _).
Qed.

Lemma set_column_fresh (name : string) (vals : list cell)
      (cols : list (string * list cell)) :
  existsb (String.eqb name) (map fst cols) = false ->
  set_column name vals cols = cols ++ [(name, vals)].
Proof.
  induction cols as [|[c old] cols IH]; simpl; [reflexivity|].
  destruct (String.eqb name c); simpl; [discriminate|].
  intro H. now rewrite IH.
Qed.

Lemma get_set_column (name : string) (vals : list cell)
      (cols : list (string * list cell)) :
  get_column name (set_column name vals cols) = Some vals.
Proof.
  induction cols as [|[c old] cols IH]; simpl.
  - now rewrite String.eqb_refl.
  - destruct (String.eqb name c) eqn:Hc; simpl; rewrite Hc; auto.
Qed.

Lemma get_column_none (name : string) (cols : list (string * list cell)) :
  existsb (String.eqb name) (map fst cols) = false -> get_column name cols = None.
Proof.
  induction cols as [|[c vals] cols IH]; simpl; [reflexivity|].
  destruct (String.eqb name c); simpl; [discriminate | exact IH].
Qed.

Lemma nth_map_lt {A B : Type} (f : A -> B) (l : list A) (i : nat) (d : A) (d' : B) :
  (i < List.length l)%nat -> nth i (map f l) d' = f (nth i l d).
Proof.
  revert i; induction l as [|a l IH]; intros i Hi; simpl in *; [lia|].
  destruct i; [reflexivity|]. apply IH. lia.
Qed.

(** Row [i] of a sample is the pool row picked by the [i]-th draw. *)
Lemma sample_record (pool df : DataFrame) (g : Rng) (n : Z) (i : nat) :
  sample pool n g = Ok df -> (i < Z.to_nat n)%nat ->
  record df i = record pool (row_pick g i mod List.length (index pool))%nat.
Proof.
  unfold sample. destruct (n <? 0); [discriminate|].
  destruct (_ && _); [discriminate|].
  intros H Hi. inversion H; subst df; clear H.
  unfold record; cbn [columns]. rewrite map_map. apply map_ext. intro c.
  cbn [fst snd]. f_equal.
  rewrite (nth_map_lt _ _ i O) by (now rewrite List.length_map, List.length_seq).
  rewrite (nth_map_lt _ _ i O) by (now rewrite List.length_seq).
  now rewrite seq_nth.
Qed.

Lemma insert_clash (df : DataFrame) (loc : nat) (v : cell) :
  has_column "subset" df = true -> insert df loc "subset" v = Raise ValueError.
Proof. intro H. unfold insert. now rewrite H. Qed.

(** In a frame that starts with the subset column, every record starts with
    the field [subset = 1]. *)
Lemma labelled_records (idx : list Z) (rest : list (string * list cell)) :
  Forall (fun r => hd_error r = Some ("subset", CInt 1))
         (records {| index := idx;
                     columns := ("subset", repeat (CInt 1) (List.length idx)) :: rest |}).
Proof.
  unfold records. apply Forall_forall. intros r Hr.
  apply in_map_iff in Hr as (i & <- & Hi). apply in_seq in Hi. simpl in Hi.
  unfold record; simpl. do 2 f_equal.
  apply nth_repeat_lt. lia.
Qed.

Lemma unlabelled_records (df : DataFrame) (i : nat) (v : cell) :
  has_column "subset" df = false -> hd_error (record df i) <> Some ("subset", v).
Proof.
  unfold has_column, column_names, record.
  destruct (columns df) as [|[c vals] rest]; simpl; [discriminate|].
  intros Hno Heq. inversion Heq; subst c. discriminate.
Qed.

Lemma mapped_names (cols : list (string * list cell)) (k : nat) :
  map fst (map (fun c : string * list cell => (fst c, repeat CNaN k)) cols)
  = map fst cols.
Proof. rewrite map_map. reflexivity. Qed.

(** What [df[name] = vals] leaves behind when it succeeds: as many rows as
    values, the column [name] holding the values, and the other column names
    in place. *)
Lemma setitem_result (df d1 : DataFrame) (name : string) (vals : list cell) :
  setitem df name vals = Ok d1 ->
  List.length (index d1) = List.length vals
  /\ column_names d1
     = (if has_column name df then column_names df else column_names df ++ [name])
  /\ get_column name (columns d1) = Some vals
  /\ (forall other, String.eqb other name = false ->
                    has_column other d1 = has_column other df).
Proof.
  unfold setitem, has_column, column_names. intro H.
  destruct (Nat.eqb_spec (List.length vals) (List.length (index df))) as [Hl|Hl].
  - inversion H; subst d1; clear H. cbn [index columns].
    repeat split; [now symmetry | apply set_column_names | apply get_set_column |].
    intros other Ho. now apply set_column_names_other.
  - destruct (List.length (index df) =? 0)%nat; [|discriminate].
    inversion H; subst d1; clear H. cbn [index columns].
    repeat split.
    + rewrite range_length. unfold len. now rewrite Nat2Z.id.
    + rewrite set_column_names, mapped_names. reflexivity.
    + apply get_set_column.
    + intros other Ho. rewrite set_column_names_other by exact Ho.
      now rewrite mapped_names.
Qed.

Lemma setitem_same (df : DataFrame) (name : string) (vals : list cell) :
  List.length vals = List.length (index df) ->
  setitem df name vals
  = Ok {| index := index df; columns := set_column name vals (columns df) |}.
Proof. intro H. unfold setitem. now rewrite (proj2 (Nat.eqb_eq _ _) H). Qed.

Lemma setitem_mismatch (df : DataFrame) (name : string) (vals : list cell) :
  List.length vals <> List.length (index df) -> index df <> [] ->
  setitem df name vals = Raise ValueError.
Proof.
  intros Hne Hrows. unfold setitem.
  rewrite (proj2 (Nat.eqb_neq _ _) Hne).
  destruct (index df); [congruence | reflexivity].
Qed.

Lemma assemble_mismatch (df : DataFrame) (ts : list Q) (path : string) :
  List.length ts <> List.length (index df) -> index df <> [] ->
  assemble df ts path = Raise ValueError.
Proof.
  intros Hne Hrows. unfold assemble.
  rewrite setitem_mismatch; [reflexivity | | exact Hrows].
  unfold stamps. now rewrite List.length_map.
Qed.

Lemma assemble_Ok (df : DataFrame) (ts : list Q) (path : string) :
  List.length ts = List.length (index df) ->
  has_column "subset" df = false ->
  assemble df ts path
  = Ok {| csv := path;
          frame := {| index := index df;
                      columns := ("subset", repeat (CInt 1) (List.length (index df)))
                                 :: set_column "timestamp" (stamps ts) (columns df) |} |}.
Proof.
  intros Hlen Hsub. unfold assemble.
  rewrite setitem_same by (unfold stamps; now rewrite List.length_map).
  cbn [bind]. unfold insert, has_column, column_names; cbn [columns index].
  rewrite set_column_names_other by reflexivity.
  unfold has_column, column_names in Hsub. rewrite Hsub. reflexivity.
Qed.

Lemma assemble_csv (df : DataFrame) (ts : list Q) (path : string) (out : Output) :
  assemble df ts path = Ok out -> csv out = path.
Proof.
  unfold assemble. intro H.
  apply bind_Ok in H as (d1 & _ & H). apply bind_Ok in H as (d2 & _ & H).
  inversion H; reflexivity.
Qed.

Lemma assemble_clash (df : DataFrame) (ts : list Q) (path : string) (out : Output) :
  has_column "subset" df = true -> assemble df ts path <> Ok out.
Proof.
  intros Hsub H. unfold assemble in H.
  apply bind_Ok in H as (d1 & Hset & H). apply bind_Ok in H as (d2 & Hins & _).
  apply setitem_result in Hset as (_ & _ & _ & Hother).
  rewrite insert_clash in Hins; [discriminate|].
  rewrite Hother by reflexivity. exact Hsub.
Qed.

(** What [assemble] returns when it returns. *)
Lemma assemble_result (df : DataFrame) (ts : list Q) (path : string) (out : Output) :
  assemble df ts path = Ok out ->
  csv out = path
  /\ List.length (index (frame out)) = List.length ts
  /\ column_names (frame out) = "subset" :: with_timestamp (column_names df)
  /\ get_column "timestamp" (columns (frame out)) = Some (stamps ts)
  /\ Forall (fun r => hd_error r = Some ("subset", CInt 1)) (records (frame out)).
Proof.
  intro H. unfold assemble in H.
  apply bind_Ok in H as (d1 & Hset & H). apply bind_Ok in H as (d2 & Hins & H).
  inversion H; subst out; clear H.
  apply setitem_result in Hset as (Hrows & Hnames & Hget & _).
  unfold stamps in Hrows. rewrite List.length_map in Hrows.
  unfold insert in Hins. destruct (has_column "subset" d1); [discriminate|].
  cbn [Nat.ltb Nat.leb] in Hins. inversion Hins; subst d2; clear Hins.
  cbn [to_csv csv frame index columns firstn skipn app].
  repeat split; try assumption.
  - unfold column_names. cbn [columns map fst]. f_equal.
    unfold column_names, has_column in Hnames. exact Hnames.
  - apply labelled_records.
Qed.

Lemma assemble_labels (df : DataFrame) (ts : list Q) (path : string) (out : Output) :
  assemble df ts path = Ok out ->
  hd_error (column_names (frame out)) = Some "subset"
  /\ Forall (fun r => hd_error r = Some ("subset", CInt 1)) (records (frame out)).
Proof.
  intro H. apply assemble_result in H as (_ & _ & Hn & _ & Hr).
  split; [now rewrite Hn | exact Hr].
Qed.

Lemma assemble_assembled (pool df : DataFrame) (g : Rng) (n : Z) (ts : list Q)
      (path : string) (out : Output) :
  has_column "timestamp" pool = false -> 1 <= n ->
  sample pool n g = Ok df -> assemble df ts path = Ok out ->
  assembled pool g ts out.
Proof.
  intros Hts Hn Hs Ha i Hi.
  pose proof (sampled_has_column _ _ _ _ "timestamp" Hs) as Hts'. rewrite Hts in Hts'.
  pose proof (sample_result _ _ _ _ Hs) as (_ & Hl & _).
  assert (Hrows : index df <> []).
  { intro He. rewrite He in Hl. cbn in Hl. lia. }
  assert (Hlen : List.length ts = List.length (index df)).
  { destruct (Nat.eq_dec (List.length ts) (List.length (index df))) as [|Hne];
      [assumption|].
    rewrite assemble_mismatch in Ha by assumption. discriminate. }
  unfold assemble in Ha. rewrite setitem_same in Ha
    by (unfold stamps; now rewrite List.length_map).
  cbn [bind] in Ha. apply bind_Ok in Ha as (d2 & Hins & Ha).
  inversion Ha; subst out; clear Ha. unfold insert in Hins.
  destruct (has_column "subset" _); [discriminate|].
  cbn [Nat.ltb Nat.leb columns index] in Hins. inversion Hins; subst d2; clear Hins.
  unfold record at 1. cbn [to_csv frame columns firstn skipn app].
  rewrite set_column_fresh by exact Hts'.
  cbn [map fst snd]. rewrite map_app. cbn [map fst snd].
  rewrite nth_repeat_lt by lia.
  unfold stamps. rewrite (nth_map_lt CStamp ts i 0%Q) by exact Hi.
  f_equal. f_equal.
  apply (sample_record pool df g n i Hs). lia.
Qed.

(** ** generate_single_spike_dataset *)

Lemma iter_inv {St : Type} (P : St -> Prop) (f : St -> St) (k : nat) (s : St) :
  (forall s, P s -> P (f s)) -> P s -> P (Nat.iter k f s).
Proof. intros Hf Hs. induction k; simpl; auto. Qed.

Lemma iter_count (f : cursor -> cursor) (k : nat) (s : cursor) :
  (forall s, List.length (timestamps (f s)) = S (List.length (timestamps s))) ->
  List.length (timestamps (Nat.iter k f s)) = (List.length (timestamps s) + k)%nat.
Proof.
  intro Hf. induction k as [|k IH]; simpl; [lia|]. rewrite Hf, IH. lia.
Qed.

Lemma advance_then_emit_count (to_timestamp : datetime -> Q) (d : timedelta)
      (s : cursor) :
  List.length (timestamps (advance_then_emit to_timestamp d s))
  = S (List.length (timestamps s)).
Proof. unfold advance_then_emit; simpl. rewrite List.length_app; simpl. lia. Qed.

Lemma single_spike_burst_count (g : Rng) (to_timestamp : datetime -> Q)
      (bd : timedelta) (s : cursor) :
  List.length (timestamps (single_spike_burst g to_timestamp bd s))
  = S (List.length (timestamps s)).
Proof. unfold single_spike_burst; simpl. rewrite List.length_app; simpl. lia. Qed.

(** Both loops of the single-spike strategy run to their end: the sequence
    has [max burst_tasks 0 + max (num_qtasks - burst_tasks) 0] elements. *)
Lemma single_spike_count (g : Rng) (now : datetime) (to_timestamp : datetime -> Q)
      (n : Z) (bd ni : timedelta) (b : Z) :
  List.length (single_spike_timestamps g now to_timestamp n bd ni b)
  = (Z.to_nat b + Z.to_nat (n - b))%nat.
Proof.
  unfold single_spike_timestamps.
  rewrite iter_count by apply advance_then_emit_count.
  rewrite iter_count by apply single_spike_burst_count.
  reflexivity.
Qed.

(** C1 (defect). With more burst tasks than requested tasks the single-spike
    strategy builds [burst_tasks] timestamps and never cuts them back to
    [num_qtasks].  For a request of at least one task the assignment of the
    column then fails; a request of zero tasks can only return a dataset of
    [burst_tasks] rows.  In no case is a dataset with [num_qtasks] timestamps
    produced. *)
Theorem single_spike_overrun (pool : DataFrame) (g : Rng) (now : datetime)
        (to_timestamp : datetime -> Q) (n : Z) (bd ni : timedelta) (b : Z) :
  0 <= n < b ->
  List.length (single_spike_timestamps g now to_timestamp n bd ni b) = Z.to_nat b
  /\ List.length (single_spike_timestamps g now to_timestamp n bd ni b) <> Z.to_nat n
  /\ (1 <= n ->
      generate_single_spike_dataset pool g now to_timestamp n bd ni b
      = Raise ValueError)
  /\ (forall out,
        generate_single_spike_dataset pool g now to_timestamp n bd ni b = Ok out ->
        n = 0 /\ List.length (index (frame out)) = Z.to_nat b).
Proof.
  intros Hn.
  assert (Hlen : List.length (single_spike_timestamps g now to_timestamp n bd ni b)
                 = Z.to_nat b)
    by (rewrite single_spike_count; lia).
  assert (Hraise : 1 <= n ->
            generate_single_spike_dataset pool g now to_timestamp n bd ni b
            = Raise ValueError).
  { intro Hpos. unfold generate_single_spike_dataset.
    destruct (sample pool n g) as [df|e] eqn:Hs; cbn [bind].
    - apply sample_result in Hs as (_ & Hl & _).
      apply (assemble_mismatch df _ "single_spike_dataset.csv"); [lia|].
      intro He. rewrite He in Hl. cbn in Hl. lia.
    - now rewrite (sample_raises _ _ _ _ Hs). }
  split; [exact Hlen|]. split; [lia|]. split; [exact Hraise|].
  intros out Hout.
  assert (Hzero : n = 0).
  { destruct (Z.eq_dec n 0) as [|Hne]; [assumption|].
    rewrite Hraise in Hout by lia. discriminate. }
  split; [exact Hzero|].
  unfold generate_single_spike_dataset in Hout.
  apply bind_Ok in Hout as (df & _ & Hout).
  apply (assemble_result df _ "single_spike_dataset.csv") in Hout
    as (_ & Hrows & _).
  now rewrite Hrows.
Qed.

Lemma single_spike_overrun_witness :
  List.length (single_spike_timestamps half t0 utc_exact 2 (seconds 60)
                                       (seconds 10) 3) = 3%nat
  /\ generate_single_spike_dataset pool2 half t0 utc_exact 2 (seconds 60)
                                   (seconds 10) 3
     = Raise ValueError.
Proof.
  destruct (single_spike_overrun pool2 half t0 utc_exact 2 (seconds 60) (seconds 10) 3
              ltac:(lia)) as (H1 & _ & H2 & _).
  split; [exact H1 | exact (H2 ltac:(lia))].
Defined.

(** ** The ramp strategies *)

Lemma for_each_walk (to_timestamp : datetime -> Q) (f : Z -> Z) (it : list Z)
      (s : cursor) :
  for_each (fun i s => Ok (emit_then_advance to_timestamp (f i) s)) it s
  = Ok {| timestamps := timestamps s
                        ++ map to_timestamp (walk (current_time s) (map f it));
          current_time := advanced (current_time s) (map f it);
          drawn := drawn s |}.
Proof.
  revert s; induction it as [|i rest IH]; intro s.
  - destruct s; simpl. now rewrite app_nil_r.
  - cbn [for_each bind]. rewrite IH. unfold emit_then_advance; simpl.
    rewrite <- app_assoc. reflexivity.
Qed.

Lemma ramp_walk (now : datetime) (to_timestamp : datetime -> Q) (n : Z) (f : Z -> Z) :
  (s <- for_each (fun i s => Ok (emit_then_advance to_timestamp (f i) s))
                 (range n) (start now) ;;
   Ok (slice_to (timestamps s) n))
  = Ok (map to_timestamp (walk now (map f (range n)))).
Proof.
  rewrite for_each_walk. cbn [bind start timestamps current_time app].
  f_equal. destruct (Z.ltb_spec n 0) as [Hneg | Hpos].
  - unfold range. replace (Z.to_nat n) with O by lia. simpl.
    unfold slice_to. destruct (0 <=? n); apply firstn_nil.
  - apply slice_to_all. unfold len.
    rewrite List.length_map, walk_length, List.length_map, range_length. lia.
Qed.

Lemma ramp_up_explicit (now : datetime) (to_timestamp : datetime -> Q) (n : Z)
      (ii fi : timedelta) :
  n <> 1 ->
  ramp_up_timestamps now to_timestamp n ii fi
  = Ok (map to_timestamp
            (walk now (map (fun i => ii - i * divide_and_round (ii - fi) (n - 1))
                           (range n)))).
Proof.
  intro Hn. unfold ramp_up_timestamps, td_div.
  rewrite (proj2 (Z.eqb_neq _ _)) by lia. cbn [bind].
  apply (ramp_walk now to_timestamp n
           (fun i => ii - i * divide_and_round (ii - fi) (n - 1))).
Qed.

Lemma ramp_down_explicit (now : datetime) (to_timestamp : datetime -> Q) (n : Z)
      (ii fi : timedelta) :
  n <> 1 ->
  ramp_down_timestamps now to_timestamp n ii fi
  = Ok (map to_timestamp
            (walk now (map (fun i => ii + i * divide_and_round (fi - ii) (n - 1))
                           (range n)))).
Proof.
  intro Hn. unfold ramp_down_timestamps, td_div.
  rewrite (proj2 (Z.eqb_neq _ _)) by lia. cbn [bind].
  apply (ramp_walk now to_timestamp n
           (fun i => ii + i * divide_and_round (fi - ii) (n - 1))).
Qed.

Lemma ramp_zero_timestamps (now : datetime) (to_timestamp : datetime -> Q)
      (ii fi : timedelta) :
  ramp_up_timestamps now to_timestamp 0 ii fi = Ok []
  /\ ramp_down_timestamps now to_timestamp 0 ii fi = Ok [].
Proof. split; reflexivity. Qed.

Lemma removelast_range (f : Z -> Z) (n : Z) :
  1 <= n -> removelast (map f (range n)) = map f (range (n - 1)).
Proof.
  intro Hn. replace n with (n - 1 + 1) at 1 by lia.
  rewrite range_succ by lia. rewrite map_app. simpl.
  apply removelast_last.
Qed.

Lemma falling_map_seq (f : Z -> Z) (a k : nat) :
  (forall i, f (i + 1) <= f i) ->
  falling (map f (map Z.of_nat (seq a k))).
Proof.
  intro Hf. revert a; induction k as [|k IH]; intro a; [exact I|].
  destruct k as [|k]; [exact I|].
  specialize (IH (S a)). cbn [seq map] in *. cbn [falling]. split; [|exact IH].
  replace (Z.of_nat (S a)) with (Z.of_nat a + 1) by lia. apply Hf.
Qed.

Lemma rising_map_seq (f : Z -> Z) (a k : nat) :
  (forall i, f i <= f (i + 1)) ->
  rising (map f (map Z.of_nat (seq a k))).
Proof.
  intro Hf. revert a; induction k as [|k IH]; intro a; [exact I|].
  destruct k as [|k]; [exact I|].
  specialize (IH (S a)). cbn [seq map] in *. cbn [rising]. split; [|exact IH].
  replace (Z.of_nat (S a)) with (Z.of_nat a + 1) by lia. apply Hf.
Qed.

(** C3 as stated fails.  Under an exact conversion, a ramp-up from one second
    to ten seconds has growing gaps; and with equal intervals, the gaps of the
    timestamps drop and grow again where the clocks are put forward. *)
Lemma ramp_up_gaps_can_grow :
  (exists ts, ramp_up_timestamps t0 utc_exact 3 (seconds 1) (seconds 10) = Ok ts
              /\ ~ nonincreasing (gaps ts))
  /\ (exists ts, ramp_up_timestamps t0 (spring_forward 5400001000) 5
                                    (minutes 30) (minutes 30) = Ok ts
                 /\ ~ nonincreasing (gaps ts)).
Proof.
  split; eexists; (split; [reflexivity|]); cbn.
  - intros [H _]. unfold Qle in H; simpl in H. lia.
  - intros (_ & _ & H & _). unfold Qle in H; simpl in H. lia.
Qed.

(** C3 (amended). With at least three tasks, the timestamps of a ramp are
    taken at datetimes whose gap number [i] is [initial_interval - i * step]
    for ramp-up and [initial_interval + i * step] for ramp-down, [step] being
    the rounded quotient of the interval difference by [n - 1].  These gaps
    are non-increasing for a ramp-up with [final_interval <= initial_interval]
    and non-decreasing for a ramp-down with [initial_interval <=
    final_interval], and the increment reached after [n - 1] steps is within
    [(n - 1) / 2] microseconds of [final_interval].  The gaps between the
    timestamps themselves are monotone in the same way when the conversion
    to timestamps preserves differences, and monotone up to [4 * eps] when it
    is accurate to [eps]. *)
Theorem ramp_gaps_monotone (now : datetime) (to_timestamp : datetime -> Q) (n : Z)
        (ii fi : timedelta) :
  3 <= n ->
  (fi <= ii ->
   exists taken,
     ramp_up_timestamps now to_timestamp n ii fi = Ok (map to_timestamp taken)
     /\ List.length taken = Z.to_nat n
     /\ intervals taken = map (fun i => ii - i * divide_and_round (ii - fi) (n - 1))
                              (range (n - 1))
     /\ falling (intervals taken)
     /\ 2 * Z.abs (ii - (n - 1) * divide_and_round (ii - fi) (n - 1) - fi) <= n - 1
     /\ (exact to_timestamp -> nonincreasing (gaps (map to_timestamp taken)))
     /\ (forall eps, accurate eps to_timestamp ->
                     nonincreasing_within (4 * eps) (gaps (map to_timestamp taken))))
  /\
  (ii <= fi ->
   exists taken,
     ramp_down_timestamps now to_timestamp n ii fi = Ok (map to_timestamp taken)
     /\ List.length taken = Z.to_nat n
     /\ intervals taken = map (fun i => ii + i * divide_and_round (fi - ii) (n - 1))
                              (range (n - 1))
     /\ rising (intervals taken)
     /\ 2 * Z.abs (ii + (n - 1) * divide_and_round (fi - ii) (n - 1) - fi) <= n - 1
     /\ (exact to_timestamp -> nondecreasing (gaps (map to_timestamp taken)))
     /\ (forall eps, accurate eps to_timestamp ->
                     nondecreasing_within (4 * eps) (gaps (map to_timestamp taken)))).
Proof.
  intro Hn. split; intro Hord.
  - eexists. split; [apply ramp_up_explicit; lia|].
    rewrite walk_length, List.length_map, range_length.
    split; [reflexivity|]. rewrite intervals_walk, removelast_range by lia.
    split; [reflexivity|].
    assert (Hfall : falling (map (fun i => ii - i * divide_and_round (ii - fi) (n - 1))
                                 (range (n - 1)))).
    { apply falling_map_seq. intro i.
      pose proof (divide_and_round_nonneg (ii - fi) (n - 1)). nia. }
    split; [exact Hfall|]. split; [|split].
    + pose proof (divide_and_round_close (ii - fi) (n - 1)). lia.
    + intro He. eapply gaps_falling; [apply gaps_exact; exact He|].
      rewrite intervals_walk, removelast_range by lia. exact Hfall.
    + intros eps Ha. apply (nonincreasing_within_weaken (2 * (2 * eps))); [lra|].
      eapply gaps_falling_within; [apply gaps_accurate; exact Ha|].
      rewrite intervals_walk, removelast_range by lia. exact Hfall.
  - eexists. split; [apply ramp_down_explicit; lia|].
    rewrite walk_length, List.length_map, range_length.
    split; [reflexivity|]. rewrite intervals_walk, removelast_range by lia.
    split; [reflexivity|].
    assert (Hrise : rising (map (fun i => ii + i * divide_and_round (fi - ii) (n - 1))
                                (range (n - 1)))).
    { apply rising_map_seq. intro i.
      pose proof (divide_and_round_nonneg (fi - ii) (n - 1)). nia. }
    split; [exact Hrise|]. split; [|split].
    + pose proof (divide_and_round_close (fi - ii) (n - 1)). lia.
    + intro He. eapply gaps_rising; [apply gaps_exact; exact He|].
      rewrite intervals_walk, removelast_range by lia. exact Hrise.
    + intros eps Ha. apply (nondecreasing_within_weaken (2 * (2 * eps))); [lra|].
      eapply gaps_rising_within; [apply gaps_accurate; exact Ha|].
      rewrite intervals_walk, removelast_range by lia. exact Hrise.
Qed.

Lemma ramp_gaps_monotone_witness :
  (exists ts, ramp_up_timestamps t0 utc_exact 4 (minutes 10) (seconds 30) = Ok ts
              /\ nonincreasing (gaps ts))
  /\ (exists ts, ramp_down_timestamps t0 utc_exact 4 (seconds 30) (minutes 10) = Ok ts
                 /\ nondecreasing (gaps ts)).
Proof.
  split.
  - destruct (ramp_gaps_monotone t0 utc_exact 4 (minutes 10) (seconds 30) ltac:(lia))
      as [Hup _].
    destruct (Hup ltac:(unfold minutes, seconds; lia))
      as (l & H & _ & _ & _ & _ & Hm & _).
    eexists. split; [exact H | exact (Hm utc_exact_exact)].
  - destruct (ramp_gaps_monotone t0 utc_exact 4 (seconds 30) (minutes 10) ltac:(lia))
      as [_ Hdown].
    destruct (Hdown ltac:(unfold minutes, seconds; lia))
      as (l & H & _ & _ & _ & _ & Hm & _).
    eexists. split; [exact H | exact (Hm utc_exact_exact)].
Defined.

(** ** Small and negative counts *)

Lemma sample_zero (pool : DataFrame) (g : Rng) :
  exists df, sample pool 0 g = Ok df
             /\ index df = []
             /\ column_names df = column_names pool.
Proof.
  destruct (sample_Ok pool g 0) as (df & Hs & Hl & Hc); [lia | now left |].
  exists df. repeat split; try assumption.
  destruct (index df); [reflexivity | discriminate].
Qed.

Lemma setitem_succeeds (df : DataFrame) (name : string) (vals : list cell) :
  List.length vals = List.length (index df) \/ index df = [] ->
  exists d1, setitem df name vals = Ok d1.
Proof.
  intros H. unfold setitem.
  destruct (Nat.eqb_spec (List.length vals) (List.length (index df))) as [He|Hne];
    [eexists; reflexivity|].
  destruct H as [H | H]; [contradiction|].
  rewrite H. eexists; reflexivity.
Qed.

(** The closing statements succeed when the timestamps fit the sample, or
    the sample has no rows, and the pool has no subset column of its own;
    with such a column they raise at the [insert]. *)
Lemma assemble_succeeds (df : DataFrame) (ts : list Q) (path : string) :
  List.length ts = List.length (index df) \/ index df = [] ->
  has_column "subset" df = false ->
  exists out, assemble df ts path = Ok out
              /\ List.length (index (frame out)) = List.length ts.
Proof.
  intros Hfit Hsub.
  destruct (setitem_succeeds df "timestamp" (stamps ts)) as (d1 & Hset).
  { unfold stamps. now rewrite List.length_map. }
  pose proof (setitem_result _ _ _ _ Hset) as (_ & _ & _ & Hother).
  assert (Hout : exists out, assemble df ts path = Ok out).
  { unfold assemble. rewrite Hset. cbn [bind]. unfold insert.
    rewrite Hother by reflexivity. rewrite Hsub. cbn [Nat.ltb Nat.leb bind].
    eexists; reflexivity. }
  destruct Hout as (out & Hout). exists out. split; [exact Hout|].
  now apply assemble_result in Hout.
Qed.

Lemma assemble_clash_raises (df : DataFrame) (ts : list Q) (path : string) :
  List.length ts = List.length (index df) \/ index df = [] ->
  has_column "subset" df = true ->
  assemble df ts path = Raise ValueError.
Proof.
  intros Hfit Hsub.
  destruct (setitem_succeeds df "timestamp" (stamps ts)) as (d1 & Hset).
  { unfold stamps. now rewrite List.length_map. }
  pose proof (setitem_result _ _ _ _ Hset) as (_ & _ & _ & Hother).
  unfold assemble. rewrite Hset. cbn [bind].
  rewrite insert_clash; [reflexivity|].
  rewrite Hother by reflexivity. exact Hsub.
Qed.

Lemma rows_empty (df : DataFrame) :
  List.length (index df) = 0%nat -> index df = [].
Proof. destruct (index df); [reflexivity | discriminate]. Qed.

(** With a count of zero no strategy but the single spike emits a timestamp. *)
Lemma bursty_zero_timestamps (g : Rng) (now : datetime) (to_timestamp : datetime -> Q)
      (fuel : nat) (bd : timedelta) (b : Z) (lai : timedelta) :
  bursty_timestamps g now to_timestamp fuel 0 bd b lai = Some (Ok []).
Proof.
  unfold bursty_timestamps, bursty_low_activity.
  rewrite burst_loop_full by reflexivity. destruct fuel; reflexivity.
Qed.

Lemma regular_spikes_zero_timestamps (g : Rng) (now : datetime)
      (to_timestamp : datetime -> Q) (si : timedelta) (st : Z) (ni : timedelta) :
  regular_spikes_timestamps g now to_timestamp 0 si st ni = Ok [].
Proof. reflexivity. Qed.

Lemma random_bursts_zero_timestamps (g : Rng) (now : datetime)
      (to_timestamp : datetime -> Q) (fuel : nat) (p : Q) (bd : timedelta) (m : Z)
      (ni : timedelta) :
  random_bursts_timestamps g now to_timestamp fuel 0 p bd m ni = Some (Ok []).
Proof.
  unfold random_bursts_timestamps, random_bursts_loop. destruct fuel; reflexivity.
Qed.

(** What each generator does with a count of zero, given the empty sample. *)
Lemma zero_count (pool : DataFrame) (g : Rng) (now : datetime)
      (to_timestamp : datetime -> Q) :
  (forall ii fi,
     exists out, simulate_ramp_down pool g now to_timestamp 0 ii fi = Ok out
                 /\ index (frame out) = [])
  /\ (has_column "subset" pool = false ->
      (forall fuel bd b lai,
         exists out, generate_bursty_dataset pool g now to_timestamp fuel 0 bd b lai
                     = Some (Ok out)
                     /\ index (frame out) = [])
      /\ (forall si st ni,
            exists out, simulate_regular_spikes pool g now to_timestamp 0 si st ni
                        = Ok out
                        /\ index (frame out) = [])
      /\ (forall ii fi,
            exists out, simulate_ramp_up pool g now to_timestamp 0 ii fi = Ok out
                        /\ index (frame out) = [])
      /\ (forall fuel p bd m ni,
            exists out, generate_random_bursts pool g now to_timestamp fuel 0 p bd m ni
                        = Some (Ok out)
                        /\ index (frame out) = [])
      /\ (forall bd ni b,
            exists out, generate_single_spike_dataset pool g now to_timestamp 0 bd ni b
                        = Ok out
                        /\ List.length (index (frame out)) = Z.abs_nat b))
  /\ (has_column "subset" pool = true ->
      (forall fuel bd b lai,
         generate_bursty_dataset pool g now to_timestamp fuel 0 bd b lai
         = Some (Raise ValueError))
      /\ (forall si st ni,
            simulate_regular_spikes pool g now to_timestamp 0 si st ni
            = Raise ValueError)
      /\ (forall ii fi,
            simulate_ramp_up pool g now to_timestamp 0 ii fi = Raise ValueError)
      /\ (forall fuel p bd m ni,
            generate_random_bursts pool g now to_timestamp fuel 0 p bd m ni
            = Some (Raise ValueError))
      /\ (forall bd ni b,
            generate_single_spike_dataset pool g now to_timestamp 0 bd ni b
            = Raise ValueError)).
Proof.
  destruct (sample_zero pool g) as (df & Hs & Hidx & Hc).
  assert (Hcol : has_column "subset" df = has_column "subset" pool)
    by (unfold has_column; now rewrite Hc).
  split; [|split].
  - intros ii fi. unfold simulate_ramp_down. rewrite Hs. cbn [bind].
    destruct (ramp_zero_timestamps now to_timestamp ii fi) as [_ ->]. cbn [bind].
    rewrite setitem_same by (now rewrite Hidx). cbn [bind].
    eexists; split; [reflexivity | exact Hidx].
  - intro Hsub. rewrite <- Hcol in Hsub.
    assert (Hasm : forall path,
              exists out, assemble df [] path = Ok out /\ index (frame out) = []).
    { intro path. destruct (assemble_succeeds df [] path) as (out & Ha & Hr);
        [now right | exact Hsub |].
      exists out. split; [exact Ha | now apply rows_empty]. }
    repeat apply conj.
    + intros fuel bd b lai. unfold generate_bursty_dataset.
      rewrite Hs, bursty_zero_timestamps. cbn [total and_then].
      destruct (Hasm "bursty_dataset.csv") as (out & Ha & Hi). exists out.
      split; [|exact Hi]. unfold total; f_equal; exact Ha.
    + intros si st ni. unfold simulate_regular_spikes. rewrite Hs. cbn [bind].
      rewrite regular_spikes_zero_timestamps. cbn [bind].
      apply (Hasm "regular_spike_dataset.csv").
    + intros ii fi. unfold simulate_ramp_up. rewrite Hs. cbn [bind].
      destruct (ramp_zero_timestamps now to_timestamp ii fi) as [-> _]. cbn [bind].
      apply (Hasm "ramp_up_dataset.csv").
    + intros fuel p bd m ni. unfold generate_random_bursts.
      rewrite Hs, random_bursts_zero_timestamps. cbn [total and_then].
      destruct (Hasm "random_burst_dataset.csv") as (out & Ha & Hi). exists out.
      split; [|exact Hi]. unfold total; f_equal; exact Ha.
    + intros bd ni b. unfold generate_single_spike_dataset. rewrite Hs. cbn [bind].
      destruct (assemble_succeeds df
                  (single_spike_timestamps g now to_timestamp 0 bd ni b)
                  "single_spike_dataset.csv") as (out & Ha & Hr);
        [now right | exact Hsub |].
      exists out. split; [exact Ha|]. rewrite Hr, single_spike_count. lia.
  - intro Hsub. rewrite <- Hcol in Hsub.
    assert (Hasm : forall ts path, assemble df ts path = Raise ValueError).
    { intros ts path. apply assemble_clash_raises; [now right | exact Hsub]. }
    repeat apply conj.
    + intros fuel bd b lai. unfold generate_bursty_dataset.
      rewrite Hs, bursty_zero_timestamps. cbn [total and_then].
      unfold total; f_equal. apply (Hasm [] "bursty_dataset.csv").
    + intros si st ni. unfold simulate_regular_spikes. rewrite Hs. cbn [bind].
      rewrite regular_spikes_zero_timestamps. cbn [bind].
      apply (Hasm [] "regular_spike_dataset.csv").
    + intros ii fi. unfold simulate_ramp_up. rewrite Hs. cbn [bind].
      destruct (ramp_zero_timestamps now to_timestamp ii fi) as [-> _]. cbn [bind].
      apply (Hasm [] "ramp_up_dataset.csv").
    + intros fuel p bd m ni. unfold generate_random_bursts.
      rewrite Hs, random_bursts_zero_timestamps. cbn [total and_then].
      unfold total; f_equal. apply (Hasm [] "random_burst_dataset.csv").
    + intros bd ni b. unfold generate_single_spike_dataset. rewrite Hs. cbn [bind].
      apply (Hasm _ "single_spike_dataset.csv").
Qed.

(** C7 as stated fails: asking the sampler for no rows is not an error, and a
    generator called with a count of zero returns a dataset. *)
Lemma sample_zero_rows :
  sample pool2 0 half = Ok {| index := []; columns := [("circuit", []); ("qubits", [])] |}
  /\ (forall e, sample pool2 0 half <> Raise e)
  /\ exists out, generate_bursty_dataset pool2 half t0 utc_exact 0 0 (minutes 1) 10
                                         (minutes 5)
                 = Some (Ok out)
                 /\ index (frame out) = [].
Proof.
  split; [reflexivity|]. split; [intros e H; discriminate|].
  eexists. split; reflexivity.
Qed.

(** C7 (amended). [DataFrame.sample] refuses a negative count with a
    [ValueError], and so does each of the six generators that take a count,
    whose first statement is the sampling.  For a count of zero the sampler
    returns an empty sample with the pool's columns.  [simulate_ramp_down]
    then returns an empty dataset.  The other five raise [ValueError] when
    the pool has a column named [subset]; when it has none, the bursty,
    regular-spike, ramp-up and random-burst generators return an empty
    dataset and the single-spike generator returns a dataset of
    [|burst_tasks|] rows. *)
Theorem sampler_small_counts (pool : DataFrame) (g : Rng) (now : datetime)
        (to_timestamp : datetime -> Q) (n : Z) :
  n <= 0 ->
  (n < 0 ->
   sample pool n g = Raise ValueError
   /\ (forall bd ni b, generate_single_spike_dataset pool g now to_timestamp n bd ni b
                       = Raise ValueError)
   /\ (forall fuel bd b lai,
         generate_bursty_dataset pool g now to_timestamp fuel n bd b lai
         = Some (Raise ValueError))
   /\ (forall si st ni, simulate_regular_spikes pool g now to_timestamp n si st ni
                        = Raise ValueError)
   /\ (forall ii fi, simulate_ramp_up pool g now to_timestamp n ii fi
                     = Raise ValueError)
   /\ (forall ii fi, simulate_ramp_down pool g now to_timestamp n ii fi
                     = Raise ValueError)
   /\ (forall fuel p bd m ni,
         generate_random_bursts pool g now to_timestamp fuel n p bd m ni
         = Some (Raise ValueError)))
  /\
  (n = 0 ->
   (exists df, sample pool n g = Ok df
               /\ index df = []
               /\ column_names df = column_names pool)
   /\ (forall ii fi,
         exists out, simulate_ramp_down pool g now to_timestamp n ii fi = Ok out
                     /\ index (frame out) = [])
   /\ (has_column "subset" pool = false ->
       (forall fuel bd b lai,
          exists out, generate_bursty_dataset pool g now to_timestamp fuel n bd b lai
                      = Some (Ok out)
                      /\ index (frame out) = [])
       /\ (forall si st ni,
             exists out, simulate_regular_spikes pool g now to_timestamp n si st ni
                         = Ok out
                         /\ index (frame out) = [])
       /\ (forall ii fi,
             exists out, simulate_ramp_up pool g now to_timestamp n ii fi = Ok out
                         /\ index (frame out) = [])
       /\ (forall fuel p bd m ni,
             exists out, generate_random_bursts pool g now to_timestamp fuel n p bd m ni
                         = Some (Ok out)
                         /\ index (frame out) = [])
       /\ (forall bd ni b,
             exists out, generate_single_spike_dataset pool g now to_timestamp n bd ni b
                         = Ok out
                         /\ List.length (index (frame out)) = Z.abs_nat b))
   /\ (has_column "subset" pool = true ->
       (forall fuel bd b lai,
          generate_bursty_dataset pool g now to_timestamp fuel n bd b lai
          = Some (Raise ValueError))
       /\ (forall si st ni,
             simulate_regular_spikes pool g now to_timestamp n si st ni
             = Raise ValueError)
       /\ (forall ii fi,
             simulate_ramp_up pool g now to_timestamp n ii fi = Raise ValueError)
       /\ (forall fuel p bd m ni,
             generate_random_bursts pool g now to_timestamp fuel n p bd m ni
             = Some (Raise ValueError))
       /\ (forall bd ni b,
             generate_single_spike_dataset pool g now to_timestamp n bd ni b
             = Raise ValueError))).
Proof.
  intros _. split.
  - intro Hn. pose proof (sample_negative pool g n Hn) as Hs.
    unfold generate_single_spike_dataset, generate_bursty_dataset,
      simulate_regular_spikes, simulate_ramp_up, simulate_ramp_down,
      generate_random_bursts.
    rewrite Hs. repeat split; reflexivity.
  - intros ->. split; [apply sample_zero|].
    exact (zero_count pool g now to_timestamp).
Qed.

Lemma sampler_small_counts_witness :
  sample pool2 (-1) half = Raise ValueError
  /\ (exists df, sample pool2 0 half = Ok df /\ index df = [])
  /\ (exists out, generate_single_spike_dataset pool2 half t0 utc_exact 0
                    (seconds 60) (seconds 10) 3 = Ok out
                  /\ List.length (index (frame out)) = 3%nat).
Proof.
  split; [|split].
  - destruct (sampler_small_counts pool2 half t0 utc_exact (-1) ltac:(lia))
      as [Hneg _].
    exact (proj1 (Hneg ltac:(lia))).
  - destruct (sampler_small_counts pool2 half t0 utc_exact 0 ltac:(lia))
      as [_ Hzero].
    destruct (Hzero eq_refl) as ((df & H & Hi & _) & _).
    exists df; split; assumption.
  - destruct (sampler_small_counts pool2 half t0 utc_exact 0 ltac:(lia))
      as [_ Hzero].
    destruct (Hzero eq_refl) as (_ & _ & Hfree & _).
    destruct (Hfree eq_refl) as (_ & _ & _ & _ & Hspike).
    exact (Hspike (seconds 60) (seconds 10) 3).
Defined.

(** C4 as stated fails: a ramp-up of zero tasks returns an empty dataset. *)
Lemma ramp_up_zero_tasks :
  simulate_ramp_up pool2 half t0 utc_exact 0 (minutes 10) (seconds 30)
  = Ok {| csv := "ramp_up_dataset.csv";
          frame := {| index := [];
                      columns := [("subset", []); ("circuit", []); ("qubits", []);
                                  ("timestamp", [])] |} |}
  /\ forall e, simulate_ramp_up pool2 half t0 utc_exact 0 (minutes 10) (seconds 30)
               <> Raise e.
Proof. split; [reflexivity | intros e H; discriminate]. Qed.

(** C4 (amended). The ramp strategies check nothing themselves.  With one
    task the division by [num_qtasks - 1] raises [ZeroDivisionError] (after
    the sampling, which raises [ValueError] first when the pool is empty);
    with a negative count the sampling raises [ValueError]; with a count of
    zero [simulate_ramp_down] returns an empty dataset, and [simulate_ramp_up]
    returns an empty dataset when the pool has no column named [subset] and
    raises [ValueError] when it has one. *)
Theorem ramp_small_counts (pool : DataFrame) (g : Rng) (now : datetime)
        (to_timestamp : datetime -> Q) (n : Z) (ii fi : timedelta) :
  n < 2 ->
  (n = 1 -> index pool <> [] ->
   simulate_ramp_up pool g now to_timestamp n ii fi = Raise ZeroDivisionError
   /\ simulate_ramp_down pool g now to_timestamp n ii fi = Raise ZeroDivisionError)
  /\
  (n = 1 -> index pool = [] ->
   simulate_ramp_up pool g now to_timestamp n ii fi = Raise ValueError
   /\ simulate_ramp_down pool g now to_timestamp n ii fi = Raise ValueError)
  /\
  (n < 0 ->
   simulate_ramp_up pool g now to_timestamp n ii fi = Raise ValueError
   /\ simulate_ramp_down pool g now to_timestamp n ii fi = Raise ValueError)
  /\
  (n = 0 ->
   (exists down, simulate_ramp_down pool g now to_timestamp n ii fi = Ok down
                 /\ index (frame down) = [])
   /\ (has_column "subset" pool = false ->
       exists up, simulate_ramp_up pool g now to_timestamp n ii fi = Ok up
                  /\ index (frame up) = [])
   /\ (has_column "subset" pool = true ->
       simulate_ramp_up pool g now to_timestamp n ii fi = Raise ValueError)).
Proof.
  intros _. split; [|split; [|split]].
  - intros -> Hpool. unfold simulate_ramp_up, simulate_ramp_down.
    destruct (sample_Ok pool g 1) as (df & -> & _); [lia | now right |].
    split; reflexivity.
  - intros -> Hpool. unfold simulate_ramp_up, simulate_ramp_down.
    rewrite sample_empty_pool by (lia || assumption). split; reflexivity.
  - intro Hn. unfold simulate_ramp_up, simulate_ramp_down.
    rewrite sample_negative by exact Hn. split; reflexivity.
  - intros ->.
    destruct (zero_count pool g now to_timestamp) as (Hdown & Hfree & Hclash).
    split; [exact (Hdown ii fi)|]. split.
    + intro Hsub. destruct (Hfree Hsub) as (_ & _ & Hup & _). exact (Hup ii fi).
    + intro Hsub. destruct (Hclash Hsub) as (_ & _ & Hup & _). exact (Hup ii fi).
Qed.

Lemma ramp_small_counts_witness :
  simulate_ramp_up pool2 half t0 utc_exact 1 (minutes 10) (seconds 30)
  = Raise ZeroDivisionError
  /\ simulate_ramp_down pool2 half t0 utc_exact 1 (seconds 30) (minutes 10)
     = Raise ZeroDivisionError
  /\ simulate_ramp_up pool_with_subset half t0 utc_exact 0 (minutes 10) (seconds 30)
     = Raise ValueError.
Proof.
  split; [|split].
  - destruct (ramp_small_counts pool2 half t0 utc_exact 1 (minutes 10) (seconds 30)
                ltac:(lia)) as [Hone _].
    exact (proj1 (Hone eq_refl ltac:(discriminate))).
  - destruct (ramp_small_counts pool2 half t0 utc_exact 1 (seconds 30) (minutes 10)
                ltac:(lia)) as [Hone _].
    exact (proj2 (Hone eq_refl ltac:(discriminate))).
  - destruct (ramp_small_counts pool_with_subset half t0 utc_exact 0 (minutes 10)
                (seconds 30) ltac:(lia)) as (_ & _ & _ & Hzero).
    destruct (Hzero eq_refl) as (_ & _ & Hclash).
    exact (Hclash eq_refl).
Defined.

(** ** The subset label *)

(** Every generator but [simulate_ramp_down] labels each record of its
    output with a leading [subset = 1]. *)
Lemma siblings_label_records (pool : DataFrame) (g : Rng) (now : datetime)
      (to_timestamp : datetime -> Q) (out : Output) :
  (forall n bd ni b,
     generate_single_spike_dataset pool g now to_timestamp n bd ni b = Ok out ->
     Forall (fun r => hd_error r = Some ("subset", CInt 1)) (records (frame out)))
  /\ (forall fuel n bd b lai,
        generate_bursty_dataset pool g now to_timestamp fuel n bd b lai = Some (Ok out) ->
     Forall (fun r => hd_error r = Some ("subset", CInt 1)) (records (frame out)))
  /\ (forall n si st ni,
        simulate_regular_spikes pool g now to_timestamp n si st ni = Ok out ->
     Forall (fun r => hd_error r = Some ("subset", CInt 1)) (records (frame out)))
  /\ (forall n ii fi, simulate_ramp_up pool g now to_timestamp n ii fi = Ok out ->
     Forall (fun r => hd_error r = Some ("subset", CInt 1)) (records (frame out)))
  /\ (forall fuel n p bd m ni,
        generate_random_bursts pool g now to_timestamp fuel n p bd m ni = Some (Ok out) ->
     Forall (fun r => hd_error r = Some ("subset", CInt 1)) (records (frame out))).
Proof.
  repeat split; intros.
  - unfold generate_single_spike_dataset in H.
    apply bind_Ok in H as (df & _ & H).
    now apply (assemble_labels df _ "single_spike_dataset.csv") in H.
  - unfold generate_bursty_dataset in H.
    apply and_then_Ok in H as (df & _ & H). apply and_then_Ok in H as (ts & _ & H).
    unfold total in H. injection H as H.
    now apply (assemble_labels df _ "bursty_dataset.csv") in H.
  - unfold simulate_regular_spikes in H.
    apply bind_Ok in H as (df & _ & H). apply bind_Ok in H as (ts & _ & H).
    now apply (assemble_labels df _ "regular_spike_dataset.csv") in H.
  - unfold simulate_ramp_up in H.
    apply bind_Ok in H as (df & _ & H). apply bind_Ok in H as (ts & _ & H).
    now apply (assemble_labels df _ "ramp_up_dataset.csv") in H.
  - unfold generate_random_bursts in H.
    apply and_then_Ok in H as (df & _ & H). apply and_then_Ok in H as (ts & _ & H).
    unfold total in H. injection H as H.
    now apply (assemble_labels df _ "random_burst_dataset.csv") in H.
Qed.

(** C2 (defect). [simulate_ramp_down] returns the sampled records with their
    timestamps but without the subset field, which its sibling
    [simulate_ramp_up] inserts in front of every record on the same input. *)
Theorem ramp_down_drops_subset (pool : DataFrame) (g : Rng) (now : datetime)
        (to_timestamp : datetime -> Q) (n : Z) (ii fi : timedelta) :
  2 <= n -> index pool <> [] -> has_column "subset" pool = false ->
  exists down up,
    simulate_ramp_down pool g now to_timestamp n ii fi = Ok down
    /\ has_column "subset" (frame down) = false
    /\ Forall (fun r => hd_error r <> Some ("subset", CInt 1)) (records (frame down))
    /\ List.length (records (frame down)) = Z.to_nat n
    /\ simulate_ramp_up pool g now to_timestamp n ii fi = Ok up
    /\ Forall (fun r => hd_error r = Some ("subset", CInt 1)) (records (frame up))
    /\ List.length (records (frame up)) = Z.to_nat n.
Proof.
  intros Hn Hpool Hsub.
  destruct (sample_Ok pool g n) as (df & Hs & Hl & Hc); [lia | now right |].
  assert (Hsub' : has_column "subset" df = false)
    by (unfold has_column; now rewrite Hc).
  unfold simulate_ramp_down, simulate_ramp_up. rewrite Hs. cbn [bind].
  rewrite ramp_down_explicit, ramp_up_explicit by lia. cbn [bind].
  match goal with
  | |- context [setitem df "timestamp" (stamps ?l)] =>
      assert (Hd : List.length (stamps l) = List.length (index df))
        by (unfold stamps;
            now rewrite !List.length_map, walk_length, List.length_map, range_length)
  end.
  rewrite (setitem_same df "timestamp" _ Hd). cbn [bind].
  match goal with
  | |- context [setitem df "timestamp" (stamps ?l)] =>
      fold (assemble df l "ramp_up_dataset.csv");
      assert (Hu : List.length l = List.length (index df))
        by (now rewrite List.length_map, walk_length, List.length_map, range_length)
  end.
  rewrite (assemble_Ok _ _ _ Hu Hsub').
  do 2 eexists. split; [reflexivity|]. cbn [to_csv frame].
  assert (Hdown : forall cols, has_column "subset"
            {| index := index df; columns := set_column "timestamp" cols (columns df) |}
            = false).
  { intro cols. unfold has_column, column_names; cbn [columns].
    rewrite set_column_names_other by reflexivity. exact Hsub'. }
  split; [apply Hdown|]. split.
  { apply Forall_forall. intros r Hr. unfold records in Hr.
    apply in_map_iff in Hr as (i & <- & _). apply unlabelled_records, Hdown. }
  split; [unfold records; cbn [index]; now rewrite List.length_map, List.length_seq|].
  split; [reflexivity|]. split; [apply labelled_records|].
  unfold records; cbn [index]. now rewrite List.length_map, List.length_seq.
Qed.

Lemma ramp_down_drops_subset_witness :
  exists down,
    simulate_ramp_down pool2 half t0 utc_exact 3 (seconds 30) (minutes 10) = Ok down
    /\ has_column "subset" (frame down) = false.
Proof.
  destruct (ramp_down_drops_subset pool2 half t0 utc_exact 3 (seconds 30) (minutes 10)
              ltac:(lia) ltac:(discriminate) eq_refl)
    as (down & up & H1 & H2 & _).
  exists down; split; assumption.
Defined.

Example ramp_down_columns :
  option_map (fun out => column_names (frame out))
    (match simulate_ramp_down pool2 half t0 utc_exact 3 (seconds 30) (minutes 10) with
     | Ok out => Some out
     | Raise _ => None
     end)
  = Some ["circuit"; "qubits"; "timestamp"].
Proof. reflexivity. Qed.

(** ** No arrival before the start *)

Lemma in_order_monotone (to_timestamp : datetime -> Q) (base : datetime)
      (ts : list Q) :
  monotone to_timestamp -> in_order to_timestamp base ts ->
  Forall (fun t => (to_timestamp base <= t)%Q) ts /\ nondecreasing ts.
Proof.
  intros Hm (l & -> & Hr & Hall).
  split; [now apply map_not_before | now apply map_ascending].
Qed.

Lemma ordered_in_order (to_timestamp : datetime -> Q) (base : datetime)
      (s : cursor) :
  ordered to_timestamp base s -> in_order to_timestamp base (timestamps s).
Proof.
  intros (l & Hl & _ & Hs & Hall). exists l. repeat split; try assumption.
  eapply Forall_impl; [|exact Hall]. simpl; intros; lia.
Qed.

Section Strategies.

Variable g : Rng.
Variable now : datetime.
Variable to_timestamp : datetime -> Q.
Hypothesis g_valid : valid g.

Lemma single_spike_ordered (n : Z) (bd ni : timedelta) (b : Z) :
  0 <= bd -> 0 <= ni ->
  in_order to_timestamp now (single_spike_timestamps g now to_timestamp n bd ni b).
Proof.
  intros Hbd Hni. unfold single_spike_timestamps. apply ordered_in_order.
  apply iter_inv; [intro s; now apply ordered_advance_then_emit|].
  apply iter_inv; [|apply ordered_start].
  intros s Hs. unfold single_spike_burst, draw_uniform.
  apply ordered_advance_then_emit; [apply uniform_nonneg; (assumption || lia)|].
  destruct s as [ts c k]; simpl. eapply ordered_later; [|exact Hs]. lia.
Qed.

Lemma bursty_ordered (fuel : nat) (n : Z) (bd : timedelta) (b : Z)
      (lai : timedelta) (ts : list Q) :
  0 <= bd -> 0 <= lai ->
  bursty_timestamps g now to_timestamp fuel n bd b lai = Some (Ok ts) ->
  in_order to_timestamp now ts.
Proof.
  intros Hbd Hlai H. unfold bursty_timestamps in H.
  apply and_then_Ok in H as (s2 & Hloop & H). inversion H; subst ts; clear H.
  apply ordered_slice_at.
  eapply (while_inv (ordered to_timestamp now)); [| |exact Hloop].
  - intros s s' Hs _ Hb. inversion Hb; subst. now apply ordered_emit_then_advance.
  - apply ordered_burst_loop; [assumption .. | | apply ordered_start].
    intro Hk. lia.
Qed.

Lemma regular_spikes_ordered (n : Z) (si : timedelta) (st : Z) (ni : timedelta)
      (ts : list Q) :
  0 <= si -> 0 <= ni ->
  regular_spikes_timestamps g now to_timestamp n si st ni = Ok ts ->
  in_order to_timestamp now ts.
Proof.
  intros Hsi Hni H. unfold regular_spikes_timestamps in H.
  apply bind_Ok in H as (s & Hloop & H). inversion H; subst ts; clear H.
  apply ordered_slice_at.
  eapply (for_each_inv (ordered to_timestamp now)); [| apply ordered_start | exact Hloop].
  intros i s1 s2 Hs1 Hb. unfold regular_spikes_body in Hb.
  apply bind_Ok in Hb as (r & _ & Hb).
  destruct ((r =? 0) && negb (i =? 0)); inversion Hb; subst s2.
  - apply ordered_burst_loop; [assumption .. | | now apply ordered_advance].
    intro Hk. lia.
  - now apply ordered_emit_then_advance.
Qed.

Lemma random_bursts_body_ordered (n : Z) (p : Q) (bd : timedelta) (m : Z)
      (ni : timedelta) (s s' : cursor) :
  0 <= bd -> 0 <= ni -> ordered to_timestamp now s ->
  random_bursts_body g to_timestamp n p bd m ni s = Ok s' ->
  ordered to_timestamp now s'.
Proof.
  intros Hbd Hni Hs Hb. unfold random_bursts_body in Hb. cbv zeta in Hb.
  destruct (below _ p).
  - apply bind_Ok in Hb as (k & _ & Hb). inversion Hb; subst s'.
    apply ordered_burst_loop; [assumption .. | intros _; lia |].
    now apply ordered_tick, ordered_tick.
  - inversion Hb; subst s'. apply ordered_emit_then_advance; [assumption|].
    now apply ordered_tick.
Qed.

Lemma random_bursts_ordered (fuel : nat) (n : Z) (p : Q) (bd : timedelta) (m : Z)
      (ni : timedelta) (ts : list Q) :
  0 <= bd -> 0 <= ni ->
  random_bursts_timestamps g now to_timestamp fuel n p bd m ni = Some (Ok ts) ->
  in_order to_timestamp now ts.
Proof.
  intros Hbd Hni H. unfold random_bursts_timestamps in H.
  apply and_then_Ok in H as (s & Hloop & H). inversion H; subst ts; clear H.
  apply ordered_slice_at.
  eapply (while_inv (ordered to_timestamp now)); [| apply ordered_start | exact Hloop].
  intros s1 s2 Hs1 _ Hb.
  exact (random_bursts_body_ordered n p bd m ni s1 s2 Hbd Hni Hs1 Hb).
Qed.

End Strategies.

(** C5 as stated fails where the clocks are changed: the cursor never moves
    back, but the timestamp read from it does.  Where they are put forward
    (here the start is 90 minutes before the first reading taken with the new
    offset, and the tasks are 30 minutes apart) the sequence decreases.
    Where they are put back and the start is read during the second pass of
    the repeated hour (here 30 minutes before its end, the tasks 10 minutes
    apart), the start carries [fold = 1], the sums computed from it do not,
    and the second timestamp lies before that of the start. *)
Lemma timestamps_can_step_back :
  (exists ts,
     bursty_timestamps half t0 (spring_forward 5400001000) 4 4 0 0 (minutes 30)
     = Some (Ok ts)
     /\ ts = [micro 1000; micro 1800001000; micro 3600001000; micro 1800001000]
     /\ ~ nondecreasing ts)
  /\ (exists ts,
        bursty_timestamps half {| wall := 1800000000; fold := true |}
                          (fall_back 3600000000) 2 2 0 0 (minutes 10)
        = Some (Ok ts)
        /\ ts = [micro 5400000000; micro 2400000000]
        /\ ~ Forall (fun t => (fall_back 3600000000
                                         {| wall := 1800000000; fold := true |}
                               <= t)%Q) ts).
Proof.
  split.
  - eexists. split; [reflexivity|]. split; [reflexivity|].
    cbn. intros (_ & _ & H & _). unfold Qle in H; simpl in H. lia.
  - eexists. split; [reflexivity|]. split; [reflexivity|].
    intro H. inversion H as [|? ? _ H1]; subst. inversion H1 as [|? ? H2 _]; subst.
    vm_compute in H2. apply H2. reflexivity.
Qed.

(** C5 (amended). With non-negative durations and intervals, the timestamps
    produced by the single-spike, bursty, regular-spike and random-burst
    strategies are taken at datetimes that are in order and none of which is
    before the start; when the conversion to timestamps is monotone, every
    timestamp is at or after that of the start and the sequence is
    non-decreasing. *)
Theorem timestamps_not_before_base (g : Rng) (now : datetime)
        (to_timestamp : datetime -> Q) :
  valid g ->
  (forall n bd ni b, 0 <= bd -> 0 <= ni ->
     let ts := single_spike_timestamps g now to_timestamp n bd ni b in
     in_order to_timestamp now ts
     /\ (monotone to_timestamp ->
         Forall (fun t => (to_timestamp now <= t)%Q) ts /\ nondecreasing ts))
  /\ (forall fuel n bd b lai ts, 0 <= bd -> 0 <= lai ->
        bursty_timestamps g now to_timestamp fuel n bd b lai = Some (Ok ts) ->
        in_order to_timestamp now ts
        /\ (monotone to_timestamp ->
            Forall (fun t => (to_timestamp now <= t)%Q) ts /\ nondecreasing ts))
  /\ (forall n si st ni ts, 0 <= si -> 0 <= ni ->
        regular_spikes_timestamps g now to_timestamp n si st ni = Ok ts ->
        in_order to_timestamp now ts
        /\ (monotone to_timestamp ->
            Forall (fun t => (to_timestamp now <= t)%Q) ts /\ nondecreasing ts))
  /\ (forall fuel n p bd m ni ts, 0 <= bd -> 0 <= ni ->
        random_bursts_timestamps g now to_timestamp fuel n p bd m ni = Some (Ok ts) ->
        in_order to_timestamp now ts
        /\ (monotone to_timestamp ->
            Forall (fun t => (to_timestamp now <= t)%Q) ts /\ nondecreasing ts)).
Proof.
  intro Hg.
  assert (Hboth : forall ts, in_order to_timestamp now ts ->
            in_order to_timestamp now ts
            /\ (monotone to_timestamp ->
                Forall (fun t => (to_timestamp now <= t)%Q) ts /\ nondecreasing ts)).
  { intros ts H. split; [exact H|]. intro Hm. now apply in_order_monotone. }
  repeat apply conj.
  - intros n bd ni b Hbd Hni. cbv zeta. apply Hboth. now apply single_spike_ordered.
  - intros fuel n bd b lai ts Hbd Hlai H. apply Hboth.
    exact (bursty_ordered g now to_timestamp Hg fuel n bd b lai ts Hbd Hlai H).
  - intros n si st ni ts Hsi Hni H. apply Hboth.
    exact (regular_spikes_ordered g now to_timestamp Hg n si st ni ts Hsi Hni H).
  - intros fuel n p bd m ni ts Hbd Hni H. apply Hboth.
    exact (random_bursts_ordered g now to_timestamp Hg fuel n p bd m ni ts Hbd Hni H).
Qed.

Lemma timestamps_not_before_base_witness :
  Forall (fun t => (utc_exact t0 <= t)%Q)
         (single_spike_timestamps half t0 utc_exact 3 (seconds 60) (seconds 10) 2)
  /\ (exists ts, bursty_timestamps half t0 utc_exact 5 4 (seconds 60) 2 (seconds 10)
                 = Some (Ok ts)
                 /\ Forall (fun t => (utc_exact t0 <= t)%Q) ts /\ nondecreasing ts)
  /\ (exists ts, regular_spikes_timestamps half t0 utc_exact 6 (seconds 15) 2
                                           (seconds 10)
                 = Ok ts
                 /\ Forall (fun t => (utc_exact t0 <= t)%Q) ts /\ nondecreasing ts)
  /\ (exists ts, random_bursts_timestamps half t0 utc_exact 5 4 1 (seconds 60) 3
                                          (seconds 10)
                 = Some (Ok ts)
                 /\ Forall (fun t => (utc_exact t0 <= t)%Q) ts /\ nondecreasing ts).
Proof.
  destruct (timestamps_not_before_base half t0 utc_exact half_valid)
    as (H1 & H2 & H3 & H4).
  repeat apply conj.
  - exact (proj1 (proj2 (H1 3 (seconds 60) (seconds 10) 2
                            ltac:(unfold seconds; lia) ltac:(unfold seconds; lia))
                        utc_exact_monotone)).
  - eexists. split; [reflexivity|].
    exact (proj2 (H2 5%nat 4 (seconds 60) 2 (seconds 10) _
                     ltac:(unfold seconds; lia) ltac:(unfold seconds; lia) eq_refl)
                 utc_exact_monotone).
  - eexists. split; [reflexivity|].
    exact (proj2 (H3 6 (seconds 15) 2 (seconds 10) _
                     ltac:(unfold seconds; lia) ltac:(unfold seconds; lia) eq_refl)
                 utc_exact_monotone).
  - eexists. split; [reflexivity|].
    exact (proj2 (H4 5%nat 4 1%Q (seconds 60) 3 (seconds 10) _
                     ltac:(unfold seconds; lia) ltac:(unfold seconds; lia) eq_refl)
                 utc_exact_monotone).
Defined.

(** ** Termination of the while loops *)

Lemma loop_exit_count (n : Z) (s : cursor) :
  within n s -> (len (timestamps s) <? n) = false -> 0 <= n ->
  len (timestamps s) = n.
Proof. intros Hw Hc Hn. apply Z.ltb_ge in Hc. specialize (Hw Hn). lia. Qed.

(** One iteration of the random-burst loop emits at least one timestamp and
    never more than are still missing. *)
Lemma random_bursts_body_progress (g : Rng) (to_timestamp : datetime -> Q) (n : Z)
      (p : Q) (bd : timedelta) (m : Z) (ni : timedelta) (s : cursor) :
  valid g -> 1 <= m -> len (timestamps s) < n ->
  exists s', random_bursts_body g to_timestamp n p bd m ni s = Ok s'
             /\ len (timestamps s) < len (timestamps s') <= n.
Proof.
  intros Hg Hm Hlt. unfold random_bursts_body. cbv zeta.
  destruct (below _ p).
  - destruct (randint1_range g (drawn (tick s)) m Hg Hm) as (k & -> & Hk).
    cbn [bind]. eexists; split; [reflexivity|].
    rewrite burst_loop_count by (simpl; lia). simpl. lia.
  - eexists; split; [reflexivity|].
    rewrite emit_then_advance_count. simpl. lia.
Qed.

Lemma bursty_terminates (g : Rng) (now : datetime) (to_timestamp : datetime -> Q)
      (fuel : nat) (n : Z) (bd : timedelta) (b : Z) (lai : timedelta) :
  (Z.to_nat n <= fuel)%nat ->
  exists ts, bursty_timestamps g now to_timestamp fuel n bd b lai = Some (Ok ts)
             /\ (0 <= n -> List.length ts = Z.to_nat n).
Proof.
  intro Hfuel. unfold bursty_timestamps, bursty_low_activity.
  set (s1 := burst_loop to_timestamp g (Z.to_nat b) n bd b (start now)).
  destruct (while_total (within n) (remaining n)
              (fun s => len (timestamps s) <? n)
              (fun s => Ok (emit_then_advance to_timestamp lai s)))
    with (fuel := fuel) (s := s1)
    as (s2 & Hrun & Hw & Hc).
  - intros s Hs Hcond. apply Z.ltb_lt in Hcond.
    eexists; split; [reflexivity|]. unfold within, remaining.
    rewrite emit_then_advance_count. split; lia.
  - intro Hn. subst s1. rewrite burst_loop_count by (unfold len; simpl; lia).
    unfold len; simpl. lia.
  - unfold remaining. pose proof (len_nonneg (timestamps s1)). lia.
  - rewrite Hrun. cbn [and_then total]. eexists; split; [reflexivity|].
    intro Hn. rewrite slice_to_all by (now apply loop_exit_count).
    pose proof (loop_exit_count n s2 Hw Hc Hn) as Hl. unfold len in Hl. lia.
Qed.

Lemma random_bursts_terminates (g : Rng) (now : datetime)
      (to_timestamp : datetime -> Q) (fuel : nat) (n : Z)
      (p : Q) (bd : timedelta) (m : Z) (ni : timedelta) :
  valid g -> 1 <= m -> (Z.to_nat n <= fuel)%nat ->
  exists ts, random_bursts_timestamps g now to_timestamp fuel n p bd m ni = Some (Ok ts)
             /\ (0 <= n -> List.length ts = Z.to_nat n).
Proof.
  intros Hg Hm Hfuel. unfold random_bursts_timestamps, random_bursts_loop.
  destruct (while_total (within n) (remaining n)
              (fun s => len (timestamps s) <? n)
              (random_bursts_body g to_timestamp n p bd m ni))
    with (fuel := fuel) (s := start now)
    as (s2 & Hrun & Hw & Hc).
  - intros s Hs Hcond. apply Z.ltb_lt in Hcond.
    destruct (random_bursts_body_progress g to_timestamp n p bd m ni s Hg Hm Hcond)
      as (s' & Hb & Hlen).
    exists s'. split; [exact Hb|]. unfold within, remaining. split; lia.
  - intro Hn. unfold len; simpl. exact Hn.
  - unfold remaining, len. simpl. lia.
  - rewrite Hrun. cbn [and_then total]. eexists; split; [reflexivity|].
    intro Hn. rewrite slice_to_all by (now apply loop_exit_count).
    pose proof (loop_exit_count n s2 Hw Hc Hn) as Hl. unfold len in Hl. lia.
Qed.

(** C8. The two while loops stop.  As long as timestamps are missing, an
    iteration of the low-activity loop of [generate_bursty_dataset] adds one
    timestamp and an iteration of the loop of [generate_random_bursts] (with
    [max_tasks_in_burst >= 1]) adds at least one and at most as many as are
    missing; so [num_qtasks] iterations are enough for both to return exactly
    [num_qtasks] timestamps.  (The other loops are [for] loops over a range
    and are structural recursions in this development.) *)
Theorem generation_loops_terminate (g : Rng) (now : datetime)
        (to_timestamp : datetime -> Q) (n : Z) (fuel : nat) :
  valid g -> (Z.to_nat n <= fuel)%nat ->
  (forall lai s, len (timestamps s) < n ->
     len (timestamps (emit_then_advance to_timestamp lai s)) = len (timestamps s) + 1)
  /\ (forall p bd m ni s, 1 <= m -> len (timestamps s) < n ->
        exists s', random_bursts_body g to_timestamp n p bd m ni s = Ok s'
                   /\ len (timestamps s) < len (timestamps s') <= n)
  /\ (forall bd b lai,
        exists ts, bursty_timestamps g now to_timestamp fuel n bd b lai = Some (Ok ts)
                   /\ (0 <= n -> List.length ts = Z.to_nat n))
  /\ (forall p bd m ni, 1 <= m ->
        exists ts, random_bursts_timestamps g now to_timestamp fuel n p bd m ni
                   = Some (Ok ts)
                   /\ (0 <= n -> List.length ts = Z.to_nat n))
  /\ (forall pool bd b lai,
        exists r, generate_bursty_dataset pool g now to_timestamp fuel n bd b lai
                  = Some r)
  /\ (forall pool p bd m ni, 1 <= m ->
        exists r, generate_random_bursts pool g now to_timestamp fuel n p bd m ni
                  = Some r).
Proof.
  intros Hg Hfuel. repeat apply conj.
  - intros lai s _. apply emit_then_advance_count.
  - intros p bd m ni s Hm Hlt. now apply random_bursts_body_progress.
  - intros bd b lai. now apply bursty_terminates.
  - intros p bd m ni Hm. now apply random_bursts_terminates.
  - intros pool bd b lai. unfold generate_bursty_dataset.
    destruct (sample pool n g); cbn [total and_then]; [|eexists; reflexivity].
    destruct (bursty_terminates g now to_timestamp fuel n bd b lai Hfuel)
      as (ts & -> & _).
    cbn [and_then]. eexists; reflexivity.
  - intros pool p bd m ni Hm. unfold generate_random_bursts.
    destruct (sample pool n g); cbn [total and_then]; [|eexists; reflexivity].
    destruct (random_bursts_terminates g now to_timestamp fuel n p bd m ni Hg Hm Hfuel)
      as (ts & -> & _).
    cbn [and_then]. eexists; reflexivity.
Qed.

Lemma generation_loops_terminate_witness :
  (exists ts, bursty_timestamps half t0 utc_exact 25 25 (minutes 1) 10 (minutes 5)
              = Some (Ok ts)
              /\ List.length ts = 25%nat)
  /\ (exists ts, random_bursts_timestamps half t0 utc_exact 25 25 (1 # 5) (minutes 1)
                                          10 (minutes 10) = Some (Ok ts)
                 /\ List.length ts = 25%nat).
Proof.
  destruct (generation_loops_terminate half t0 utc_exact 25 25 half_valid ltac:(lia))
    as (_ & _ & Hb & Hr & _).
  split.
  - destruct (Hb (minutes 1) 10 (minutes 5)) as (ts & H & Hl).
    exists ts. split; [exact H | exact (Hl ltac:(lia))].
  - destruct (Hr (1 # 5)%Q (minutes 1) 10 (minutes 10) ltac:(lia)) as (ts & H & Hl).
    exists ts. split; [exact H | exact (Hl ltac:(lia))].
Defined.

(** ** Random bursts that never burst *)

Lemma below_nonpositive (g : Rng) (k : nat) (p : Q) :
  valid g -> (p <= 0)%Q -> below (unit_sample g k) p = false.
Proof.
  intros Hg Hp. destruct Hg as (Hu & _). destruct (Hu k) as [H0 _]. unfold below.
  assert (H : (p <= unit_sample g k)%Q) by (eapply Qle_trans; eassumption).
  apply (proj2 (Qle_bool_iff _ _)) in H. now rewrite H.
Qed.

Lemma removelast_repeat {A : Type} (x : A) (k : nat) :
  removelast (repeat x (S k)) = repeat x k.
Proof.
  induction k as [|k IH]; [reflexivity|].
  change (repeat x (S (S k))) with (x :: repeat x (S k)).
  change (repeat x (S k)) with (x :: repeat x k) at 2.
  rewrite <- IH. reflexivity.
Qed.

Lemma gaps_length (ts : list Q) : List.length (gaps ts) = (List.length ts - 1)%nat.
Proof.
  induction ts as [|a [|b ts] IH]; [reflexivity | reflexivity |].
  rewrite gaps_cons. cbn [List.length] in *. rewrite IH. lia.
Qed.

(** Without bursts the loop emits the cursor and advances it by
    [normal_interval] until nothing is missing. *)
Lemma random_bursts_loop_regular (g : Rng) (to_timestamp : datetime -> Q) (n : Z)
      (p : Q) (bd : timedelta) (m : Z) (ni : timedelta) :
  valid g -> (p <= 0)%Q ->
  forall (k fuel : nat) (s : cursor),
    Z.of_nat k = Z.max 0 (n - len (timestamps s)) -> (k <= fuel)%nat ->
    random_bursts_loop g to_timestamp fuel n p bd m ni s
    = Some (Ok {| timestamps := timestamps s
                                ++ map to_timestamp (walk (current_time s) (repeat ni k));
                  current_time := advanced (current_time s) (repeat ni k);
                  drawn := (drawn s + k)%nat |}).
Proof.
  intros Hg Hp. unfold random_bursts_loop.
  induction k as [|k IH]; intros fuel s Hk Hfuel.
  - assert (Hc : (len (timestamps s) <? n) = false) by (apply Z.ltb_ge; lia).
    destruct fuel; cbn [while]; rewrite Hc; destruct s; simpl;
      now rewrite app_nil_r, Nat.add_0_r.
  - assert (Hc : (len (timestamps s) <? n) = true) by (apply Z.ltb_lt; lia).
    assert (Hb : random_bursts_body g to_timestamp n p bd m ni s
                 = Ok (emit_then_advance to_timestamp ni (tick s)))
      by (unfold random_bursts_body; cbv zeta; now rewrite below_nonpositive).
    destruct fuel as [|fuel]; [lia|]. cbn [while]. rewrite Hc, Hb.
    rewrite IH by (try rewrite emit_then_advance_count; simpl; lia).
    unfold emit_then_advance, tick.
    cbn [timestamps current_time drawn repeat walk map advanced fold_left].
    rewrite <- app_assoc. do 3 f_equal; lia.
Qed.

(** C6 as stated fails where the clocks are put forward: the cursor advances
    by [normal_interval] each time, but the timestamps read from it are not
    evenly spaced. *)
Lemma random_bursts_gaps_can_differ :
  exists ts, random_bursts_timestamps half t0 (spring_forward 5400001000) 4 4 0
                                      (minutes 1) 10 (minutes 30)
             = Some (Ok ts)
             /\ gaps ts = [(micro 1800001000 - micro 1000)%Q;
                           (micro 3600001000 - micro 1800001000)%Q;
                           (micro 1800001000 - micro 3600001000)%Q]
             /\ ~ Forall (fun d => (d == micro (minutes 30))%Q) (gaps ts).
Proof.
  eexists. split; [reflexivity|]. split; [reflexivity|].
  intro H. cbn in H. inversion H as [|? ? _ H1]; subst.
  inversion H1 as [|? ? _ H2]; subst. inversion H2 as [|? ? H3 _]; subst.
  vm_compute in H3. discriminate.
Qed.

(** C6 (amended). With a burst chance of zero, [generate_random_bursts]
    produces [num_qtasks] timestamps, taken at the start instant and then at
    datetimes exactly [normal_interval] apart.  When the conversion to
    timestamps preserves differences, consecutive timestamps are exactly
    [normal_interval] apart as well; when it is accurate to [eps], they are
    [normal_interval] apart up to [2 * eps]. *)
Theorem random_bursts_without_bursts (pool : DataFrame) (g : Rng) (now : datetime)
        (to_timestamp : datetime -> Q) (fuel : nat) (n : Z) (p : Q) (bd : timedelta)
        (m : Z) (ni : timedelta) :
  valid g -> (p == 0)%Q -> 1 <= n -> (Z.to_nat n <= fuel)%nat ->
  exists ts,
    random_bursts_timestamps g now to_timestamp fuel n p bd m ni = Some (Ok ts)
    /\ ts = map to_timestamp (walk now (repeat ni (Z.to_nat n)))
    /\ List.length ts = Z.to_nat n
    /\ intervals (walk now (repeat ni (Z.to_nat n))) = repeat ni (Z.to_nat n - 1)
    /\ List.length (gaps ts) = (Z.to_nat n - 1)%nat
    /\ (exact to_timestamp -> Forall (fun d => (d == micro ni)%Q) (gaps ts))
    /\ (forall eps, accurate eps to_timestamp ->
                    Forall (fun d => (Qabs (d - micro ni) <= 2 * eps)%Q) (gaps ts))
    /\ (index pool <> [] -> has_column "subset" pool = false ->
        exists out, generate_random_bursts pool g now to_timestamp fuel n p bd m ni
                    = Some (Ok out)
                    /\ get_column "timestamp" (columns (frame out)) = Some (stamps ts)).
Proof.
  intros Hg Hp Hn Hfuel.
  assert (Hp' : (p <= 0)%Q) by (rewrite Hp; apply Qle_refl).
  assert (Hrun : random_bursts_timestamps g now to_timestamp fuel n p bd m ni
                 = Some (Ok (map to_timestamp (walk now (repeat ni (Z.to_nat n)))))).
  { unfold random_bursts_timestamps.
    rewrite (random_bursts_loop_regular g to_timestamp n p bd m ni Hg Hp' (Z.to_nat n))
      by (unfold len; simpl; lia).
    cbn [and_then total start timestamps current_time app].
    rewrite slice_to_all; [reflexivity|].
    unfold len. rewrite List.length_map, walk_length, repeat_length. lia. }
  assert (Hlen : List.length (map to_timestamp (walk now (repeat ni (Z.to_nat n))))
                 = Z.to_nat n)
    by (now rewrite List.length_map, walk_length, repeat_length).
  assert (Hint : intervals (walk now (repeat ni (Z.to_nat n)))
                 = repeat ni (Z.to_nat n - 1)).
  { rewrite intervals_walk. replace (Z.to_nat n) with (S (Z.to_nat n - 1)) at 1 by lia.
    apply removelast_repeat. }
  exists (map to_timestamp (walk now (repeat ni (Z.to_nat n)))).
  split; [exact Hrun|]. split; [reflexivity|]. split; [exact Hlen|].
  split; [exact Hint|]. split; [rewrite gaps_length, Hlen; reflexivity|]. split.
  { intro He. apply (gaps_constant _ ni (Z.to_nat n - 1)%nat).
    pose proof (gaps_exact to_timestamp (walk now (repeat ni (Z.to_nat n))) He) as G.
    rewrite Hint in G. exact G. }
  split.
  { intros eps Ha. apply (gaps_constant_within _ _ ni (Z.to_nat n - 1)%nat).
    pose proof (gaps_accurate eps to_timestamp (walk now (repeat ni (Z.to_nat n))) Ha)
      as G.
    rewrite Hint in G. exact G. }
  intros Hpool Hsub.
  destruct (sample_Ok pool g n) as (df & Hs & Hl & Hc); [lia | now right |].
  assert (Hsub' : has_column "subset" df = false)
    by (unfold has_column; now rewrite Hc).
  unfold generate_random_bursts. rewrite Hs, Hrun. cbn [total and_then].
  match goal with
  | |- context [setitem df "timestamp" (stamps ?l)] =>
      fold (assemble df l "random_burst_dataset.csv")
  end.
  rewrite assemble_Ok by (assumption || now rewrite Hlen).
  eexists; split; [reflexivity|]. cbn [frame columns].
  change (get_column "timestamp" (("subset", ?v) :: ?cols))
    with (get_column "timestamp" cols).
  apply get_set_column.
Qed.

Lemma random_bursts_without_bursts_witness :
  exists ts,
    random_bursts_timestamps half t0 utc_exact 4 4 0 (minutes 1) 10 (minutes 10)
    = Some (Ok ts)
    /\ ts = [micro 1000; micro 600001000; micro 1200001000; micro 1800001000]
    /\ Forall (fun d => (d == micro (minutes 10))%Q) (gaps ts).
Proof.
  destruct (random_bursts_without_bursts pool2 half t0 utc_exact 4 4 0 (minutes 1) 10
              (minutes 10) half_valid ltac:(reflexivity) ltac:(lia) ltac:(lia))
    as (ts & H & Hts & _ & _ & _ & Hgaps & _).
  exists ts. split; [exact H|]. split; [exact Hts | exact (Hgaps utc_exact_exact)].
Defined.

(** ** The first timestamp *)

Lemma rooted_extends (t : Q) (s s' : cursor) :
  extends s s' -> hd_error (timestamps s) = Some t -> hd_error (timestamps s') = Some t.
Proof. intros [l ->] H. now apply hd_error_app. Qed.

Lemma emit_then_advance_extends (to_timestamp : datetime -> Q) (d : timedelta)
      (s : cursor) :
  extends s (emit_then_advance to_timestamp d s).
Proof. now exists [to_timestamp (current_time s)]. Qed.

Lemma advance_then_emit_extends (to_timestamp : datetime -> Q) (d : timedelta)
      (s : cursor) :
  extends s (advance_then_emit to_timestamp d s).
Proof. now exists [to_timestamp (dt_add (current_time s) d)]. Qed.

Lemma single_spike_burst_extends (g : Rng) (to_timestamp : datetime -> Q)
      (bd : timedelta) (s : cursor) :
  extends s (single_spike_burst g to_timestamp bd s).
Proof. unfold single_spike_burst, draw_uniform. eexists; reflexivity. Qed.

Lemma first_stamp_assemble (df : DataFrame) (ts : list Q) (path : string)
      (out : Output) (q : Q) :
  assemble df ts path = Ok out -> hd_error ts = Some q -> first_stamp out q.
Proof.
  intros Ha Hq. apply assemble_result in Ha as (_ & _ & _ & Hcol & _).
  exists (stamps ts). split; [exact Hcol|].
  destruct ts as [|t ts]; [discriminate|]. cbn in *. now inversion Hq.
Qed.

Section First.

Variable g : Rng.
Variable now : datetime.
Variable to_timestamp : datetime -> Q.

Lemma bursty_first (fuel : nat) (n : Z) (bd : timedelta) (b : Z) (lai : timedelta)
      (ts : list Q) :
  1 <= n -> bursty_timestamps g now to_timestamp fuel n bd b lai = Some (Ok ts) ->
  hd_error ts = Some (to_timestamp now).
Proof.
  intros Hn H. unfold bursty_timestamps in H.
  apply and_then_Ok in H as (s2 & Hloop & H). inversion H; subst ts; clear H.
  unfold bursty_low_activity in Hloop.
  apply (while_inv (anchored to_timestamp now)) in Hloop as [Ha Hc].
  - apply Z.ltb_ge in Hc. now apply anchored_head.
  - intros s s' Hs _ Hb. inversion Hb; subst. now apply anchored_emit_then_advance.
  - apply anchored_burst_loop, anchored_start.
Qed.

Lemma random_bursts_first (fuel : nat) (n : Z) (p : Q) (bd : timedelta) (m : Z)
      (ni : timedelta) (ts : list Q) :
  1 <= n -> random_bursts_timestamps g now to_timestamp fuel n p bd m ni = Some (Ok ts) ->
  hd_error ts = Some (to_timestamp now).
Proof.
  intros Hn H. unfold random_bursts_timestamps in H.
  apply and_then_Ok in H as (s2 & Hloop & H). inversion H; subst ts; clear H.
  unfold random_bursts_loop in Hloop.
  apply (while_inv (anchored to_timestamp now)) in Hloop as [Ha Hc].
  - apply Z.ltb_ge in Hc. now apply anchored_head.
  - intros s s' Hs _ Hb. unfold random_bursts_body in Hb. cbv zeta in Hb.
    destruct (below _ p).
    + apply bind_Ok in Hb as (k & _ & Hb). inversion Hb; subst s'.
      apply anchored_burst_loop.
      destruct Hs as [[Hts Hc] | Hhd]; [left | right]; simpl; auto.
    + inversion Hb; subst s'. apply anchored_emit_then_advance.
      destruct Hs as [[Hts Hc] | Hhd]; [left | right]; simpl; auto.
  - apply anchored_start.
Qed.

Lemma regular_spikes_body_extends (n : Z) (si : timedelta) (st : Z)
      (ni : timedelta) (i : Z) (s s' : cursor) :
  regular_spikes_body g to_timestamp n si st ni i s = Ok s' -> extends s s'.
Proof.
  unfold regular_spikes_body. intro H. apply bind_Ok in H as (r & _ & H).
  destruct (_ && _); inversion H; subst s'.
  - apply (burst_loop_extends to_timestamp g _ n si st (advance si s)).
  - apply emit_then_advance_extends.
Qed.

Lemma regular_spikes_first (n : Z) (si : timedelta) (st : Z) (ni : timedelta)
      (ts : list Q) :
  1 <= n -> regular_spikes_timestamps g now to_timestamp n si st ni = Ok ts ->
  hd_error ts = Some (to_timestamp now).
Proof.
  intros Hn H. unfold regular_spikes_timestamps in H.
  apply bind_Ok in H as (s & Hloop & H). inversion H; subst ts; clear H.
  unfold range in Hloop.
  replace (Z.to_nat n) with (S (Z.to_nat n - 1)) in Hloop by lia.
  cbn [seq map for_each] in Hloop.
  apply bind_Ok in Hloop as (s1 & Hfirst & Hrest).
  assert (H1 : timestamps s1 = [to_timestamp now]).
  { unfold regular_spikes_body, py_mod in Hfirst. change (Z.of_nat 0) with 0 in Hfirst.
    destruct (st =? 0) eqn:Hst; [discriminate|]. cbn [bind] in Hfirst.
    apply Z.eqb_neq in Hst. rewrite Z.mod_0_l in Hfirst by exact Hst.
    cbn in Hfirst. inversion Hfirst; reflexivity. }
  assert (Hs : hd_error (timestamps s) = Some (to_timestamp now)).
  { eapply (for_each_inv (fun s => hd_error (timestamps s) = Some (to_timestamp now)));
      [| |exact Hrest]; [|now rewrite H1].
    intros i sa sb Ha Hb. eapply rooted_extends; [|exact Ha].
    eapply regular_spikes_body_extends; exact Hb. }
  unfold slice_to. rewrite (proj2 (Z.leb_le _ _)) by lia.
  now rewrite hd_error_firstn by lia.
Qed.

Lemma iter_rooted (f : cursor -> cursor) (t : Q) (k : nat) (s : cursor) :
  (forall s, extends s (f s)) -> hd_error (timestamps s) = Some t ->
  hd_error (timestamps (Nat.iter k f s)) = Some t.
Proof.
  intros Hf Hs. apply (iter_inv (fun s => hd_error (timestamps s) = Some t)); [|exact Hs].
  intros s0 H0. eapply rooted_extends; [apply Hf | exact H0].
Qed.

Lemma single_spike_first_burst (n : Z) (bd ni : timedelta) (b : Z) :
  1 <= b ->
  hd_error (single_spike_timestamps g now to_timestamp n bd ni b)
  = Some (to_timestamp (dt_add now (uniform_delta g 0 bd 1))).
Proof.
  intro Hb. unfold single_spike_timestamps.
  apply iter_rooted; [apply advance_then_emit_extends|].
  replace (Z.to_nat b) with (S (Z.to_nat b - 1)) by lia.
  rewrite Nat.iter_succ_r.
  apply iter_rooted; [apply single_spike_burst_extends | reflexivity].
Qed.

Lemma single_spike_first_normal (n : Z) (bd ni : timedelta) (b : Z) :
  b <= 0 -> 1 <= n - b ->
  hd_error (single_spike_timestamps g now to_timestamp n bd ni b)
  = Some (to_timestamp (dt_add now ni)).
Proof.
  intros Hb Hn. unfold single_spike_timestamps.
  replace (Z.to_nat b) with O by lia. cbn [Nat.iter nat_rect].
  replace (Z.to_nat (n - b)) with (S (Z.to_nat (n - b) - 1)) by lia.
  rewrite Nat.iter_succ_r.
  apply iter_rooted; [apply advance_then_emit_extends | reflexivity].
Qed.

End First.

(** C9 as stated fails for the single spike: without burst tasks the first
    timestamp is one normal interval after the start, whatever the draw. *)
Lemma single_spike_first_without_burst :
  exists out, generate_single_spike_dataset pool2 half t0 utc_exact 1 (seconds 60)
                                            (seconds 10) 0
              = Ok out
              /\ get_column "timestamp" (columns (frame out))
                 = Some [CStamp (utc_exact (dt_add t0 (seconds 10)))]
              /\ ~ first_stamp out
                     (utc_exact (dt_add t0 (uniform_delta half 0 (seconds 60) 1))).
Proof.
  eexists; split; [reflexivity|]. split; [reflexivity|].
  intros (col & Hcol & Hhd). cbn in Hcol. inversion Hcol; subst col.
  cbn in Hhd. inversion Hhd.
Qed.

(** C9 (amended). With at least one task, the first timestamp of the bursty,
    regular-spike and random-burst strategies is that of the start instant,
    in the sequence built and in the dataset returned.  In a dataset returned
    by the single-spike strategy with at least one burst task, the first
    timestamp is that of the start instant plus the first uniform draw over
    the burst duration; it is strictly later than that of the start instant
    when the draw is positive and the conversion to timestamps is strictly
    increasing.  With no burst task it is that of the start instant plus the
    normal interval. *)
Theorem first_timestamp (pool : DataFrame) (g : Rng) (now : datetime)
        (to_timestamp : datetime -> Q) (n : Z) :
  1 <= n ->
  (forall fuel bd b lai ts,
     bursty_timestamps g now to_timestamp fuel n bd b lai = Some (Ok ts) ->
     hd_error ts = Some (to_timestamp now))
  /\ (forall si st ni ts,
        regular_spikes_timestamps g now to_timestamp n si st ni = Ok ts ->
        hd_error ts = Some (to_timestamp now))
  /\ (forall fuel p bd m ni ts,
        random_bursts_timestamps g now to_timestamp fuel n p bd m ni = Some (Ok ts) ->
        hd_error ts = Some (to_timestamp now))
  /\ (forall fuel bd b lai out,
        generate_bursty_dataset pool g now to_timestamp fuel n bd b lai = Some (Ok out) ->
        first_stamp out (to_timestamp now))
  /\ (forall si st ni out,
        simulate_regular_spikes pool g now to_timestamp n si st ni = Ok out ->
        first_stamp out (to_timestamp now))
  /\ (forall fuel p bd m ni out,
        generate_random_bursts pool g now to_timestamp fuel n p bd m ni = Some (Ok out) ->
        first_stamp out (to_timestamp now))
  /\ (forall bd ni b out, 1 <= b ->
        generate_single_spike_dataset pool g now to_timestamp n bd ni b = Ok out ->
        first_stamp out (to_timestamp (dt_add now (uniform_delta g 0 bd 1)))
        /\ (strictly_monotone to_timestamp -> 0 < uniform_delta g 0 bd 1 ->
            (to_timestamp now
             < to_timestamp (dt_add now (uniform_delta g 0 bd 1)))%Q))
  /\ (forall bd ni out,
        generate_single_spike_dataset pool g now to_timestamp n bd ni 0 = Ok out ->
        first_stamp out (to_timestamp (dt_add now ni))).
Proof.
  intro Hn. repeat apply conj.
  - intros fuel bd b lai ts H.
    exact (bursty_first g now to_timestamp fuel n bd b lai ts Hn H).
  - intros si st ni ts H.
    exact (regular_spikes_first g now to_timestamp n si st ni ts Hn H).
  - intros fuel p bd m ni ts H.
    exact (random_bursts_first g now to_timestamp fuel n p bd m ni ts Hn H).
  - intros fuel bd b lai out H. unfold generate_bursty_dataset in H.
    apply and_then_Ok in H as (df & _ & H). apply and_then_Ok in H as (ts & Hts & H).
    unfold total in H. injection H as H.
    apply (first_stamp_assemble df ts "bursty_dataset.csv" out _ H).
    exact (bursty_first g now to_timestamp fuel n bd b lai ts Hn Hts).
  - intros si st ni out H. unfold simulate_regular_spikes in H.
    apply bind_Ok in H as (df & _ & H). apply bind_Ok in H as (ts & Hts & H).
    apply (first_stamp_assemble df ts "regular_spike_dataset.csv" out _ H).
    exact (regular_spikes_first g now to_timestamp n si st ni ts Hn Hts).
  - intros fuel p bd m ni out H. unfold generate_random_bursts in H.
    apply and_then_Ok in H as (df & _ & H). apply and_then_Ok in H as (ts & Hts & H).
    unfold total in H. injection H as H.
    apply (first_stamp_assemble df ts "random_burst_dataset.csv" out _ H).
    exact (random_bursts_first g now to_timestamp fuel n p bd m ni ts Hn Hts).
  - intros bd ni b out Hb H. split.
    + unfold generate_single_spike_dataset in H.
      apply bind_Ok in H as (df & _ & H).
      apply (first_stamp_assemble df _ "single_spike_dataset.csv" out _ H).
      now apply single_spike_first_burst.
    + intros Hm Hpos. apply Hm. cbn. lia.
  - intros bd ni out H. unfold generate_single_spike_dataset in H.
    apply bind_Ok in H as (df & _ & H).
    apply (first_stamp_assemble df _ "single_spike_dataset.csv" out _ H).
    apply single_spike_first_normal; lia.
Qed.

Lemma first_timestamp_witness :
  (exists out, generate_bursty_dataset pool2 half t0 utc_exact 5 4 (seconds 60) 2
                                       (seconds 10)
               = Some (Ok out)
               /\ first_stamp out (utc_exact t0))
  /\ (exists out, generate_single_spike_dataset pool2 half t0 utc_exact 4 (seconds 60)
                                                (seconds 10) 2
                  = Ok out
                  /\ first_stamp out
                       (utc_exact (dt_add t0 (uniform_delta half 0 (seconds 60) 1)))
                  /\ (utc_exact t0
                      < utc_exact (dt_add t0 (uniform_delta half 0 (seconds 60) 1)))%Q).
Proof.
  destruct (first_timestamp pool2 half t0 utc_exact 4 ltac:(lia))
    as (_ & _ & _ & Hb & _ & _ & Hs & _).
  split.
  - eexists. split; [reflexivity|].
    exact (Hb 5%nat (seconds 60) 2 (seconds 10) _ eq_refl).
  - eexists. split; [reflexivity|].
    destruct (Hs (seconds 60) (seconds 10) 2 _ ltac:(lia) eq_refl) as [H1 H2].
    split; [exact H1|].
    exact (H2 utc_exact_strictly_monotone ltac:(vm_compute; reflexivity)).
Defined.

(** ** The dispatcher *)

Section Dispatch.

Variable pool : DataFrame.
Variable g : Rng.
Variable now : datetime.
Variable to_timestamp : datetime -> Q.

Lemma single_spike_csv (n : Z) (bd ni : timedelta) (b : Z) (out : Output) :
  generate_single_spike_dataset pool g now to_timestamp n bd ni b = Ok out ->
  csv out = "single_spike_dataset.csv".
Proof.
  unfold generate_single_spike_dataset. intro H.
  apply bind_Ok in H as (df & _ & H). now apply assemble_csv in H.
Qed.

Lemma bursty_csv (fuel : nat) (n : Z) (bd : timedelta) (b : Z) (lai : timedelta)
      (out : Output) :
  generate_bursty_dataset pool g now to_timestamp fuel n bd b lai = Some (Ok out) ->
  csv out = "bursty_dataset.csv".
Proof.
  unfold generate_bursty_dataset. intro H.
  apply and_then_Ok in H as (df & _ & H). apply and_then_Ok in H as (ts & _ & H).
  unfold total in H. injection H as H. now apply assemble_csv in H.
Qed.

Lemma regular_spikes_csv (n : Z) (si : timedelta) (st : Z) (ni : timedelta)
      (out : Output) :
  simulate_regular_spikes pool g now to_timestamp n si st ni = Ok out ->
  csv out = "regular_spike_dataset.csv".
Proof.
  unfold simulate_regular_spikes. intro H.
  apply bind_Ok in H as (df & _ & H). apply bind_Ok in H as (ts & _ & H).
  now apply assemble_csv in H.
Qed.

Lemma ramp_up_csv (n : Z) (ii fi : timedelta) (out : Output) :
  simulate_ramp_up pool g now to_timestamp n ii fi = Ok out ->
  csv out = "ramp_up_dataset.csv".
Proof.
  unfold simulate_ramp_up. intro H.
  apply bind_Ok in H as (df & _ & H). apply bind_Ok in H as (ts & _ & H).
  now apply assemble_csv in H.
Qed.

Lemma ramp_down_csv (n : Z) (ii fi : timedelta) (out : Output) :
  simulate_ramp_down pool g now to_timestamp n ii fi = Ok out ->
  csv out = "ramp_down_dataset.csv".
Proof.
  unfold simulate_ramp_down. intro H.
  apply bind_Ok in H as (df & _ & H). apply bind_Ok in H as (ts & _ & H).
  apply bind_Ok in H as (d1 & _ & H). inversion H; reflexivity.
Qed.

Lemma random_bursts_csv (fuel : nat) (n : Z) (p : Q) (bd : timedelta) (m : Z)
      (ni : timedelta) (out : Output) :
  generate_random_bursts pool g now to_timestamp fuel n p bd m ni = Some (Ok out) ->
  csv out = "random_burst_dataset.csv".
Proof.
  unfold generate_random_bursts. intro H.
  apply and_then_Ok in H as (df & _ & H). apply and_then_Ok in H as (ts & _ & H).
  unfold total in H. injection H as H. now apply assemble_csv in H.
Qed.

Lemma map_invocation_times_csv (it : DataFrame) (out : Output) :
  map_invocation_times pool g it = Ok out ->
  csv out = "map_invocation_times_dataset.csv".
Proof.
  unfold map_invocation_times. intro H.
  apply bind_Ok in H as (df & _ & H).
  destruct (get_column "timestamp" (columns it)); [|discriminate].
  apply bind_Ok in H as (d1 & _ & H). apply bind_Ok in H as (d2 & _ & H).
  inversion H; reflexivity.
Qed.

Lemma generate_workload_csv (fuel : nat) (scenario : Z) (kw : kwargs) (out : Output) :
  generate_workload pool g now to_timestamp fuel scenario kw = Some (Ok out) ->
  In (scenario, csv out)
     [(1, "bursty_dataset.csv"); (2, "regular_spike_dataset.csv");
      (3, "ramp_up_dataset.csv"); (4, "ramp_down_dataset.csv");
      (5, "random_burst_dataset.csv"); (6, "map_invocation_times_dataset.csv")].
Proof.
  unfold generate_workload, total. intro H.
  destruct (Z.eqb_spec scenario 1) as [-> | _].
  { destruct kw; try discriminate. apply bursty_csv in H. rewrite H. simpl; auto. }
  destruct (Z.eqb_spec scenario 2) as [-> | _].
  { destruct kw; try discriminate. injection H as H.
    apply regular_spikes_csv in H. rewrite H. simpl; auto. }
  destruct (Z.eqb_spec scenario 3) as [-> | _].
  { destruct kw; try discriminate. injection H as H.
    apply ramp_up_csv in H. rewrite H. simpl; auto. }
  destruct (Z.eqb_spec scenario 4) as [-> | _].
  { destruct kw; try discriminate. injection H as H.
    apply ramp_down_csv in H. rewrite H. simpl; auto 6. }
  destruct (Z.eqb_spec scenario 5) as [-> | _].
  { destruct kw; try discriminate. apply random_bursts_csv in H. rewrite H.
    simpl; auto 7. }
  destruct (Z.eqb_spec scenario 6) as [-> | _].
  { destruct kw; try discriminate. injection H as H.
    apply map_invocation_times_csv in H. rewrite H. simpl; auto 8. }
  discriminate.
Qed.

End Dispatch.

(** C10. [generate_workload] sends scenario 1 to the bursty strategy, 2 to
    regular spikes, 3 to ramp-up, 4 to ramp-down, 5 to random bursts and 6 to
    the mapping of invocation times; any other scenario is a [ValueError].
    No scenario runs the single-spike strategy: whatever the scenario and the
    keyword arguments, a dataset returned by the dispatcher was never written
    to the single-spike file, which is what a direct call writes. *)
Theorem dispatcher_table (pool : DataFrame) (g : Rng) (now : datetime)
        (to_timestamp : datetime -> Q) (fuel : nat) :
  (forall n bd b lai,
     generate_workload pool g now to_timestamp fuel 1 (KwBursty n bd b lai)
     = generate_bursty_dataset pool g now to_timestamp fuel n bd b lai)
  /\ (forall n si st ni,
        generate_workload pool g now to_timestamp fuel 2 (KwRegularSpikes n si st ni)
        = Some (simulate_regular_spikes pool g now to_timestamp n si st ni))
  /\ (forall n ii fi,
        generate_workload pool g now to_timestamp fuel 3 (KwRamp n ii fi)
        = Some (simulate_ramp_up pool g now to_timestamp n ii fi))
  /\ (forall n ii fi,
        generate_workload pool g now to_timestamp fuel 4 (KwRamp n ii fi)
        = Some (simulate_ramp_down pool g now to_timestamp n ii fi))
  /\ (forall n p bd m ni,
        generate_workload pool g now to_timestamp fuel 5 (KwRandomBursts n p bd m ni)
        = generate_random_bursts pool g now to_timestamp fuel n p bd m ni)
  /\ (forall it,
        generate_workload pool g now to_timestamp fuel 6 (KwInvocation it)
        = Some (map_invocation_times pool g it))
  /\ (forall scenario kw,
        scenario < 1 \/ 6 < scenario ->
        generate_workload pool g now to_timestamp fuel scenario kw
        = Some (Raise ValueError))
  /\ (forall scenario n bd ni b,
        1 <= scenario <= 6 ->
        generate_workload pool g now to_timestamp fuel scenario (KwSingleSpike n bd ni b)
        = Some (Raise TypeError))
  /\ (forall scenario kw out,
        generate_workload pool g now to_timestamp fuel scenario kw = Some (Ok out) ->
        csv out <> "single_spike_dataset.csv")
  /\ (forall n bd ni b out,
        generate_single_spike_dataset pool g now to_timestamp n bd ni b = Ok out ->
        csv out = "single_spike_dataset.csv").
Proof.
  repeat apply conj; try (intros; reflexivity).
  - intros scenario kw Hout. unfold generate_workload.
    repeat (rewrite (proj2 (Z.eqb_neq scenario _)) by lia). reflexivity.
  - intros scenario n bd ni b Hin. unfold generate_workload.
    assert (Hs : scenario = 1 \/ scenario = 2 \/ scenario = 3 \/ scenario = 4
                 \/ scenario = 5 \/ scenario = 6) by lia.
    destruct Hs as [-> | [-> | [-> | [-> | [-> | ->]]]]]; reflexivity.
  - intros scenario kw out H Hcsv.
    apply generate_workload_csv in H. rewrite Hcsv in H. simpl in H.
    repeat (destruct H as [H | H]; [inversion H|]). exact H.
  - intros n bd ni b out H.
    exact (single_spike_csv pool g now to_timestamp n bd ni b out H).
Qed.

Lemma dispatcher_table_witness :
  generate_workload pool2 half t0 utc_exact 5 7 (KwRamp 3 (minutes 10) (seconds 30))
  = Some (Raise ValueError)
  /\ generate_workload pool2 half t0 utc_exact 5 1
       (KwSingleSpike 3 (seconds 60) (seconds 10) 2) = Some (Raise TypeError)
  /\ exists out,
       generate_workload pool2 half t0 utc_exact 5 1
         (KwBursty 4 (seconds 60) 2 (seconds 10))
       = Some (Ok out)
       /\ csv out <> "single_spike_dataset.csv".
Proof.
  destruct (dispatcher_table pool2 half t0 utc_exact 5)
    as (_ & _ & _ & _ & _ & _ & Hother & Hkw & Hnever & _).
  split; [exact (Hother 7 _ ltac:(lia))|].
  split; [exact (Hkw 1 3 (seconds 60) (seconds 10) 2 ltac:(lia))|].
  eexists. split; [reflexivity|].
  exact (Hnever 1 (KwBursty 4 (seconds 60) 2 (seconds 10)) _ eq_refl).
Defined.

(** ** The regular-spike strategy fills its quota *)

Lemma extends_count (s s' : cursor) :
  extends s s' -> len (timestamps s) <= len (timestamps s').
Proof. intros [l ->]. rewrite len_app. pose proof (len_nonneg l). lia. Qed.

Lemma burst_loop_progress (to_timestamp : datetime -> Q) (g : Rng) (k : nat) (n : Z)
      (span : timedelta) (parts : Z) (s : cursor) :
  k <> O ->
  Z.min (len (timestamps s) + 1) n
  <= len (timestamps (burst_loop to_timestamp g k n span parts s)).
Proof.
  intro Hk. destruct k as [|k]; [congruence|]. cbn [burst_loop]. unfold full.
  destruct (len (timestamps s) >=? n) eqn:Hfull.
  - rewrite Z.geb_leb in Hfull. apply Z.leb_le in Hfull. lia.
  - unfold draw_uniform.
    match goal with
    | |- _ <= len (timestamps (burst_loop _ _ _ _ _ _ ?s1)) =>
        pose proof (extends_count _ _
                      (burst_loop_extends to_timestamp g k n span parts s1)) as He;
        assert (Hs1 : len (timestamps s1) = len (timestamps s) + 1)
          by (rewrite emit_then_advance_count; reflexivity)
    end.
    rewrite Z.geb_leb in Hfull. apply Z.leb_gt in Hfull. lia.
Qed.

Lemma regular_spikes_body_progress (g : Rng) (to_timestamp : datetime -> Q) (n : Z)
      (si : timedelta) (st : Z) (ni : timedelta) (i : Z) (s : cursor) :
  1 <= st ->
  exists s', regular_spikes_body g to_timestamp n si st ni i s = Ok s'
             /\ Z.min (len (timestamps s) + 1) n <= len (timestamps s').
Proof.
  intro Hst. unfold regular_spikes_body, py_mod.
  rewrite (proj2 (Z.eqb_neq _ _)) by lia. cbn [bind].
  destruct (_ && _); eexists; (split; [reflexivity|]).
  - apply (burst_loop_progress to_timestamp g _ n si st (advance si s)). lia.
  - rewrite emit_then_advance_count. lia.
Qed.

Lemma regular_spikes_loop_count (g : Rng) (to_timestamp : datetime -> Q) (n : Z)
      (si : timedelta) (st : Z) (ni : timedelta) (it : list Z) (s : cursor) :
  1 <= st ->
  exists s', for_each (regular_spikes_body g to_timestamp n si st ni) it s = Ok s'
             /\ Z.min (len (timestamps s) + len it) n <= len (timestamps s').
Proof.
  intro Hst. revert s; induction it as [|i rest IH]; intro s.
  - exists s. split; [reflexivity|]. unfold len at 2; simpl. lia.
  - destruct (regular_spikes_body_progress g to_timestamp n si st ni i s Hst)
      as (s1 & Hb & H1).
    destruct (IH s1) as (s' & Hrun & H').
    exists s'. cbn [for_each]. rewrite Hb. cbn [bind]. split; [exact Hrun|].
    change (i :: rest) with ([i] ++ rest). rewrite len_app.
    change (len [i]) with 1. pose proof (len_nonneg rest). lia.
Qed.

(** With a positive spike size the regular-spike strategy returns exactly
    [num_qtasks] timestamps. *)
Lemma regular_spikes_count (g : Rng) (now : datetime) (to_timestamp : datetime -> Q)
      (n : Z) (si : timedelta) (st : Z) (ni : timedelta) :
  0 <= n -> 1 <= st ->
  exists ts, regular_spikes_timestamps g now to_timestamp n si st ni = Ok ts
             /\ List.length ts = Z.to_nat n.
Proof.
  intros Hn Hst. unfold regular_spikes_timestamps.
  destruct (regular_spikes_loop_count g to_timestamp n si st ni (range n) (start now)
              Hst)
    as (s & Hrun & Hlen).
  rewrite Hrun. cbn [bind]. eexists; split; [reflexivity|].
  apply slice_to_length. split; [exact Hn|].
  unfold len in Hlen at 1 2. rewrite range_length in Hlen. simpl in Hlen. lia.
Qed.

(** * Further properties of the generators *)

(** ** map_invocation_times *)

(** X1. [map_invocation_times] called with a frame that has no [timestamp]
    column raises [ValueError], whatever the pool. *)
Theorem map_invocation_times_missing_column (pool : DataFrame) (g : Rng)
        (invocation_times : DataFrame) :
  has_column "timestamp" invocation_times = false ->
  map_invocation_times pool g invocation_times = Raise ValueError.
Proof.
  intro Hno. unfold map_invocation_times.
  destruct (sample pool _ g) as [df|e] eqn:Hs; cbn [bind].
  - now rewrite get_column_none.
  - now rewrite (sample_raises _ _ _ _ Hs).
Qed.

Lemma map_invocation_times_missing_column_witness :
  map_invocation_times pool2 half pool2 = Raise ValueError.
Proof.
  exact (map_invocation_times_missing_column pool2 half pool2 eq_refl).
Defined.

(** X2. Given invocation times indexed 0, 1, ..., n-1, [map_invocation_times]
    returns one record per invocation, labelled with a leading subset column,
    whose timestamp column is the supplied one, verbatim and in order. *)
Theorem map_invocation_times_verbatim (pool : DataFrame) (g : Rng)
        (invocation_times : DataFrame) (series : list cell) :
  index invocation_times = range (len (index invocation_times)) ->
  get_column "timestamp" (columns invocation_times) = Some series ->
  index invocation_times = [] \/ index pool <> [] ->
  has_column "subset" pool = false ->
  exists out,
    map_invocation_times pool g invocation_times = Ok out
    /\ csv out = "map_invocation_times_dataset.csv"
    /\ index (frame out) = index invocation_times
    /\ get_column "timestamp" (columns (frame out)) = Some series
    /\ column_names (frame out) = "subset" :: with_timestamp (column_names pool).
Proof.
  intros Hidx Hcol Hpool Hsub. unfold map_invocation_times.
  destruct (sample_Ok pool g (len (index invocation_times))) as (df & Hs & Hl & Hc).
  { apply len_nonneg. }
  { destruct Hpool as [-> | Hp]; [now left | now right]. }
  rewrite Hs, Hcol. cbn [bind].
  assert (Hreset : index (reset_index df) = index invocation_times).
  { unfold reset_index; cbn [index]. rewrite Hidx. f_equal.
    unfold len. rewrite Hl. unfold len. now rewrite Nat2Z.id. }
  unfold setitem_series. rewrite Hreset.
  destruct (list_eq_dec Z.eq_dec _ _) as [_|Hne]; [|congruence].
  cbn [bind]. unfold insert, has_column, column_names. cbn [columns index reset_index].
  rewrite set_column_names_other by reflexivity.
  unfold has_column in Hsub. unfold column_names in Hc. rewrite Hc.
  unfold column_names in Hsub. rewrite Hsub. cbn [Nat.ltb Nat.leb bind].
  eexists. split; [reflexivity|]. cbn [to_csv csv frame index columns firstn skipn app].
  repeat split.
  - change (get_column "timestamp" (("subset", ?v) :: ?cols))
      with (get_column "timestamp" cols).
    apply get_set_column.
  - cbn [map fst]. rewrite set_column_names, Hc. reflexivity.
Qed.

Lemma map_invocation_times_verbatim_witness :
  exists out,
    map_invocation_times pool2 half invocations3 = Ok out
    /\ get_column "timestamp" (columns (frame out))
       = Some [CStamp 5; CStamp 10; CStamp 15].
Proof.
  assert (Hidx : index invocations3 = range (len (index invocations3)))
    by (vm_compute; reflexivity).
  assert (Hcol : get_column "timestamp" (columns invocations3)
                 = Some [CStamp 5; CStamp 10; CStamp 15]) by reflexivity.
  assert (Hpool : index invocations3 = [] \/ index pool2 <> [])
    by (right; discriminate).
  assert (Hsub : has_column "subset" pool2 = false) by reflexivity.
  destruct (map_invocation_times_verbatim pool2 half invocations3 _
              Hidx Hcol Hpool Hsub)
    as (out & H & _ & _ & Hts & _).
  exists out. split; assumption.
Defined.

Lemma lookup_label_absent (l : Z) (labels : list Z) (vals : list cell) :
  ~ In l labels -> lookup_label l labels vals = CNaN.
Proof.
  revert vals; induction labels as [|l' labels IH]; intros vals Hno; [reflexivity|].
  destruct vals as [|v vals]; [reflexivity|]. cbn [lookup_label].
  destruct (Z.eqb_spec l l') as [-> | _].
  - exfalso. apply Hno. now left.
  - apply IH. intro Hin. apply Hno. now right.
Qed.

(** X3. The sampled records are renumbered 0, 1, ..., n-1 but the supplied
    invocation times keep their own row labels, and the assignment aligns on
    labels: when none of the (distinct) labels of the invocation times lies in
    0..n-1, every timestamp of the returned dataset is missing (NaN). *)
Theorem map_invocation_times_misaligned (pool : DataFrame) (g : Rng)
        (invocation_times : DataFrame) (series : list cell) :
  index invocation_times <> [] ->
  Forall (fun l => l < 0 \/ len (index invocation_times) <= l)
         (index invocation_times) ->
  has_dup (index invocation_times) = false ->
  get_column "timestamp" (columns invocation_times) = Some series ->
  index pool <> [] ->
  has_column "subset" pool = false ->
  exists out,
    map_invocation_times pool g invocation_times = Ok out
    /\ get_column "timestamp" (columns (frame out))
       = Some (repeat CNaN (List.length (index invocation_times))).
Proof.
  intros Hne Hout Hdup Hcol Hpool Hsub. unfold map_invocation_times.
  set (n := len (index invocation_times)) in *.
  destruct (sample_Ok pool g n) as (df & Hs & Hl & Hc);
    [apply len_nonneg | now right |].
  rewrite Hs, Hcol. cbn [bind].
  assert (Hreset : index (reset_index df) = range n).
  { unfold reset_index; cbn [index]. f_equal. unfold len. rewrite Hl.
    pose proof (len_nonneg (index invocation_times)). fold n in H. lia. }
  unfold setitem_series. rewrite Hreset.
  destruct (list_eq_dec Z.eq_dec _ _) as [Heq|_].
  { exfalso. destruct (index invocation_times) as [|l0 rest] eqn:Hi; [congruence|].
    inversion Hout as [|? ? Hl0 _]; subst.
    assert (Hin : In l0 (range n)) by (rewrite <- Heq; now left).
    apply range_In in Hin. lia. }
  rewrite Hdup. cbn [bind].
  unfold insert, has_column, column_names. cbn [columns index reset_index].
  rewrite set_column_names_other by reflexivity.
  unfold has_column, column_names in Hsub. unfold column_names in Hc.
  rewrite Hc, Hsub. cbn [Nat.ltb Nat.leb bind].
  eexists. split; [reflexivity|]. cbn [to_csv frame columns firstn skipn app].
  change (get_column "timestamp" (("subset", ?v) :: ?cols))
    with (get_column "timestamp" cols).
  rewrite get_set_column. f_equal.
  replace (List.length (index invocation_times)) with (List.length (range n))
    by (rewrite range_length; subst n; unfold len; lia).
  assert (Hall : forall l, In l (range n) ->
                   lookup_label l (index invocation_times) series = CNaN).
  { intros l Hin. apply lookup_label_absent. intro Hin'.
    apply range_In in Hin. rewrite Forall_forall in Hout.
    specialize (Hout l Hin'). lia. }
  revert Hall. generalize (range n) as ls.
  induction ls as [|l r IH]; intro Hall; [reflexivity|].
  cbn [map List.length repeat]. rewrite Hall by now left.
  f_equal. apply IH. intros l' Hl'. apply Hall. now right.
Qed.

Lemma map_invocation_times_misaligned_witness :
  exists out,
    map_invocation_times pool2 half invocations_filtered = Ok out
    /\ get_column "timestamp" (columns (frame out)) = Some [CNaN; CNaN].
Proof.
  assert (Hne : index invocations_filtered <> []) by discriminate.
  assert (Hout : Forall (fun l => l < 0 \/ len (index invocations_filtered) <= l)
                        (index invocations_filtered))
    by (repeat (apply Forall_cons; [right; unfold len; simpl; lia|]);
        apply Forall_nil).
  assert (Hcol : get_column "timestamp" (columns invocations_filtered)
                 = Some [CStamp 5; CStamp 10]) by reflexivity.
  assert (Hpool : index pool2 <> []) by discriminate.
  destruct (map_invocation_times_misaligned pool2 half invocations_filtered _
              Hne Hout eq_refl Hcol Hpool eq_refl)
    as (out & H & Hts).
  exists out. split; assumption.
Defined.

(** X4. A pool that already has a column named [subset] makes every labelling
    generator fail: none of them ever returns a dataset, because the
    insertion of the subset column is refused. *)
Theorem subset_column_clash (pool : DataFrame) (g : Rng) (now : datetime)
        (to_timestamp : datetime -> Q) (out : Output) :
  has_column "subset" pool = true ->
  (forall n bd ni b,
     generate_single_spike_dataset pool g now to_timestamp n bd ni b <> Ok out)
  /\ (forall fuel n bd b lai,
        generate_bursty_dataset pool g now to_timestamp fuel n bd b lai <> Some (Ok out))
  /\ (forall n si st ni,
        simulate_regular_spikes pool g now to_timestamp n si st ni <> Ok out)
  /\ (forall n ii fi, simulate_ramp_up pool g now to_timestamp n ii fi <> Ok out)
  /\ (forall fuel n p bd m ni,
        generate_random_bursts pool g now to_timestamp fuel n p bd m ni <> Some (Ok out))
  /\ (forall it, map_invocation_times pool g it <> Ok out).
Proof.
  intro Hsub.
  assert (Hdf : forall n df, sample pool n g = Ok df -> has_column "subset" df = true)
    by (intros n df Hs; now rewrite (sampled_has_column _ _ _ _ _ Hs)).
  repeat apply conj.
  - intros n bd ni b H. unfold generate_single_spike_dataset in H.
    apply bind_Ok in H as (df & Hs & H). now apply assemble_clash in H; eauto.
  - intros fuel n bd b lai H. unfold generate_bursty_dataset in H.
    apply and_then_Ok in H as (df & Hs & H). apply and_then_Ok in H as (ts & _ & H).
    unfold total in *. injection Hs as Hs. injection H as H.
    now apply assemble_clash in H; eauto.
  - intros n si st ni H. unfold simulate_regular_spikes in H.
    apply bind_Ok in H as (df & Hs & H). apply bind_Ok in H as (ts & _ & H).
    now apply assemble_clash in H; eauto.
  - intros n ii fi H. unfold simulate_ramp_up in H.
    apply bind_Ok in H as (df & Hs & H). apply bind_Ok in H as (ts & _ & H).
    now apply assemble_clash in H; eauto.
  - intros fuel n p bd m ni H. unfold generate_random_bursts in H.
    apply and_then_Ok in H as (df & Hs & H). apply and_then_Ok in H as (ts & _ & H).
    unfold total in *. injection Hs as Hs. injection H as H.
    now apply assemble_clash in H; eauto.
  - intros it H. unfold map_invocation_times in H.
    apply bind_Ok in H as (df & Hs & H).
    destruct (get_column "timestamp" (columns it)); [|discriminate].
    apply bind_Ok in H as (d1 & Hset & H). apply bind_Ok in H as (d2 & Hins & _).
    rewrite insert_clash in Hins; [discriminate|].
    specialize (Hdf _ _ Hs).
    unfold setitem_series in Hset.
    destruct (list_eq_dec _ _ _); [|destruct (has_dup _); [discriminate|]];
      inversion Hset; subst d1; unfold has_column, column_names in *;
      cbn [columns reset_index]; now rewrite set_column_names_other.
Qed.

Lemma subset_column_clash_witness :
  simulate_ramp_up pool_with_subset half t0 utc_exact 3 (minutes 10) (seconds 30)
  = Raise ValueError
  /\ forall out,
       simulate_ramp_up pool_with_subset half t0 utc_exact 3 (minutes 10) (seconds 30)
       <> Ok out.
Proof.
  split; [reflexivity|]. intro out.
  destruct (subset_column_clash pool_with_subset half t0 utc_exact out eq_refl)
    as (_ & _ & _ & H & _).
  exact (H 3 (minutes 10) (seconds 30)).
Defined.

(** ** What a returned dataset looks like *)

Lemma slice_to_bound {A : Type} (l : list A) (n : Z) :
  0 <= n -> (List.length (slice_to l n) <= Z.to_nat n)%nat.
Proof.
  intro Hn. unfold slice_to. rewrite (proj2 (Z.leb_le _ _)) by lia.
  rewrite List.length_firstn. lia.
Qed.

Section Sliced.

Variable g : Rng.
Variable now : datetime.
Variable to_timestamp : datetime -> Q.

(** Every strategy but the single spike cuts its sequence at [num_qtasks]. *)
Lemma bursty_sliced (fuel : nat) (n : Z) (bd : timedelta) (b : Z) (lai : timedelta)
      (ts : list Q) :
  0 <= n -> bursty_timestamps g now to_timestamp fuel n bd b lai = Some (Ok ts) ->
  (List.length ts <= Z.to_nat n)%nat.
Proof.
  intros Hn H. unfold bursty_timestamps in H.
  apply and_then_Ok in H as (s & _ & H). inversion H; subst ts.
  now apply slice_to_bound.
Qed.

Lemma regular_spikes_sliced (n : Z) (si : timedelta) (st : Z) (ni : timedelta)
      (ts : list Q) :
  0 <= n -> regular_spikes_timestamps g now to_timestamp n si st ni = Ok ts ->
  (List.length ts <= Z.to_nat n)%nat.
Proof.
  intros Hn H. unfold regular_spikes_timestamps in H.
  apply bind_Ok in H as (s & _ & H). inversion H; subst ts.
  now apply slice_to_bound.
Qed.

Lemma ramp_up_sliced (n : Z) (ii fi : timedelta) (ts : list Q) :
  0 <= n -> ramp_up_timestamps now to_timestamp n ii fi = Ok ts ->
  (List.length ts <= Z.to_nat n)%nat.
Proof.
  intros Hn H. unfold ramp_up_timestamps in H.
  apply bind_Ok in H as (step & _ & H). apply bind_Ok in H as (s & _ & H).
  inversion H; subst ts. now apply slice_to_bound.
Qed.

Lemma ramp_down_sliced (n : Z) (ii fi : timedelta) (ts : list Q) :
  0 <= n -> ramp_down_timestamps now to_timestamp n ii fi = Ok ts ->
  (List.length ts <= Z.to_nat n)%nat.
Proof.
  intros Hn H. unfold ramp_down_timestamps in H.
  apply bind_Ok in H as (step & _ & H). apply bind_Ok in H as (s & _ & H).
  inversion H; subst ts. now apply slice_to_bound.
Qed.

Lemma random_bursts_sliced (fuel : nat) (n : Z) (p : Q) (bd : timedelta) (m : Z)
      (ni : timedelta) (ts : list Q) :
  0 <= n -> random_bursts_timestamps g now to_timestamp fuel n p bd m ni = Some (Ok ts) ->
  (List.length ts <= Z.to_nat n)%nat.
Proof.
  intros Hn H. unfold random_bursts_timestamps in H.
  apply and_then_Ok in H as (s & _ & H). inversion H; subst ts.
  now apply slice_to_bound.
Qed.

End Sliced.

(** A column that is not longer than the sample and was accepted has the
    length of the sample. *)
Lemma setitem_rows (pool df d1 : DataFrame) (g : Rng) (n : Z) (name : string)
      (vals : list cell) :
  sample pool n g = Ok df -> setitem df name vals = Ok d1 ->
  (List.length vals <= Z.to_nat n)%nat ->
  List.length vals = Z.to_nat n /\ index d1 = index df.
Proof.
  intros Hs Hset Hle. apply sample_result in Hs as (Hn & Hl & _).
  unfold setitem in Hset.
  destruct (Nat.eqb_spec (List.length vals) (List.length (index df))) as [He|Hne].
  - inversion Hset; subst d1. split; [lia | reflexivity].
  - destruct (Nat.eqb_spec (List.length (index df)) 0) as [Hz|]; [|discriminate].
    exfalso. lia.
Qed.

Lemma assemble_rows (pool df : DataFrame) (g : Rng) (n : Z) (ts : list Q)
      (path : string) (out : Output) :
  sample pool n g = Ok df -> assemble df ts path = Ok out ->
  (List.length ts <= Z.to_nat n)%nat ->
  List.length ts = Z.to_nat n.
Proof.
  intros Hs Ha Hle. unfold assemble in Ha. apply bind_Ok in Ha as (d1 & Hset & _).
  destruct (setitem_rows pool df d1 g n "timestamp" (stamps ts) Hs Hset) as [H _].
  - unfold stamps. now rewrite List.length_map.
  - unfold stamps in H. now rewrite List.length_map in H.
Qed.

Lemma assemble_schema_of (pool df : DataFrame) (g : Rng) (n : Z) (ts : list Q)
      (path : string) (out : Output) :
  sample pool n g = Ok df -> assemble df ts path = Ok out ->
  schema pool (List.length ts) true path out.
Proof.
  intros Hs Ha. apply sample_result in Hs as (_ & _ & Hc).
  apply assemble_result in Ha as (Hcsv & Hrows & Hnames & _).
  unfold schema. repeat split; try assumption.
  rewrite Hnames, Hc. reflexivity.
Qed.

Lemma assemble_schema_sliced (pool df : DataFrame) (g : Rng) (n : Z) (ts : list Q)
      (path : string) (out : Output) :
  sample pool n g = Ok df -> assemble df ts path = Ok out ->
  (List.length ts <= Z.to_nat n)%nat ->
  schema pool (Z.to_nat n) true path out.
Proof.
  intros Hs Ha Hle. rewrite <- (assemble_rows pool df g n ts path out Hs Ha Hle).
  exact (assemble_schema_of pool df g n ts path out Hs Ha).
Qed.

Lemma ramp_down_schema (pool : DataFrame) (g : Rng) (now : datetime)
      (to_timestamp : datetime -> Q) (n : Z) (ii fi : timedelta) (out : Output) :
  simulate_ramp_down pool g now to_timestamp n ii fi = Ok out ->
  schema pool (Z.to_nat n) false "ramp_down_dataset.csv" out.
Proof.
  unfold simulate_ramp_down. intro H.
  apply bind_Ok in H as (df & Hs & H). apply bind_Ok in H as (ts & Hts & H).
  apply bind_Ok in H as (d1 & Hset & H). inversion H; subst out; clear H.
  pose proof (sample_result _ _ _ _ Hs) as (Hn & Hl & Hc).
  assert (Hle : (List.length (stamps ts) <= Z.to_nat n)%nat).
  { unfold stamps. rewrite List.length_map.
    exact (ramp_down_sliced now to_timestamp n ii fi ts Hn Hts). }
  destruct (setitem_rows pool df d1 g n _ _ Hs Hset Hle) as [_ Hidx].
  apply setitem_result in Hset as (_ & Hnames & _).
  unfold schema. cbn [to_csv csv frame app]. repeat split.
  - now rewrite Hidx.
  - rewrite Hnames. unfold with_timestamp, has_column. now rewrite Hc.
Qed.

(** X5. Whatever a generator returns was written to the generator's own
    file and has the columns: [subset] first (except for
    [simulate_ramp_down]), then the pool's columns, then [timestamp] last
    unless the pool already had a column of that name, which is then
    overwritten in place.  It has exactly [num_qtasks] rows (so the count was
    not negative), with one exception: the single-spike generator asked for
    zero tasks returns [|burst_tasks|] rows. *)
Theorem output_schema (pool : DataFrame) (g : Rng) (now : datetime)
        (to_timestamp : datetime -> Q) (out : Output) :
  (forall n bd ni b,
     generate_single_spike_dataset pool g now to_timestamp n bd ni b = Ok out ->
     0 <= n
     /\ schema pool (if n =? 0 then Z.abs_nat b else Z.to_nat n) true
               "single_spike_dataset.csv" out)
  /\ (forall fuel n bd b lai,
        generate_bursty_dataset pool g now to_timestamp fuel n bd b lai = Some (Ok out) ->
        0 <= n /\ schema pool (Z.to_nat n) true "bursty_dataset.csv" out)
  /\ (forall n si st ni,
        simulate_regular_spikes pool g now to_timestamp n si st ni = Ok out ->
        0 <= n /\ schema pool (Z.to_nat n) true "regular_spike_dataset.csv" out)
  /\ (forall n ii fi,
        simulate_ramp_up pool g now to_timestamp n ii fi = Ok out ->
        0 <= n /\ schema pool (Z.to_nat n) true "ramp_up_dataset.csv" out)
  /\ (forall n ii fi,
        simulate_ramp_down pool g now to_timestamp n ii fi = Ok out ->
        0 <= n /\ schema pool (Z.to_nat n) false "ramp_down_dataset.csv" out)
  /\ (forall fuel n p bd m ni,
        generate_random_bursts pool g now to_timestamp fuel n p bd m ni = Some (Ok out) ->
        0 <= n /\ schema pool (Z.to_nat n) true "random_burst_dataset.csv" out).
Proof.
  repeat apply conj.
  - intros n bd ni b H. unfold generate_single_spike_dataset in H.
    apply bind_Ok in H as (df & Hs & H).
    pose proof (sample_result _ _ _ _ Hs) as (Hn & Hl & _).
    split; [exact Hn|].
    change (assemble df (single_spike_timestamps g now to_timestamp n bd ni b)
                     "single_spike_dataset.csv" = Ok out) in H.
    pose proof (assemble_schema_of pool df g n _ _ out Hs H) as Hsch.
    rewrite single_spike_count in Hsch.
    destruct (Z.eqb_spec n 0) as [-> | Hne].
    + replace (Z.abs_nat b) with (Z.to_nat b + Z.to_nat (0 - b))%nat by lia.
      exact Hsch.
    + assert (Hrows : index df <> []).
      { intro He. rewrite He in Hl. cbn in Hl. lia. }
      destruct (Nat.eq_dec (Z.to_nat b + Z.to_nat (n - b)) (Z.to_nat n)) as [<- | Hd];
        [exact Hsch|].
      rewrite assemble_mismatch in H; [discriminate | | exact Hrows].
      rewrite single_spike_count. lia.
  - intros fuel n bd b lai H. unfold generate_bursty_dataset in H.
    apply and_then_Ok in H as (df & Hs & H). apply and_then_Ok in H as (ts & Hts & H).
    unfold total in *. injection Hs as Hs. injection H as H.
    pose proof (sample_result _ _ _ _ Hs) as (Hn & _).
    split; [exact Hn|].
    apply (assemble_schema_sliced pool df g n ts _ out Hs H).
    exact (bursty_sliced g now to_timestamp fuel n bd b lai ts Hn Hts).
  - intros n si st ni H. unfold simulate_regular_spikes in H.
    apply bind_Ok in H as (df & Hs & H). apply bind_Ok in H as (ts & Hts & H).
    pose proof (sample_result _ _ _ _ Hs) as (Hn & _).
    split; [exact Hn|].
    apply (assemble_schema_sliced pool df g n ts _ out Hs H).
    exact (regular_spikes_sliced g now to_timestamp n si st ni ts Hn Hts).
  - intros n ii fi H. unfold simulate_ramp_up in H.
    apply bind_Ok in H as (df & Hs & H). apply bind_Ok in H as (ts & Hts & H).
    pose proof (sample_result _ _ _ _ Hs) as (Hn & _).
    split; [exact Hn|].
    apply (assemble_schema_sliced pool df g n ts _ out Hs H).
    exact (ramp_up_sliced now to_timestamp n ii fi ts Hn Hts).
  - intros n ii fi H. split.
    + unfold simulate_ramp_down in H. apply bind_Ok in H as (df & Hs & _).
      now apply sample_result in Hs.
    + exact (ramp_down_schema pool g now to_timestamp n ii fi out H).
  - intros fuel n p bd m ni H. unfold generate_random_bursts in H.
    apply and_then_Ok in H as (df & Hs & H). apply and_then_Ok in H as (ts & Hts & H).
    unfold total in *. injection Hs as Hs. injection H as H.
    pose proof (sample_result _ _ _ _ Hs) as (Hn & _).
    split; [exact Hn|].
    apply (assemble_schema_sliced pool df g n ts _ out Hs H).
    exact (random_bursts_sliced g now to_timestamp fuel n p bd m ni ts Hn Hts).
Qed.

Lemma output_schema_witness :
  (exists out,
     simulate_regular_spikes pool2 half t0 utc_exact 6 (seconds 15) 2 (seconds 10)
     = Ok out
     /\ column_names (frame out) = ["subset"; "circuit"; "qubits"; "timestamp"]
     /\ List.length (index (frame out)) = 6%nat)
  /\ (exists out,
        generate_single_spike_dataset pool2 half t0 utc_exact 0 (seconds 60)
                                      (seconds 10) 3
        = Ok out
        /\ List.length (index (frame out)) = 3%nat).
Proof.
  split.
  - eexists. split; [reflexivity|].
    match goal with
    | |- column_names (frame ?o) = _ /\ _ =>
        destruct (output_schema pool2 half t0 utc_exact o) as (_ & _ & H & _)
    end.
    destruct (H 6 (seconds 15) 2 (seconds 10) eq_refl) as (_ & _ & Hrows & Hcols).
    split; [exact Hcols | exact Hrows].
  - eexists. split; [reflexivity|].
    match goal with
    | |- List.length (index (frame ?o)) = _ =>
        destruct (output_schema pool2 half t0 utc_exact o) as (H & _)
    end.
    destruct (H 0 (seconds 60) (seconds 10) 3 eq_refl) as (_ & _ & Hrows & _).
    exact Hrows.
Defined.

Lemma assemble_assembled_sliced (pool df : DataFrame) (g : Rng) (n : Z) (ts : list Q)
      (path : string) (out : Output) :
  has_column "timestamp" pool = false ->
  sample pool n g = Ok df -> assemble df ts path = Ok out ->
  (List.length ts <= Z.to_nat n)%nat ->
  assembled pool g ts out.
Proof.
  intros Hts Hs Ha Hle. destruct (Z_le_gt_dec 1 n) as [Hn | Hn].
  - exact (assemble_assembled pool df g n ts path out Hts Hn Hs Ha).
  - intros i Hi. lia.
Qed.

(** X6. Tasks and timestamps correspond by position: in the dataset a
    labelling generator returns, record [i] consists of the subset label 1,
    the unchanged fields of the pool row drawn at position [i], and the
    [i]-th timestamp of the strategy's sequence (for a pool without a
    [timestamp] column of its own; for the single-spike generator, when at
    least one task is asked for). *)
Theorem records_assembled (pool : DataFrame) (g : Rng) (now : datetime)
        (to_timestamp : datetime -> Q) (out : Output) :
  has_column "timestamp" pool = false ->
  (forall n bd ni b, 1 <= n ->
     generate_single_spike_dataset pool g now to_timestamp n bd ni b = Ok out ->
     assembled pool g (single_spike_timestamps g now to_timestamp n bd ni b) out)
  /\ (forall fuel n bd b lai,
        generate_bursty_dataset pool g now to_timestamp fuel n bd b lai = Some (Ok out) ->
        exists ts, bursty_timestamps g now to_timestamp fuel n bd b lai = Some (Ok ts)
                   /\ assembled pool g ts out)
  /\ (forall n si st ni,
        simulate_regular_spikes pool g now to_timestamp n si st ni = Ok out ->
        exists ts, regular_spikes_timestamps g now to_timestamp n si st ni = Ok ts
                   /\ assembled pool g ts out)
  /\ (forall n ii fi,
        simulate_ramp_up pool g now to_timestamp n ii fi = Ok out ->
        exists ts, ramp_up_timestamps now to_timestamp n ii fi = Ok ts
                   /\ assembled pool g ts out)
  /\ (forall fuel n p bd m ni,
        generate_random_bursts pool g now to_timestamp fuel n p bd m ni = Some (Ok out) ->
        exists ts, random_bursts_timestamps g now to_timestamp fuel n p bd m ni
                   = Some (Ok ts)
                   /\ assembled pool g ts out).
Proof.
  intro Hts. repeat apply conj.
  - intros n bd ni b Hn H. unfold generate_single_spike_dataset in H.
    apply bind_Ok in H as (df & Hs & H).
    exact (assemble_assembled pool df g n _ _ out Hts Hn Hs H).
  - intros fuel n bd b lai H. unfold generate_bursty_dataset in H.
    apply and_then_Ok in H as (df & Hs & H). apply and_then_Ok in H as (ts & Hrun & H).
    unfold total in *. injection Hs as Hs. injection H as H.
    pose proof (sample_result _ _ _ _ Hs) as (Hn & _).
    exists ts. split; [exact Hrun|].
    apply (assemble_assembled_sliced pool df g n ts _ out Hts Hs H).
    exact (bursty_sliced g now to_timestamp fuel n bd b lai ts Hn Hrun).
  - intros n si st ni H. unfold simulate_regular_spikes in H.
    apply bind_Ok in H as (df & Hs & H). apply bind_Ok in H as (ts & Hrun & H).
    pose proof (sample_result _ _ _ _ Hs) as (Hn & _).
    exists ts. split; [exact Hrun|].
    apply (assemble_assembled_sliced pool df g n ts _ out Hts Hs H).
    exact (regular_spikes_sliced g now to_timestamp n si st ni ts Hn Hrun).
  - intros n ii fi H. unfold simulate_ramp_up in H.
    apply bind_Ok in H as (df & Hs & H). apply bind_Ok in H as (ts & Hrun & H).
    pose proof (sample_result _ _ _ _ Hs) as (Hn & _).
    exists ts. split; [exact Hrun|].
    apply (assemble_assembled_sliced pool df g n ts _ out Hts Hs H).
    exact (ramp_up_sliced now to_timestamp n ii fi ts Hn Hrun).
  - intros fuel n p bd m ni H. unfold generate_random_bursts in H.
    apply and_then_Ok in H as (df & Hs & H). apply and_then_Ok in H as (ts & Hrun & H).
    unfold total in *. injection Hs as Hs. injection H as H.
    pose proof (sample_result _ _ _ _ Hs) as (Hn & _).
    exists ts. split; [exact Hrun|].
    apply (assemble_assembled_sliced pool df g n ts _ out Hts Hs H).
    exact (random_bursts_sliced g now to_timestamp fuel n p bd m ni ts Hn Hrun).
Qed.

Lemma records_assembled_witness :
  exists out,
    simulate_ramp_up pool2 half t0 utc_exact 3 (minutes 10) (seconds 30) = Ok out
    /\ record (frame out) 1
       = [("subset", CInt 1); ("circuit", CAttr "qft"); ("qubits", CInt 5);
          ("timestamp", CStamp (micro 600001000))].
Proof.
  eexists. split; [reflexivity|].
  match goal with
  | |- record (frame ?o) 1 = _ =>
      destruct (records_assembled pool2 half t0 utc_exact o eq_refl)
        as (_ & _ & _ & H & _)
  end.
  destruct (H 3 (minutes 10) (seconds 30) eq_refl) as (ts & Hts & Hrec).
  injection Hts as <-.
  exact (Hrec 1%nat ltac:(simpl; lia)).
Defined.

(** ** Degenerate inputs *)

(** X7. From an empty pool no task can be drawn: every generator asked for
    at least one task raises [ValueError] at its first statement, before any
    timestamp is computed (also when a later statement would have raised
    another error). *)
Theorem empty_pool (pool : DataFrame) (g : Rng) (now : datetime)
        (to_timestamp : datetime -> Q) (n : Z) :
  index pool = [] -> 1 <= n ->
  (forall bd ni b, generate_single_spike_dataset pool g now to_timestamp n bd ni b
                   = Raise ValueError)
  /\ (forall fuel bd b lai,
        generate_bursty_dataset pool g now to_timestamp fuel n bd b lai
        = Some (Raise ValueError))
  /\ (forall si st ni, simulate_regular_spikes pool g now to_timestamp n si st ni
                       = Raise ValueError)
  /\ (forall ii fi, simulate_ramp_up pool g now to_timestamp n ii fi = Raise ValueError)
  /\ (forall ii fi, simulate_ramp_down pool g now to_timestamp n ii fi = Raise ValueError)
  /\ (forall fuel p bd m ni,
        generate_random_bursts pool g now to_timestamp fuel n p bd m ni
        = Some (Raise ValueError))
  /\ (forall it, len (index it) = n -> map_invocation_times pool g it
                                       = Raise ValueError).
Proof.
  intros Hpool Hn.
  pose proof (sample_empty_pool pool g n ltac:(lia) Hpool) as Hs.
  unfold generate_single_spike_dataset, generate_bursty_dataset,
    simulate_regular_spikes, simulate_ramp_up, simulate_ramp_down,
    generate_random_bursts, map_invocation_times.
  rewrite Hs. repeat split; try reflexivity.
  intros it ->. now rewrite Hs.
Qed.

Lemma empty_pool_witness :
  simulate_regular_spikes {| index := []; columns := [("qubits", [])] |} half t0
                          utc_exact 3 (seconds 15) 0 (seconds 10)
  = Raise ValueError.
Proof.
  destruct (empty_pool {| index := []; columns := [("qubits", [])] |} half t0
              utc_exact 3 eq_refl ltac:(lia)) as (_ & _ & H & _).
  exact (H (seconds 15) 0 (seconds 10)).
Defined.

(** X8. A request for zero tasks succeeds without looking at the other
    parameters: the bursty, regular-spike and random-burst generators return
    an empty dataset even with a spike size of zero or an empty burst-size
    range, which raise for any positive count, and the while loops are not
    entered. *)
Theorem zero_tasks (pool : DataFrame) (g : Rng) (now : datetime)
        (to_timestamp : datetime -> Q) :
  has_column "subset" pool = false ->
  (forall fuel bd b lai,
     exists out, generate_bursty_dataset pool g now to_timestamp fuel 0 bd b lai
                 = Some (Ok out)
                 /\ index (frame out) = [])
  /\ (forall si st ni,
        exists out, simulate_regular_spikes pool g now to_timestamp 0 si st ni = Ok out
                    /\ index (frame out) = [])
  /\ (forall fuel p bd m ni,
        exists out, generate_random_bursts pool g now to_timestamp fuel 0 p bd m ni
                    = Some (Ok out)
                    /\ index (frame out) = []).
Proof.
  intro Hsub.
  destruct (zero_count pool g now to_timestamp) as (_ & Hfree & _).
  destruct (Hfree Hsub) as (Hb & Hr & _ & Hrb & _).
  repeat apply conj; assumption.
Qed.

Lemma zero_tasks_witness :
  exists out, simulate_regular_spikes pool2 half t0 utc_exact 0 (seconds 15) 0
                                      (seconds 10)
              = Ok out
              /\ index (frame out) = [].
Proof.
  destruct (zero_tasks pool2 half t0 utc_exact eq_refl) as (_ & H & _).
  exact (H (seconds 15) 0 (seconds 10)).
Defined.

(** ** The single-spike strategy in closed form *)

Lemma arrivals_app (c : datetime) (l1 l2 : list timedelta) :
  arrivals c (l1 ++ l2) = arrivals c l1 ++ arrivals (advanced c l1) l2.
Proof.
  revert c; induction l1 as [|d l1 IH]; intro c; [reflexivity|].
  cbn [app arrivals]. now rewrite IH.
Qed.

Lemma intervals_arrivals (c : datetime) (ds : list timedelta) :
  intervals (c :: arrivals c ds) = ds.
Proof.
  revert c; induction ds as [|d ds IH]; intro c; [reflexivity|].
  cbn [arrivals]. rewrite intervals_cons, IH.
  unfold dt_add, at_wall. cbn [wall].
  replace (wall c + d - wall c) with d by lia. reflexivity.
Qed.

Lemma arrivals_length (c : datetime) (ds : list timedelta) :
  List.length (arrivals c ds) = List.length ds.
Proof. revert c; induction ds; intro c; simpl; auto. Qed.

Lemma draws_succ (g : Rng) (span : timedelta) (parts : Z) (d k : nat) :
  draws g span parts d (S k)
  = draws g span parts d k ++ [uniform_delta g (d + k) span parts].
Proof. unfold draws. now rewrite seq_S, map_app. Qed.

Lemma draws_length (g : Rng) (span : timedelta) (parts : Z) (d k : nat) :
  List.length (draws g span parts d k) = k.
Proof. unfold draws. now rewrite List.length_map, List.length_seq. Qed.

Lemma draws_nonneg (g : Rng) (span : timedelta) (parts : Z) (d k : nat) :
  valid g -> 0 <= span -> 0 < parts ->
  Forall (fun x => 0 <= x) (draws g span parts d k).
Proof.
  intros Hg Hspan Hparts. unfold draws. apply Forall_forall. intros x Hx.
  apply in_map_iff in Hx as (j & <- & _). now apply uniform_nonneg.
Qed.

Lemma repeat_succ {A : Type} (x : A) (k : nat) : repeat x (S k) = repeat x k ++ [x].
Proof.
  induction k as [|k IH]; [reflexivity|]. cbn [repeat app] in *. now rewrite <- IH.
Qed.

Lemma iter_single_spike_burst (g : Rng) (to_timestamp : datetime -> Q)
      (bd : timedelta) (k : nat) (s : cursor) :
  Nat.iter k (single_spike_burst g to_timestamp bd) s
  = {| timestamps := timestamps s
                     ++ map to_timestamp
                            (arrivals (current_time s) (draws g bd 1 (drawn s) k));
       current_time := advanced (current_time s) (draws g bd 1 (drawn s) k);
       drawn := (drawn s + k)%nat |}.
Proof.
  induction k as [|k IH].
  - destruct s; cbn. now rewrite app_nil_r, Nat.add_0_r.
  - cbn [Nat.iter nat_rect]. fold (Nat.iter k (single_spike_burst g to_timestamp bd) s).
    rewrite IH, draws_succ, arrivals_app, advanced_snoc, map_app.
    unfold single_spike_burst, draw_uniform, advance_then_emit.
    cbn [timestamps current_time drawn arrivals map].
    rewrite <- app_assoc. f_equal. lia.
Qed.

Lemma iter_advance_then_emit (to_timestamp : datetime -> Q) (d : timedelta) (k : nat)
      (s : cursor) :
  Nat.iter k (advance_then_emit to_timestamp d) s
  = {| timestamps := timestamps s
                     ++ map to_timestamp (arrivals (current_time s) (repeat d k));
       current_time := advanced (current_time s) (repeat d k);
       drawn := drawn s |}.
Proof.
  induction k as [|k IH].
  - destruct s; cbn. now rewrite app_nil_r.
  - cbn [Nat.iter nat_rect]. fold (Nat.iter k (advance_then_emit to_timestamp d) s).
    rewrite IH, repeat_succ, arrivals_app, advanced_snoc, map_app.
    unfold advance_then_emit.
    cbn [timestamps current_time drawn arrivals map].
    rewrite <- app_assoc. reflexivity.
Qed.

(** X9. The single-spike strategy in closed form: its timestamps are taken at
    datetimes which, counted from the start instant, are separated by the
    [burst_tasks] successive uniform draws followed by
    [num_qtasks - burst_tasks] copies of [normal_interval]; the draws
    compound, each being measured from the previous arrival.  No draw is
    negative and, for a source whose draws stay within their span, each lies
    between zero and the burst duration, so the k-th burst arrival may be as
    late as k burst durations after the start. *)
Theorem single_spike_shape (g : Rng) (now : datetime) (to_timestamp : datetime -> Q)
        (n : Z) (bd ni : timedelta) (b : Z) :
  valid g -> 0 <= bd ->
  let increments := draws g bd 1 0 (Z.to_nat b) ++ repeat ni (Z.to_nat (n - b)) in
  single_spike_timestamps g now to_timestamp n bd ni b
  = map to_timestamp (arrivals now increments)
  /\ intervals (now :: arrivals now increments) = increments
  /\ Forall (fun d => 0 <= d) (draws g bd 1 0 (Z.to_nat b))
  /\ (capped g -> Forall (fun d => 0 <= d <= bd) (draws g bd 1 0 (Z.to_nat b))).
Proof.
  intros Hg Hbd. cbv zeta. split; [|split; [|split]].
  - unfold single_spike_timestamps.
    rewrite iter_advance_then_emit, iter_single_spike_burst.
    cbn [start timestamps current_time drawn app].
    now rewrite arrivals_app, map_app.
  - apply intervals_arrivals.
  - apply draws_nonneg; (assumption || lia).
  - intro Hc. unfold draws. apply Forall_forall. intros d Hd.
    apply in_map_iff in Hd as (j & <- & _).
    pose proof (uniform_nonneg g j bd 1 Hg Hbd ltac:(lia)).
    pose proof (Hc j bd Hbd). lia.
Qed.

Lemma single_spike_shape_witness :
  single_spike_timestamps half t0 utc_exact 3 (seconds 60) (seconds 10) 2
  = map utc_exact (arrivals t0 [30000000; 30000000; 10000000]).
Proof.
  destruct (single_spike_shape half t0 utc_exact 3 (seconds 60) (seconds 10) 2
              half_valid ltac:(unfold seconds; lia)) as (H & _).
  exact H.
Defined.

(** X10. Given a pool without a subset column, non-empty unless no task is
    asked for: the single-spike generator returns a dataset of [num_qtasks]
    rows when [0 <= burst_tasks <= num_qtasks].  Asked for at least one task
    with any other [burst_tasks], it raises [ValueError]: a negative
    [burst_tasks] makes the second loop overrun just as a too large one makes
    the first overrun.  Asked for no task, it returns [|burst_tasks|] rows. *)
Theorem single_spike_succeeds_iff (pool : DataFrame) (g : Rng) (now : datetime)
        (to_timestamp : datetime -> Q) (n : Z) (bd ni : timedelta) (b : Z) :
  0 <= n -> n = 0 \/ index pool <> [] -> has_column "subset" pool = false ->
  (0 <= b <= n ->
   exists out, generate_single_spike_dataset pool g now to_timestamp n bd ni b = Ok out
               /\ schema pool (Z.to_nat n) true "single_spike_dataset.csv" out)
  /\ (1 <= n -> b < 0 \/ n < b ->
      generate_single_spike_dataset pool g now to_timestamp n bd ni b
      = Raise ValueError)
  /\ (n = 0 ->
      exists out, generate_single_spike_dataset pool g now to_timestamp n bd ni b = Ok out
                  /\ schema pool (Z.abs_nat b) true "single_spike_dataset.csv" out).
Proof.
  intros Hn Hpool Hsub.
  destruct (sample_Ok pool g n Hn Hpool) as (df & Hs & Hl & Hc).
  assert (Hsub' : has_column "subset" df = false)
    by (unfold has_column; now rewrite Hc).
  pose proof (single_spike_count g now to_timestamp n bd ni b) as Hcount.
  unfold generate_single_spike_dataset. rewrite Hs. cbn [bind].
  fold (assemble df (single_spike_timestamps g now to_timestamp n bd ni b)
                 "single_spike_dataset.csv").
  split; [|split].
  - intro Hb.
    destruct (assemble_succeeds df (single_spike_timestamps g now to_timestamp n bd ni b)
                "single_spike_dataset.csv") as (out & Ha & _);
      [left; lia | exact Hsub' |].
    exists out. split; [exact Ha|].
    replace (Z.to_nat n)
      with (List.length (single_spike_timestamps g now to_timestamp n bd ni b)) by lia.
    exact (assemble_schema_of pool df g n _ _ out Hs Ha).
  - intros Hpos Hb. apply assemble_mismatch; [lia|].
    intro He. rewrite He in Hl. cbn in Hl. lia.
  - intros ->.
    destruct (assemble_succeeds df (single_spike_timestamps g now to_timestamp 0 bd ni b)
                "single_spike_dataset.csv") as (out & Ha & _);
      [right; now apply rows_empty | exact Hsub' |].
    exists out. split; [exact Ha|].
    replace (Z.abs_nat b)
      with (List.length (single_spike_timestamps g now to_timestamp 0 bd ni b)) by lia.
    exact (assemble_schema_of pool df g 0 _ _ out Hs Ha).
Qed.

Lemma single_spike_succeeds_iff_witness :
  (exists out, generate_single_spike_dataset pool2 half t0 utc_exact 3 (seconds 60)
                                             (seconds 10) 2 = Ok out)
  /\ generate_single_spike_dataset pool2 half t0 utc_exact 3 (seconds 60)
                                   (seconds 10) (-1)
     = Raise ValueError.
Proof.
  assert (Hpool : 3 = 0 \/ index pool2 <> []) by (right; discriminate).
  split.
  - destruct (single_spike_succeeds_iff pool2 half t0 utc_exact 3 (seconds 60)
                (seconds 10) 2 ltac:(lia) Hpool eq_refl) as [Hok _].
    destruct (Hok ltac:(lia)) as (out & H & _). exists out. exact H.
  - destruct (single_spike_succeeds_iff pool2 half t0 utc_exact 3 (seconds 60)
                (seconds 10) (-1) ltac:(lia) Hpool eq_refl) as (_ & Hbad & _).
    exact (Hbad ltac:(lia) ltac:(lia)).
Defined.

(** ** The bursty strategy in closed form *)

Lemma burst_loop_explicit (to_timestamp : datetime -> Q) (g : Rng) (k : nat) (n : Z)
      (span : timedelta) (parts : Z) (s : cursor) :
  len (timestamps s) <= n ->
  burst_loop to_timestamp g k n span parts s
  = let k' := Nat.min k (Z.to_nat (n - len (timestamps s))) in
    {| timestamps := timestamps s
                     ++ map to_timestamp
                            (walk (current_time s) (draws g span parts (drawn s) k'));
       current_time := advanced (current_time s) (draws g span parts (drawn s) k');
       drawn := (drawn s + k')%nat |}.
Proof.
  revert s; induction k as [|k IH]; intros s Hle; cbv zeta.
  - destruct s; cbn. now rewrite app_nil_r, Nat.add_0_r.
  - cbn [burst_loop]. unfold full.
    destruct (len (timestamps s) >=? n) eqn:Hfull; rewrite Z.geb_leb in Hfull.
    + apply Z.leb_le in Hfull.
      replace (Z.to_nat (n - len (timestamps s))) with O by lia.
      rewrite Nat.min_0_r. destruct s; cbn.
      now rewrite app_nil_r, Nat.add_0_r.
    + apply Z.leb_gt in Hfull. unfold draw_uniform.
      rewrite IH by (rewrite emit_then_advance_count; cbn [timestamps]; lia).
      cbv zeta. rewrite emit_then_advance_count.
      unfold emit_then_advance. cbn [timestamps current_time drawn].
      replace (Nat.min (S k) (Z.to_nat (n - len (timestamps s))))
        with (S (Nat.min k (Z.to_nat (n - (len (timestamps s) + 1))))) by lia.
      set (k' := Nat.min k _).
      unfold draws. cbn [seq map walk advanced fold_left].
      rewrite <- app_assoc. cbn [app]. f_equal; lia.
Qed.

Lemma while_emit_explicit (to_timestamp : datetime -> Q) (n : Z) (d : timedelta) :
  forall (k fuel : nat) (s : cursor),
    Z.of_nat k = Z.max 0 (n - len (timestamps s)) -> (k <= fuel)%nat ->
    while fuel (fun s => len (timestamps s) <? n)
          (fun s => Ok (emit_then_advance to_timestamp d s)) s
    = Some (Ok {| timestamps := timestamps s
                                ++ map to_timestamp (walk (current_time s) (repeat d k));
                  current_time := advanced (current_time s) (repeat d k);
                  drawn := drawn s |}).
Proof.
  induction k as [|k IH]; intros fuel s Hk Hfuel.
  - assert (Hc : (len (timestamps s) <? n) = false) by (apply Z.ltb_ge; lia).
    destruct fuel; cbn [while]; rewrite Hc; destruct s; cbn;
      now rewrite app_nil_r.
  - assert (Hc : (len (timestamps s) <? n) = true) by (apply Z.ltb_lt; lia).
    destruct fuel as [|fuel]; [lia|]. cbn [while]. rewrite Hc.
    rewrite IH by (try rewrite emit_then_advance_count; lia).
    unfold emit_then_advance.
    cbn [timestamps current_time drawn repeat walk advanced fold_left map].
    rewrite <- app_assoc. reflexivity.
Qed.

Lemma bursty_explicit (g : Rng) (now : datetime) (to_timestamp : datetime -> Q)
      (fuel : nat) (n : Z) (bd : timedelta) (b : Z) (lai : timedelta) :
  0 <= n -> (Z.to_nat n - Z.to_nat b <= fuel)%nat ->
  bursty_timestamps g now to_timestamp fuel n bd b lai
  = Some (Ok (map to_timestamp
                  (walk now (draws g bd b 0 (Nat.min (Z.to_nat b) (Z.to_nat n))
                             ++ repeat lai (Z.to_nat n - Z.to_nat b))))).
Proof.
  intros Hn Hfuel. unfold bursty_timestamps, bursty_low_activity.
  rewrite burst_loop_explicit by (unfold len; simpl; lia).
  cbv zeta. cbn [start timestamps current_time drawn app].
  change (len []) with 0. rewrite Z.sub_0_r, Nat.add_0_l.
  set (k1 := Nat.min (Z.to_nat b) (Z.to_nat n)).
  rewrite (while_emit_explicit to_timestamp n lai (Z.to_nat n - Z.to_nat b));
    cbn [timestamps]; unfold len;
    rewrite ?List.length_map, ?walk_length, ?draws_length; try lia.
  cbn [and_then total timestamps current_time].
  rewrite <- map_app, <- walk_app. rewrite slice_to_all; [reflexivity|].
  unfold len.
  rewrite List.length_map, walk_length, List.length_app, draws_length, repeat_length.
  lia.
Qed.

(** X11. The bursty strategy in closed form, for a non-negative count: its
    timestamps are taken at datetimes of which the first
    [min burst_tasks num_qtasks] are separated by uniform draws over a
    [burst_tasks]-th of the burst duration and the remaining ones by
    [low_activity_interval], and the low-activity loop needs one iteration per
    remaining timestamp.  When [burst_tasks >= num_qtasks] that loop is never
    entered and [low_activity_interval] has no influence on the result. *)
Theorem bursty_shape (g : Rng) (now : datetime) (to_timestamp : datetime -> Q)
        (fuel : nat) (n : Z) (bd : timedelta) (b : Z) (lai : timedelta) :
  0 <= n -> (Z.to_nat n - Z.to_nat b <= fuel)%nat ->
  bursty_timestamps g now to_timestamp fuel n bd b lai
  = Some (Ok (map to_timestamp
                  (walk now (draws g bd b 0 (Nat.min (Z.to_nat b) (Z.to_nat n))
                             ++ repeat lai (Z.to_nat n - Z.to_nat b)))))
  /\ (n <= b ->
      forall lai' fuel',
        bursty_timestamps g now to_timestamp fuel' n bd b lai'
        = bursty_timestamps g now to_timestamp fuel n bd b lai).
Proof.
  intros Hn Hfuel. split; [now apply bursty_explicit|].
  intros Hb lai' fuel'.
  rewrite !bursty_explicit by lia.
  replace (Z.to_nat n - Z.to_nat b)%nat with O by lia. reflexivity.
Qed.

Lemma bursty_shape_witness :
  bursty_timestamps half t0 utc_exact 2 4 (seconds 60) 2 (seconds 10)
  = Some (Ok (map micro [1000; 15001000; 30001000; 40001000]))
  /\ bursty_timestamps half t0 utc_exact 0 2 (seconds 60) 5 (seconds 10)
     = bursty_timestamps half t0 utc_exact 0 2 (seconds 60) 5 (seconds 99).
Proof.
  split.
  - destruct (bursty_shape half t0 utc_exact 2 4 (seconds 60) 2 (seconds 10)
                ltac:(lia) ltac:(simpl; lia)) as [H _].
    exact H.
  - destruct (bursty_shape half t0 utc_exact 0 2 (seconds 60) 5 (seconds 99)
                ltac:(lia) ltac:(simpl; lia)) as [_ H].
    exact (H ltac:(lia) (seconds 10) 0%nat).
Defined.

(** ** The regular-spike strategy at its edges *)

Lemma for_each_ext {St : Type} (body body' : Z -> St -> result St) (it : list Z) :
  (forall i s, In i it -> body i s = body' i s) ->
  forall s, for_each body it s = for_each body' it s.
Proof.
  induction it as [|i rest IH]; intros Hext s; [reflexivity|].
  cbn [for_each]. rewrite Hext by now left.
  destruct (body' i s); cbn [bind]; [|reflexivity].
  apply IH. intros j s' Hj. apply Hext. now right.
Qed.

Lemma for_each_app {St : Type} (body : Z -> St -> result St) (l1 l2 : list Z) (s : St) :
  for_each body (l1 ++ l2) s = bind (for_each body l1 s) (for_each body l2).
Proof.
  revert s; induction l1 as [|i l1 IH]; simpl; intro s; [reflexivity|].
  destruct (body i s); simpl; auto.
Qed.

Lemma map_const_range (d n : Z) :
  map (fun _ : Z => d) (range n) = repeat d (Z.to_nat n).
Proof.
  rewrite <- (range_length n). generalize (range n) as l.
  induction l as [|x l IH]; [reflexivity|]. cbn. now rewrite IH.
Qed.

Lemma mod_nonzero_below (i st : Z) : 0 < i < Z.abs st -> i mod st <> 0.
Proof.
  intros Hi Hmod.
  assert (Hst : st <> 0) by lia.
  pose proof (Z.div_mod i st Hst) as Hdm. rewrite Hmod in Hdm.
  assert (Hq : i / st <> 0) by nia.
  nia.
Qed.

(** X13. Regular spikes with a spike size of zero: the first evaluation of
    [i % spike_tasks] divides by zero, so for any positive count and non-empty
    pool the call raises [ZeroDivisionError]. *)
Theorem regular_spikes_zero_spike_size (pool : DataFrame) (g : Rng) (now : datetime)
        (to_timestamp : datetime -> Q) (n : Z) (si ni : timedelta) :
  1 <= n -> index pool <> [] ->
  regular_spikes_timestamps g now to_timestamp n si 0 ni = Raise ZeroDivisionError
  /\ simulate_regular_spikes pool g now to_timestamp n si 0 ni = Raise ZeroDivisionError.
Proof.
  intros Hn Hpool.
  assert (Hts : regular_spikes_timestamps g now to_timestamp n si 0 ni
                = Raise ZeroDivisionError).
  { unfold regular_spikes_timestamps, range.
    replace (Z.to_nat n) with (S (Z.to_nat n - 1)) by lia. reflexivity. }
  split; [exact Hts|]. unfold simulate_regular_spikes.
  destruct (sample_Ok pool g n) as (df & -> & _); [lia | now right |].
  cbn [bind]. now rewrite Hts.
Qed.

Lemma regular_spikes_zero_spike_size_witness :
  simulate_regular_spikes pool2 half t0 utc_exact 3 (seconds 15) 0 (seconds 10)
  = Raise ZeroDivisionError.
Proof.
  exact (proj2 (regular_spikes_zero_spike_size pool2 half t0 utc_exact 3 (seconds 15)
                  (seconds 10) ltac:(lia) ltac:(discriminate))).
Defined.

(** X14. No spike fires unless the count exceeds the spike size: with
    [num_qtasks <= |spike_tasks|] the timestamps of the regular-spike strategy
    are taken at the start instant and then every [normal_interval], without
    using the spike interval or any random draw. *)
Theorem regular_spikes_without_spike (g : Rng) (now : datetime)
        (to_timestamp : datetime -> Q) (n : Z) (si : timedelta) (st : Z)
        (ni : timedelta) :
  n <= Z.abs st ->
  regular_spikes_timestamps g now to_timestamp n si st ni
  = Ok (map to_timestamp (walk now (repeat ni (Z.to_nat n)))).
Proof.
  intro Hn. unfold regular_spikes_timestamps.
  rewrite (for_each_ext _ (fun _ s => Ok (emit_then_advance to_timestamp ni s))).
  - rewrite (for_each_walk to_timestamp (fun _ => ni)).
    cbn [bind start timestamps current_time app].
    rewrite (map_const_range ni). f_equal. destruct (Z.ltb_spec n 0) as [Hneg | Hpos].
    + replace (Z.to_nat n) with O by lia. cbn [repeat walk map].
      unfold slice_to. destruct (0 <=? n); apply firstn_nil.
    + apply slice_to_all. unfold len.
      rewrite List.length_map, walk_length, repeat_length. lia.
  - intros i s Hi. apply range_In in Hi.
    unfold regular_spikes_body, py_mod.
    rewrite (proj2 (Z.eqb_neq st 0)) by lia. cbn [bind].
    destruct (Z.eqb_spec i 0) as [-> | Hi0].
    + now rewrite andb_false_r.
    + rewrite (proj2 (Z.eqb_neq (i mod st) 0)); [reflexivity|].
      apply mod_nonzero_below. lia.
Qed.

Lemma regular_spikes_without_spike_witness :
  regular_spikes_timestamps half t0 utc_exact 3 (seconds 15) 5 (seconds 10)
  = Ok (map micro [1000; 10001000; 20001000]).
Proof.
  exact (regular_spikes_without_spike half t0 utc_exact 3 (seconds 15) 5 (seconds 10)
           ltac:(lia)).
Defined.

Lemma regular_spikes_negative_step (g : Rng) (to_timestamp : datetime -> Q) (n : Z)
      (si : timedelta) (st : Z) (ni : timedelta) (i : Z) (s : cursor) :
  st < 0 ->
  exists s', regular_spikes_body g to_timestamp n si st ni i s = Ok s'
             /\ len (timestamps s') <= len (timestamps s) + 1
             /\ (i <> 0 -> i mod st = 0 -> len (timestamps s') = len (timestamps s)).
Proof.
  intro Hst. unfold regular_spikes_body, py_mod.
  rewrite (proj2 (Z.eqb_neq st 0)) by lia. cbn [bind].
  replace (Z.to_nat st) with O by lia. cbn [burst_loop].
  destruct ((i mod st =? 0) && negb (i =? 0)) eqn:Hc.
  - eexists. split; [reflexivity|]. cbn [advance timestamps]. split; [lia | reflexivity].
  - eexists. split; [reflexivity|]. rewrite emit_then_advance_count. split; [lia|].
    intros Hi Hmod. rewrite Hmod in Hc. cbn in Hc.
    apply Z.eqb_neq in Hi. rewrite Hi in Hc. discriminate.
Qed.

Lemma regular_spikes_negative_loop (g : Rng) (to_timestamp : datetime -> Q) (n : Z)
      (si : timedelta) (st : Z) (ni : timedelta) (it : list Z) (s : cursor) :
  st < 0 ->
  exists s', for_each (regular_spikes_body g to_timestamp n si st ni) it s = Ok s'
             /\ len (timestamps s') <= len (timestamps s) + len it.
Proof.
  intro Hst. revert s; induction it as [|i rest IH]; intro s.
  - exists s. split; [reflexivity|]. change (len (@nil Z)) with 0. lia.
  - destruct (regular_spikes_negative_step g to_timestamp n si st ni i s Hst)
      as (s1 & Hb & H1 & _).
    destruct (IH s1) as (s' & Hrun & H').
    exists s'. cbn [for_each]. rewrite Hb. cbn [bind]. split; [exact Hrun|].
    change (i :: rest) with ([i] ++ rest). rewrite len_app.
    change (len [i]) with 1. lia.
Qed.

(** X15. A negative spike size starves the output: every index that is a
    multiple of [spike_tasks] runs the spike branch, whose inner
    [range(spike_tasks)] is empty, so nothing is emitted for it.  As soon as
    [num_qtasks > -spike_tasks] fewer than [num_qtasks] timestamps exist after
    the loop and the assignment of the column raises [ValueError]. *)
Theorem regular_spikes_negative_spike_size (pool : DataFrame) (g : Rng)
        (now : datetime) (to_timestamp : datetime -> Q) (n : Z) (si : timedelta)
        (st : Z) (ni : timedelta) :
  st < 0 -> - st < n -> index pool <> [] ->
  (exists ts, regular_spikes_timestamps g now to_timestamp n si st ni = Ok ts
              /\ (List.length ts < Z.to_nat n)%nat)
  /\ simulate_regular_spikes pool g now to_timestamp n si st ni = Raise ValueError.
Proof.
  intros Hst Hn Hpool.
  assert (Hts : exists ts, regular_spikes_timestamps g now to_timestamp n si st ni = Ok ts
                           /\ (List.length ts < Z.to_nat n)%nat).
  { unfold regular_spikes_timestamps.
    assert (Hsplit : range n = range (- st) ++ (- st) :: map Z.of_nat
                       (seq (S (Z.to_nat (- st))) (Z.to_nat n - Z.to_nat (- st) - 1))).
    { unfold range.
      replace (Z.to_nat n)
        with (Z.to_nat (- st) + S (Z.to_nat n - Z.to_nat (- st) - 1))%nat at 1 by lia.
      rewrite seq_app, map_app. cbn [seq map Nat.add]. f_equal. f_equal. lia. }
    rewrite Hsplit, for_each_app.
    destruct (regular_spikes_negative_loop g to_timestamp n si st ni (range (- st))
                (start now) Hst)
      as (s1 & -> & H1).
    cbn [bind for_each].
    destruct (regular_spikes_negative_step g to_timestamp n si st ni (- st) s1 Hst)
      as (s2 & -> & _ & H2).
    cbn [bind].
    match goal with
    | |- context [for_each _ ?l s2] =>
        destruct (regular_spikes_negative_loop g to_timestamp n si st ni l s2 Hst)
          as (s3 & -> & H3)
    end.
    cbn [bind]. eexists. split; [reflexivity|].
    assert (Hmod : - st mod st = 0).
    { apply Z.mod_divide; [lia|]. exists (-1). lia. }
    specialize (H2 ltac:(lia) Hmod).
    unfold len in H1 at 2 3. unfold len in H3 at 3.
    rewrite range_length in H1. rewrite List.length_map, List.length_seq in H3.
    cbn [start timestamps List.length] in H1.
    destruct (slice_to_prefix (timestamps s3) n) as [k ->].
    rewrite List.length_firstn. unfold len in *. lia. }
  split; [exact Hts|]. destruct Hts as (ts & Hrun & Hlt).
  unfold simulate_regular_spikes.
  destruct (sample_Ok pool g n) as (df & Hs & Hl & _); [lia | now right |].
  rewrite Hs. cbn [bind]. rewrite Hrun. cbn [bind].
  apply (assemble_mismatch df ts "regular_spike_dataset.csv"); [lia|].
  intro He. rewrite He in Hl. cbn in Hl. lia.
Qed.

Lemma regular_spikes_negative_spike_size_witness :
  simulate_regular_spikes pool2 half t0 utc_exact 3 (seconds 15) (-1) (seconds 10)
  = Raise ValueError.
Proof.
  exact (proj2 (regular_spikes_negative_spike_size pool2 half t0 utc_exact 3
                  (seconds 15) (-1) (seconds 10)
                  ltac:(lia) ltac:(lia) ltac:(discriminate))).
Defined.

(** ** Random bursts with an empty burst-size range *)

Lemma below_certain (g : Rng) (k : nat) (p : Q) :
  valid g -> (1 <= p)%Q -> below (unit_sample g k) p = true.
Proof.
  intros (Hu & _) Hp. destruct (Hu k) as [_ H1]. unfold below.
  destruct (Qle_bool p (unit_sample g k)) eqn:Hle; [|reflexivity].
  apply Qle_bool_iff in Hle. exfalso.
  apply (Qlt_irrefl 1). eapply Qle_lt_trans; [|exact H1].
  eapply Qle_trans; eassumption.
Qed.

(** X16. With a burst chance of at least one every decision is a burst, and
    with [max_tasks_in_burst < 1] the draw of the burst size has an empty
    range: for any positive count the generator raises [ValueError] in its
    first iteration, whatever the pool. *)
Theorem random_bursts_empty_size_range (pool : DataFrame) (g : Rng) (now : datetime)
        (to_timestamp : datetime -> Q) (fuel : nat) (n : Z) (p : Q) (bd : timedelta)
        (m : Z) (ni : timedelta) :
  valid g -> (1 <= p)%Q -> m < 1 -> 1 <= n -> (1 <= fuel)%nat ->
  generate_random_bursts pool g now to_timestamp fuel n p bd m ni = Some (Raise ValueError).
Proof.
  intros Hg Hp Hm Hn Hfuel. unfold generate_random_bursts.
  destruct (sample pool n g) as [df|e] eqn:Hs; cbn [total and_then].
  - unfold random_bursts_timestamps, random_bursts_loop.
    destruct fuel as [|fuel]; [lia|]. cbn [while start timestamps].
    change (len []) with 0. rewrite (proj2 (Z.ltb_lt 0 n)) by lia.
    unfold random_bursts_body. cbv zeta. cbn [start drawn tick].
    rewrite below_certain by assumption.
    unfold randint1. rewrite (proj2 (Z.ltb_lt m 1)) by lia. reflexivity.
  - now rewrite (sample_raises _ _ _ _ Hs).
Qed.

Lemma random_bursts_empty_size_range_witness :
  generate_random_bursts pool2 half t0 utc_exact 5 3 1 (minutes 1) 0 (minutes 10)
  = Some (Raise ValueError).
Proof.
  exact (random_bursts_empty_size_range pool2 half t0 utc_exact 5 3 1 (minutes 1) 0
           (minutes 10) half_valid ltac:(unfold Qle; simpl; lia)
           ltac:(lia) ltac:(lia) ltac:(lia)).
Defined.

(** ** The ramp strategies, continued *)

Lemma walk_ordered (c : datetime) (ds : list timedelta) :
  Forall (fun d => 0 <= d) ds ->
  Forall (fun t => wall c <= wall t) (walk c ds) /\ ascending (walk c ds).
Proof.
  revert c; induction ds as [|d ds IH]; intros c Hall; [split; [constructor | exact I]|].
  inversion Hall as [|? ? Hd Hrest]; subst.
  destruct (IH (dt_add c d) Hrest) as [Hge Hnd]. cbn [walk]. split.
  - constructor; [lia|]. eapply Forall_impl; [|exact Hge]. cbn. intros; lia.
  - destruct ds as [|d' ds]; [exact I|]. cbn [walk ascending] in *.
    split; [cbn; lia | exact Hnd].
Qed.

Lemma walk_in_order (to_timestamp : datetime -> Q) (c : datetime)
      (ds : list timedelta) :
  Forall (fun d => 0 <= d) ds ->
  in_order to_timestamp c (map to_timestamp (walk c ds)).
Proof.
  intro H. destruct (walk_ordered c ds H) as [Hge Hr].
  exists (walk c ds). repeat split; assumption.
Qed.

(** X18. When do the ramps run forward?  For a count of at least two, the
    ramp-down timestamps are taken at datetimes in order, none before the
    start, if [0 <= initial_interval <= final_interval]; the ramp-up
    timestamps are if [final_interval <= initial_interval] and the final
    interval is at least [(num_qtasks - 1) / 2] microseconds, which absorbs
    the rounding of the step.  Under a monotone conversion the timestamps
    then never precede that of the start and never decrease. *)
Theorem ramp_ordered (now : datetime) (to_timestamp : datetime -> Q) (n : Z)
        (ii fi : timedelta) :
  2 <= n ->
  (0 <= ii <= fi ->
   exists ts, ramp_down_timestamps now to_timestamp n ii fi = Ok ts
              /\ in_order to_timestamp now ts
              /\ (monotone to_timestamp ->
                  Forall (fun t => (to_timestamp now <= t)%Q) ts /\ nondecreasing ts))
  /\ (fi <= ii -> n - 1 <= 2 * fi ->
      exists ts, ramp_up_timestamps now to_timestamp n ii fi = Ok ts
                 /\ in_order to_timestamp now ts
                 /\ (monotone to_timestamp ->
                     Forall (fun t => (to_timestamp now <= t)%Q) ts
                     /\ nondecreasing ts)).
Proof.
  intro Hn. split.
  - intro Hord. eexists. split; [apply ramp_down_explicit; lia|].
    match goal with
    | |- in_order _ _ ?ts /\ _ => assert (H : in_order to_timestamp now ts)
    end.
    { apply walk_in_order. apply Forall_forall. intros d Hd.
      apply in_map_iff in Hd as (i & <- & Hi). apply range_In in Hi.
      pose proof (divide_and_round_nonneg (fi - ii) (n - 1)). nia. }
    split; [exact H|]. intro Hm. now apply in_order_monotone.
  - intros Hord Hfi. eexists. split; [apply ramp_up_explicit; lia|].
    match goal with
    | |- in_order _ _ ?ts /\ _ => assert (H : in_order to_timestamp now ts)
    end.
    { apply walk_in_order. apply Forall_forall. intros d Hd.
      apply in_map_iff in Hd as (i & <- & Hi). apply range_In in Hi.
      pose proof (divide_and_round_nonneg (ii - fi) (n - 1) ltac:(lia) ltac:(lia)).
      pose proof (divide_and_round_close (ii - fi) (n - 1) ltac:(lia)).
      nia. }
    split; [exact H|]. intro Hm. now apply in_order_monotone.
Qed.

Lemma ramp_ordered_witness :
  (exists ts, ramp_down_timestamps t0 utc_exact 4 (seconds 30) (minutes 10) = Ok ts
              /\ Forall (fun t => (utc_exact t0 <= t)%Q) ts /\ nondecreasing ts)
  /\ (exists ts, ramp_up_timestamps t0 utc_exact 4 (minutes 10) (seconds 30) = Ok ts
                 /\ Forall (fun t => (utc_exact t0 <= t)%Q) ts /\ nondecreasing ts).
Proof.
  split.
  - destruct (ramp_ordered t0 utc_exact 4 (seconds 30) (minutes 10) ltac:(lia))
      as [H _].
    destruct (H ltac:(unfold seconds, minutes; lia)) as (ts & Hts & _ & Hm).
    exists ts. split; [exact Hts | exact (Hm utc_exact_monotone)].
  - destruct (ramp_ordered t0 utc_exact 4 (minutes 10) (seconds 30) ltac:(lia))
      as [_ H].
    destruct (H ltac:(unfold seconds, minutes; lia) ltac:(unfold seconds; lia))
      as (ts & Hts & _ & Hm).
    exists ts. split; [exact Hts | exact (Hm utc_exact_monotone)].
Defined.

(** X19. The ramps stop one step short of the final interval.  When the
    interval difference is a multiple [q * (num_qtasks - 1)] of the number of
    steps, the step is exactly [q], the datetimes at which timestamps [i] and
    [i + 1] are taken are [initial_interval - i * q] apart (ramp-up) or
    [initial_interval + i * q] apart (ramp-down), and the last two are
    [final_interval + q], respectively [final_interval - q], apart: the final
    interval itself only moves the cursor after the last timestamp. *)
Theorem ramp_stops_short (now : datetime) (to_timestamp : datetime -> Q) (n : Z)
        (ii fi : timedelta) (q : Z) :
  2 <= n ->
  (ii - fi = q * (n - 1) ->
   exists taken,
     ramp_up_timestamps now to_timestamp n ii fi = Ok (map to_timestamp taken)
     /\ intervals taken = map (fun i => ii - i * q) (range (n - 1))
     /\ last (intervals taken) 0 = fi + q)
  /\ (fi - ii = q * (n - 1) ->
      exists taken,
        ramp_down_timestamps now to_timestamp n ii fi = Ok (map to_timestamp taken)
        /\ intervals taken = map (fun i => ii + i * q) (range (n - 1))
        /\ last (intervals taken) 0 = fi - q).
Proof.
  intro Hn.
  assert (Hlast : forall f : Z -> Z, last (map f (range (n - 1))) 0 = f (n - 2)).
  { intro f. replace (n - 1) with (n - 2 + 1) by lia.
    rewrite range_succ by lia. rewrite map_app. cbn [map]. apply last_last. }
  split; intro Hq.
  - eexists. split; [apply ramp_up_explicit; lia|].
    rewrite intervals_walk, removelast_range by lia.
    rewrite Hq, divide_and_round_exact by lia.
    split; [reflexivity|]. rewrite Hlast. nia.
  - eexists. split; [apply ramp_down_explicit; lia|].
    rewrite intervals_walk, removelast_range by lia.
    rewrite Hq, divide_and_round_exact by lia.
    split; [reflexivity|]. rewrite Hlast. nia.
Qed.

Lemma ramp_stops_short_witness :
  exists taken,
    ramp_up_timestamps t0 utc_exact 4 (seconds 40) (seconds 10)
    = Ok (map utc_exact taken)
    /\ intervals taken = [40000000; 30000000; 20000000]
    /\ last (intervals taken) 0 = seconds 10 + 10000000.
Proof.
  destruct (ramp_stops_short t0 utc_exact 4 (seconds 40) (seconds 10) 10000000
              ltac:(lia)) as [H _].
  exact (H ltac:(unfold seconds; lia)).
Defined.

(** ** The pace of the random bursts *)

Lemma intervals_snoc (l : list datetime) (a x : datetime) :
  intervals ((l ++ [a]) ++ [x]) = intervals (l ++ [a]) ++ [wall x - wall a].
Proof.
  induction l as [|b l IH]; [reflexivity|].
  destruct l as [|c l]; [reflexivity|].
  cbn [app] in *. rewrite !intervals_cons. now rewrite IH.
Qed.

Lemma Forall_intervals_firstn (P : Z -> Prop) (k : nat) (l : list datetime) :
  Forall P (intervals l) -> Forall P (intervals (firstn k l)).
Proof.
  revert l; induction k as [|k IH]; intros l H; [constructor|].
  destruct l as [|a [|b l]]; [constructor | destruct k; constructor|].
  rewrite intervals_cons in H.
  assert (Hab : P (wall b - wall a)) by (now inversion H).
  assert (Hrest : Forall P (intervals (b :: l))) by (now inversion H).
  specialize (IH (b :: l) Hrest).
  destruct k as [|k]; [constructor|].
  change (firstn (S (S k)) (a :: b :: l)) with (a :: b :: firstn k l).
  change (firstn (S k) (b :: l)) with (b :: firstn k l) in IH.
  rewrite intervals_cons. constructor; assumption.
Qed.

Lemma paced_emit_then_advance (to_timestamp : datetime -> Q) (bound d : Z)
      (s : cursor) :
  0 <= d <= bound -> paced to_timestamp bound s ->
  paced to_timestamp bound (emit_then_advance to_timestamp d s).
Proof.
  intros Hd (l & Hl & Hs). exists (l ++ [current_time s]).
  unfold emit_then_advance. cbn [timestamps current_time]. split.
  - now rewrite map_app, Hl.
  - rewrite intervals_snoc. apply Forall_app. split; [exact Hs|].
    constructor; [cbn; lia | constructor].
Qed.

Lemma paced_tick (to_timestamp : datetime -> Q) (bound : Z) (s : cursor) :
  paced to_timestamp bound s -> paced to_timestamp bound (tick s).
Proof. intros (l & Hl & Hs). exists l. split; assumption. Qed.

Lemma paced_burst_loop (to_timestamp : datetime -> Q) (g : Rng) (bound : Z) (k : nat)
      (n : Z) (span : timedelta) (s : cursor) :
  valid g -> capped g -> 0 <= span <= bound ->
  paced to_timestamp bound s ->
  paced to_timestamp bound (burst_loop to_timestamp g k n span 1 s).
Proof.
  intros Hg Hc Hspan. revert s; induction k as [|k IH]; intros s Hs; [exact Hs|].
  cbn [burst_loop]. destruct (full n s); [exact Hs|].
  unfold draw_uniform. apply IH.
  pose proof (uniform_nonneg g (drawn s) span 1 Hg ltac:(lia) ltac:(lia)).
  pose proof (Hc (drawn s) span ltac:(lia)).
  apply paced_emit_then_advance; [lia|].
  destruct Hs as (l & Hl & Hs). exists l. split; assumption.
Qed.

(** X20. The random-burst strategy never waits longer than the larger of the
    burst duration and the normal interval: with non-negative parameters and
    a source whose draws stay within their span, its timestamps are taken at
    datetimes whose consecutive gaps lie between zero and
    [max burst_duration normal_interval]. *)
Theorem random_bursts_paced (g : Rng) (now : datetime) (to_timestamp : datetime -> Q)
        (fuel : nat) (n : Z) (p : Q) (bd : timedelta) (m : Z) (ni : timedelta)
        (ts : list Q) :
  valid g -> capped g -> 0 <= bd -> 0 <= ni ->
  random_bursts_timestamps g now to_timestamp fuel n p bd m ni = Some (Ok ts) ->
  exists taken,
    ts = map to_timestamp taken
    /\ Forall (fun d => 0 <= d <= Z.max bd ni) (intervals taken).
Proof.
  intros Hg Hc Hbd Hni H. unfold random_bursts_timestamps in H.
  apply and_then_Ok in H as (s & Hloop & H). inversion H; subst ts; clear H.
  unfold random_bursts_loop in Hloop.
  apply (while_inv (paced to_timestamp (Z.max bd ni))) in Hloop as [Hp _].
  - destruct Hp as (l & Hl & Hp). exists (slice_to l n).
    rewrite Hl, slice_to_map. split; [reflexivity|].
    destruct (slice_to_prefix l n) as [k ->].
    apply Forall_intervals_firstn.
    replace l with (firstn (List.length l) (l ++ [current_time s])).
    + apply Forall_intervals_firstn. exact Hp.
    + rewrite firstn_app, Nat.sub_diag, firstn_all. cbn [firstn]. apply app_nil_r.
  - intros s1 s2 Hs1 _ Hb. unfold random_bursts_body in Hb. cbv zeta in Hb.
    destruct (below _ p).
    + apply bind_Ok in Hb as (k & _ & Hb). inversion Hb; subst s2.
      apply paced_burst_loop; [exact Hg | exact Hc | lia |].
      now apply paced_tick, paced_tick.
    + inversion Hb; subst s2.
      apply paced_emit_then_advance; [lia | now apply paced_tick].
  - exists []. cbn. split; [reflexivity | constructor].
Qed.

Lemma random_bursts_paced_witness :
  exists ts taken,
    random_bursts_timestamps half t0 utc_exact 5 4 1 (seconds 60) 3 (seconds 10)
    = Some (Ok ts)
    /\ ts = map utc_exact taken
    /\ Forall (fun d => 0 <= d <= Z.max (seconds 60) (seconds 10)) (intervals taken).
Proof.
  eexists.
  destruct (random_bursts_paced half t0 utc_exact 5 4 1 (seconds 60) 3 (seconds 10) _
              half_valid half_capped
              ltac:(unfold seconds; lia) ltac:(unfold seconds; lia) eq_refl)
    as (taken & Hts & Hp).
  exists taken. split; [reflexivity|]. split; assumption.
Defined.
